(** * DeepVerify client code: frontend pages, API client and browser extension

    A shallow embedding of the TypeScript/JavaScript client code of the
    repository (Next.js pages and components, [lib/api.ts], [lib/auth.ts],
    the browser extension) together with the endpoint table of the README,
    followed by the properties of that code.

    Conventions of the embedding.
    - A number of a JSON response is the rational its literal denotes ([Q]).
      Where a component only compares, selects or formats such a number, it is
      computed with as it is.  Where the page multiplies or divides and a
      property depends on the result as the page computes it (the scores of
      the home page's meter, the accuracy of the dashboard), the arithmetic is
      that of IEEE 754 binary64, with its rounding, infinities and NaN
      ([Double]); the definitions in exact arithmetic that stand beside it say
      so.
    - A string is the sequence of the bytes of its UTF-8 encoding.
    - An event handler is a computation in the monad [M]: it reads and writes
      the component state, [localStorage], and appends the effects it performs
      (requests sent, navigation, notifications) to a log, in program order.
      A rejected promise or a thrown exception is the outcome [Thrown].
    - What the network answers to an awaited request is an argument of the
      handler, typed by the TypeScript annotation of the call site. *)

From Stdlib Require Import QArith Qminmax Qround Qabs ZArith Lia Ascii String DecimalString.
From Stdlib Require Import SpecFloat PrimFloat FloatOps.
From stdpp Require Import gmap strings list.

Local Open Scope string_scope.

(** ** JavaScript values *)

Abbreviation number := Q (only parsing).

(** Values of type [any]: request bodies, error payloads, responses read by
    the extension. *)
#[local] Unset Elimination Schemes.
Inductive jsval :=
| VUndefined
| VNull
| VBool (b : bool)
| VNum (n : number)
| VStr (s : string)
| VArr (items : list jsval)
| VObj (fields : list (string * jsval)).
#[local] Set Elimination Schemes.

(** [v.k] and [v?.k] on a value that is not null or undefined. *)
Fixpoint assoc (k : string) (fields : list (string * jsval)) : jsval :=
  match fields with
  | [] => VUndefined
  | (k', v) :: rest => if String.eqb k k' then v else assoc k rest
  end.

Definition field (k : string) (v : jsval) : jsval :=
  match v with
  | VObj fields => assoc k fields
  | _ => VUndefined
  end.

(** ToBoolean. *)
Definition truthy (v : jsval) : bool :=
  match v with
  | VUndefined | VNull => false
  | VBool b => b
  | VNum n => negb (Qeq_bool n 0)
  | VStr s => negb (String.eqb s "")
  | VArr _ | VObj _ => true
  end.

(** A string built from values of type [any]: the literal chunks of a
    template literal and the values interpolated between them (converted by
    ToString when the string is built), joined arrays, serialised values. *)
Inductive piece :=
| Lit (s : string)
| Interp (v : jsval)
| Joined (items : list jsval) (separator : string)   (* items.join(separator) *)
| Stringified (v : jsval).                           (* JSON.stringify(v) *)

Definition template := list piece.

(** ** Numbers, in exact arithmetic

    Comparisons, maximum and minimum, which are the same on the doubles that
    are finite; the quotient without rounding; the decimal notation of a
    rational. *)

Module Number.


Definition gt (a b : number) : bool := negb (Qle_bool a b).
Definition ge (a b : number) : bool := Qle_bool b a.

(** [Math.max] and [Math.min] of two numbers. *)
Definition Math_max (a b : number) : number := if Qle_bool a b then b else a.
Definition Math_min (a b : number) : number := if Qle_bool a b then a else b.

(** The integer [n] for which [n / 10^f - x] is closest to zero, the larger
    one when two are as close, for [x >= 0]. *)
Definition nearest (f : nat) (x : number) : Z :=
  Qfloor (x * inject_Z (10 ^ Z.of_nat f)%Z + (1 # 2))%Q.

Definition digits (n : Z) : string :=
  NilZero.string_of_uint (N.to_uint (Z.to_N n)).

Fixpoint zeros (k : nat) : string :=
  match k with O => "" | S k' => "0" +:+ zeros k' end.

(** [n] written with at least [f + 1] digits, a point before the last [f]. *)
Definition place_point (f : nat) (n : Z) : string :=
  let m := digits n in
  let m := zeros (S f - String.length m) +:+ m in
  let k := (String.length m - f)%nat in
  match f with
  | O => m
  | _ => String.substring 0 k m +:+ "." +:+ String.substring k f m
  end.

(** What [toFixed(f)] writes for a number of value [x], of magnitude below
    1e21 (where JavaScript switches to the exponent notation). *)
Definition toFixed (f : nat) (x : number) : string :=
  if Qle_bool 0 x
  then place_point f (nearest f x)
  else "-" +:+ place_point f (nearest f (- x)%Q).

End Number.

(** ** Numbers as the engine computes them: IEEE 754 binary64

    The values are those of [spec_float], the operations the ones the
    Standard Library specifies for the format with a mantissa of 53 bits and
    infinities at exponent 1024; they round to nearest, ties to even. *)
Module Double.

Definition t : Type := spec_float.

Definition prec : Z := 53.
Definition emax : Z := 1024.

(** The double a number literal of a JSON text (or of the source) is parsed
    to: the one nearest to the rational the literal denotes, an infinity
    beyond the largest double.  The quotient of the numerator by the
    denominator, both taken as integers of any size, rounded once. *)
Definition of_number (q : number) : t :=
  match Qnum q with
  | Z0 => S754_zero false
  | Zpos n => SFdiv prec emax (S754_finite false n 0) (S754_finite false (Qden q) 0)
  | Zneg n => SFdiv prec emax (S754_finite true n 0) (S754_finite false (Qden q) 0)
  end.

Definition zero : t := of_number 0.
Definition hundred : t := of_number 100.

Definition mul : t -> t -> t := SFmul prec emax.
Definition div : t -> t -> t := SFdiv prec emax.

(** [a >= b], [a > b], [a < b] and [a == b]; false when an operand is NaN. *)
Definition ge (a b : t) : bool := SFleb b a.
Definition gt (a b : t) : bool := SFltb b a.
Definition lt (a b : t) : bool := SFltb a b.
Definition eqb (a b : t) : bool := SFeqb a b.

Definition is_nan (x : t) : bool :=
  match x with S754_nan => true | _ => false end.

Definition is_zero (x : t) : bool :=
  match x with S754_zero _ => true | _ => false end.

Definition is_finite (x : t) : bool :=
  match x with
  | S754_zero _ | S754_finite _ _ _ => true
  | S754_infinity _ | S754_nan => false
  end.

(** [x] is a zero, a finite number or an infinity of sign [s] ([true] for
    the negative ones). *)
Definition has_sign (s : bool) (x : t) : bool :=
  match x with
  | S754_zero s' | S754_infinity s' | S754_finite s' _ _ => Bool.eqb s s'
  | S754_nan => false
  end.

(** The rational a finite double stands for. *)
Definition value (x : t) : option number :=
  match x with
  | S754_zero _ => Some 0%Q
  | S754_finite s m e =>
      Some ((if s then - 1 else 1) * inject_Z (Zpos m) * 2 ^ e)%Q
  | S754_infinity _ | S754_nan => None
  end.

(** [x || 0] *)
Definition or_zero (x : t) : t :=
  if is_zero x || is_nan x then zero else x.

(** The text [x.toFixed(f)] gives: the decimal notation with [f] digits
    after the point for a finite [x] of magnitude below 1e21, and the text
    of [String(x)] otherwise (the exponent notation, "Infinity", "-Infinity"
    or "NaN"), which is kept as the number it is the text of. *)
Inductive fixed :=
| Decimal (digits : string)
| AsString (x : t).

Definition toFixed (f : nat) (x : t) : fixed :=
  match value x with
  | Some q =>
      if Qle_bool (inject_Z (10 ^ 21)) (Qabs q) then AsString x
      else Decimal (Number.toFixed f q)
  | None => AsString x
  end.

End Double.

(** [s.trim()]: the white space and the line terminators of ECMAScript
    removed at both ends.  A string being the bytes of its UTF-8 encoding, a
    character to remove is a sequence of one to three bytes. *)
Module Str.

(** The bytes of a string, and the string of a list of bytes. *)
Fixpoint chars (s : string) : list ascii :=
  match s with
  | EmptyString => []
  | String c rest => c :: chars rest
  end.

Fixpoint of_chars (l : list ascii) : string :=
  match l with
  | [] => EmptyString
  | c :: rest => String c (of_chars rest)
  end.

Definition bytes (l : list nat) : list ascii := ascii_of_nat <$> l.

(** U+0009 to U+000D, U+0020, U+00A0, U+1680, U+2000 to U+200A, U+2028,
    U+2029, U+202F, U+205F, U+3000 and U+FEFF, encoded. *)
Definition white_space : list (list ascii) :=
  [ bytes [9]; bytes [10]; bytes [11]; bytes [12]; bytes [13]; bytes [32];
    bytes [194; 160]; bytes [225; 154; 128];
    bytes [226; 128; 128]; bytes [226; 128; 129]; bytes [226; 128; 130];
    bytes [226; 128; 131]; bytes [226; 128; 132]; bytes [226; 128; 133];
    bytes [226; 128; 134]; bytes [226; 128; 135]; bytes [226; 128; 136];
    bytes [226; 128; 137]; bytes [226; 128; 138];
    bytes [226; 128; 168]; bytes [226; 128; 169]; bytes [226; 128; 175];
    bytes [226; 129; 159]; bytes [227; 128; 128]; bytes [239; 187; 191] ].

(** The rest of [s] after the prefix [p]. *)
Fixpoint after (p s : list ascii) : option (list ascii) :=
  match p, s with
  | [], _ => Some s
  | a :: p', b :: s' => if Ascii.eqb a b then after p' s' else None
  | _ :: _, [] => None
  end.

(** The rest of [s] after a leading character among [ws], when it has one. *)
Fixpoint skip_one (ws : list (list ascii)) (s : list ascii) : option (list ascii) :=
  match ws with
  | [] => None
  | w :: ws' =>
      match after w s with
      | Some rest => Some rest
      | None => skip_one ws' s
      end
  end.

(** [s] without its leading characters among [ws]; [fuel] bounds their
    number, and the length of [s] is enough. *)
Fixpoint skip (ws : list (list ascii)) (fuel : nat) (s : list ascii) : list ascii :=
  match fuel with
  | O => s
  | S fuel' =>
      match skip_one ws s with
      | Some rest => skip ws fuel' rest
      | None => s
      end
  end.

Definition trim_start (s : string) : string :=
  of_chars (skip white_space (String.length s) (chars s)).

(** The string without its trailing white space: read from its end. *)
Definition trim_end (s : string) : string :=
  of_chars (reverse (skip (reverse <$> white_space) (String.length s)
                          (reverse (chars s)))).

Definition trim (s : string) : string := trim_end (trim_start s).

(** [!s.trim()] and [s.trim().length === 0]. *)
Definition blank (s : string) : bool := String.eqb (trim s) "".

(** The sequences of bytes that are characters among [ws], one after the
    other; with [white_space], the strings made of white space only. *)
Inductive made_of (ws : list (list ascii)) : list ascii -> Prop :=
| made_of_nil : made_of ws []
| made_of_cons (w s : list ascii) :
    w ∈ ws -> made_of ws s -> made_of ws (w ++ s)%list.

Definition spaces (s : string) : Prop := made_of white_space (chars s).

End Str.

(** ** HTTP requests and their outcomes *)

Inductive Method := GET | POST.

#[global] Instance Method_eq_dec : EqDecision Method.
Proof. solve_decision. Defined.

(** [Axios]: through the [api] instance, created with [withCredentials:
    true], whose [baseURL] is prepended to the URL; [Fetch]: through the
    platform's [fetch], the URL as given. *)
Inductive Client := Axios | Fetch.

Record Request := {
  method : Method;
  via : Client;
  url : string;
  headers : list (string * string);
  withCredentials : option bool;   (* the setting the code gives, when it gives one *)
  body : option jsval              (* the value sent as the JSON body *)
}.

(** What [await api.get(..)] / [await api.post(..)] settles to: axios fulfils
    with the parsed body on a 2xx status and rejects otherwise, with the
    response body when there is a response. *)
Inductive AxiosResult (X : Type) :=
| Fulfilled (data : X)
| Rejected (response_data : option jsval).
Arguments Fulfilled {X} data.
Arguments Rejected {X} response_data.

(** What [fetch] followed by [.json()] settles to: the parsed body, whatever
    the status; a body that is not JSON; or no response at all. *)
Inductive FetchResult :=
| Body (data : jsval)
| NotJson
| NetworkDown.

Inductive exn :=
| AxiosError (response_data : option jsval)
| TypeError
| SyntaxError.

(** The path of a URL: an absolute http(s) URL without its scheme and
    authority; a relative URL as it is. *)
Module Url.

Fixpoint strip_prefix (p s : string) : option string :=
  match p, s with
  | EmptyString, _ => Some s
  | String a p', String b s' => if Ascii.eqb a b then strip_prefix p' s' else None
  | String _ _, EmptyString => None
  end.

Fixpoint from_slash (s : string) : string :=
  match s with
  | String c rest => if Ascii.eqb c "/" then s else from_slash rest
  | EmptyString => "/"
  end.

Definition path (u : string) : string :=
  match strip_prefix "http://" u with
  | Some rest => from_slash rest
  | None =>
      match strip_prefix "https://" u with
      | Some rest => from_slash rest
      | None => u
      end
  end.

End Url.

(** ** Effects and the handler monad *)

Inductive effect :=
| Sent (r : Request)                                  (* a request leaves the client *)
| Stored (key value : string)                         (* localStorage.setItem *)
| Removed (key : string)                              (* localStorage.removeItem *)
| Navigate (path : string)                            (* router.push *)
| ConsoleError (e : exn)
| Notification (title : string) (message : template)  (* chrome.notifications.create *)
| InnerHTML (element : string) (html : template).     (* element.innerHTML = .. *)

Record World (S : Type) := mkWorld {
  ui : S;                               (* React state of the page *)
  has_window : bool;                    (* typeof window !== "undefined" *)
  localStorage : gmap string string;
  log : list effect                     (* effects so far, oldest first *)
}.
Arguments mkWorld {S} ui has_window localStorage log.
Arguments ui {S} w.
Arguments has_window {S} w.
Arguments localStorage {S} w.
Arguments log {S} w.

Inductive outcome (A : Type) :=
| Done (a : A)
| Thrown (e : exn).
Arguments Done {A} a.
Arguments Thrown {A} e.

Definition M (S A : Type) : Type := World S -> outcome A * World S.

Section Monad.
Context {S : Type}.

Definition ret {A} (a : A) : M S A := fun w => (Done a, w).

Definition bind {A B} (m : M S A) (k : A -> M S B) : M S B :=
  fun w =>
    match m w with
    | (Done a, w') => k a w'
    | (Thrown e, w') => (Thrown e, w')
    end.

Definition throw {A} (e : exn) : M S A := fun w => (Thrown e, w).

(** [try { m } catch (e) { h e }] *)
Definition try_catch {A} (m : M S A) (h : exn -> M S A) : M S A :=
  fun w =>
    match m w with
    | (Done a, w') => (Done a, w')
    | (Thrown e, w') => h e w'
    end.

(** [try { m } finally { f }] *)
Definition finally {A} (m : M S A) (f : M S unit) : M S A :=
  fun w =>
    let '(r, w') := m w in
    match f w' with
    | (Done _, w'') => (r, w'')
    | (Thrown e, w'') => (Thrown e, w'')
    end.

(** A state setter of the page, [setX(f)]. *)
Definition set_state (f : S -> S) : M S unit :=
  fun w => (Done tt, mkWorld (f (ui w)) (has_window w) (localStorage w) (log w)).

Definition emit (e : effect) : M S unit :=
  fun w => (Done tt, mkWorld (ui w) (has_window w) (localStorage w) (log w ++ [e])).

Definition getItem (key : string) : M S (option string) :=
  fun w => (Done (localStorage w !! key), w).

Definition setItem (key value : string) : M S unit :=
  fun w => (Done tt, mkWorld (ui w) (has_window w) (<[key := value]> (localStorage w))
                             (log w ++ [Stored key value])).

Definition removeItem (key : string) : M S unit :=
  fun w => (Done tt, mkWorld (ui w) (has_window w) (delete key (localStorage w))
                             (log w ++ [Removed key])).

(** [typeof window !== "undefined"] *)
Definition window_defined : M S bool := fun w => (Done (has_window w), w).

(** A promise that is not awaited: what it throws is an unhandled
    rejection, outside the caller's control flow. *)
Definition detached {A} (m : M S A) : M S unit :=
  fun w => (Done tt, snd (m w)).

End Monad.

#[global] Instance M_ret {S} : MRet (M S) := @ret S.
#[global] Instance M_bind {S} : MBind (M S) := fun A B k m => bind m k.

(** The requests among the effects of a log. *)
Fixpoint requests (l : list effect) : list Request :=
  match l with
  | [] => []
  | Sent r :: rest => r :: requests rest
  | _ :: rest => requests rest
  end.

(** ** lib/api.ts *)
Module Api.

Definition default_base : string :=
  "https://abdullahniyaxi-deepverify-backend.hf.space".

(** [process.env.NEXT_PUBLIC_API_BASE || default_base] *)
Definition API_BASE (NEXT_PUBLIC_API_BASE : option string) : string :=
  match NEXT_PUBLIC_API_BASE with
  | Some b => if String.eqb b "" then default_base else b
  | None => default_base
  end.

(** The request interceptor: a bearer token from localStorage, when the
    code runs in a window and the token is set and not empty. *)
Definition interceptor (in_window : bool) (token : option string)
  : list (string * string) :=
  if in_window then
    match token with
    | Some t => if String.eqb t "" then [] else [("Authorization", "Bearer " +:+ t)]
    | None => []
    end
  else [].

(** A request of the [api] instance up to the point where it is sent. *)
Definition send {S} (m : Method) (path : string) (data : option jsval) : M S unit :=
  in_window ← window_defined;
  token ← getItem "access_token";
  emit (Sent {| method := m; via := Axios; url := path;
                headers := interceptor in_window token;
                withCredentials := Some true; body := data |}).

(** [await] of the promise of a sent request; its value is [res.data]. *)
Definition await {S X} (res : AxiosResult X) : M S X :=
  match res with
  | Fulfilled data => mret data
  | Rejected r => throw (AxiosError r)
  end.

Definition get {S X} (path : string) (res : AxiosResult X) : M S X :=
  send GET path None;; await res.

Definition post {S X} (path : string) (data : jsval) (res : AxiosResult X) : M S X :=
  send POST path (Some data);; await res.

Definition getStats {S X} (res : AxiosResult X) : M S X :=
  get "/api/v1/stats" res.

Definition reviewHistory {S X} (history_id : string) (correct : bool)
    (res : AxiosResult X) : M S X :=
  post "/api/v1/history/review"
       (VObj [("history_id", VStr history_id); ("correct", VBool correct)]) res.

Record ChatReply := { reply : string }.

Definition chatAI {S} (message : string) (res : AxiosResult ChatReply)
  : M S ChatReply :=
  post "/api/v1/chat" (VObj [("message", VStr message)]) res.

End Api.

(** ** lib/auth.ts *)
Module Auth.

Record Tokens := { access_token : string; refresh_token : string }.

Definition saveTokens {S} (data : Tokens) : M S unit :=
  in_window ← window_defined;
  if in_window : bool then
    setItem "access_token" (access_token data);;
    setItem "refresh_token" (refresh_token data)
  else (mret tt : M S unit).

Definition optional (v : option string) : jsval :=
  match v with Some s => VStr s | None => VUndefined end.

Definition signup {S} (name email password : string) (language_pref : option string)
    (res : AxiosResult Tokens) : M S Tokens :=
  data ← Api.post "/api/v1/auth/signup"
            (VObj [("name", VStr name); ("email", VStr email);
                   ("password", VStr password);
                   ("language_pref", optional language_pref)]) res;
  saveTokens data;; mret data.

Definition login {S} (email password : string) (res : AxiosResult Tokens)
  : M S Tokens :=
  data ← Api.post "/api/v1/auth/login"
            (VObj [("email", VStr email); ("password", VStr password)]) res;
  saveTokens data;; mret data.

Definition logout {S} : M S unit :=
  in_window ← window_defined;
  if in_window : bool then
    removeItem "access_token";; removeItem "refresh_token"
  else (mret tt : M S unit).

End Auth.

(** ** components/AuthMeter.tsx *)
Module AuthMeter.

Record View := {
  label_text : string;
  label_color : string;     (* style.color of the label *)
  fill_width : number       (* style.width of .meter-fill, in percent *)
}.

Definition AuthMeter (score : number) (label : string) : View :=
  let clamped := Number.Math_max 0%Q (Number.Math_min 100%Q score) in
  {| label_text := label;
     label_color := if Number.ge score 50%Q then "var(--good)" else "var(--bad)";
     fill_width := clamped |}.

End AuthMeter.

(** ** components/HistoryItem.tsx *)
Module HistoryItem.

Record Item := {
  _id : string;
  query : string;
  verdict : string;
  confidence : option number;
  reviewed : option bool;
  correct : option (option bool)      (* boolean | null, optional *)
}.

Inductive Review :=
| Reviewed (color text : string)
| Buttons (good bad : string * bool).   (* the arguments each button passes to onReview *)

Record View := {
  shown_id : string;
  shown_query : string;
  shown_verdict : string;
  shown_confidence : option Double.fixed;   (* item.confidence?.toFixed(1) *)
  review : Review
}.

Definition is_true (b : option bool) : bool := default false b.

Definition HistoryItem (item : Item) : View :=
  {| shown_id := _id item;
     shown_query := query item;
     shown_verdict := verdict item;
     shown_confidence := Double.toFixed 1 ∘ Double.of_number <$> confidence item;
     review :=
       if is_true (reviewed item) then
         let ok := is_true (mjoin (correct item)) in
         Reviewed (if ok then "var(--good)" else "var(--bad)")
                  ("Reviewed: " +:+ (if ok then "Correct" else "Incorrect"))
       else Buttons (_id item, true) (_id item, false) |}.

End HistoryItem.

(** ** components/SearchBar.tsx *)
Module SearchBar.

Record View := {
  textarea_value : string;
  analyze_disabled : bool;
  analyze_text : string
}.

Definition SearchBar (value : string) (loading : bool) : View :=
  {| textarea_value := value;
     analyze_disabled := loading || Str.blank value;
     analyze_text := if loading then "Analyzing..." else "Analyze" |}.

End SearchBar.

(** Platform statistics, the body of GET /api/v1/stats. *)
Record Stats := {
  total_users : number;
  total_analyses : number;
  total_real : number;
  total_fake : number;
  total_uncertain : number;
  total_reviews : number;
  correct_votes : number
}.

(** ** pages/index.tsx *)
Module Home.

Record Source := { title : string; source_url : string; source : option string }.

(** The body of a successful POST /api/v1/analyze, as the page reads it. *)
Record Analysis := {
  res_verdict : string;
  res_html : string;
  res_scores : option (gmap string number);
  res_sources : option (list Source);
  res_language : option string
}.

Record State := {
  authed : bool;
  stats : option Stats;
  input : string;
  html : string;
  verdict : string;
  prob : gmap string number;
  sources : list Source;
  loading : bool;
  language : option string
}.

Definition initial : State :=
  {| authed := false; stats := None; input := ""; html := ""; verdict := "";
     prob := ∅; sources := []; loading := false; language := None |}.

Definition setAuthed v (s : State) : State :=
  {| authed := v; stats := stats s; input := input s; html := html s;
     verdict := verdict s; prob := prob s; sources := sources s;
     loading := loading s; language := language s |}.
Definition setStats v (s : State) : State :=
  {| authed := authed s; stats := v; input := input s; html := html s;
     verdict := verdict s; prob := prob s; sources := sources s;
     loading := loading s; language := language s |}.
Definition setInput v (s : State) : State :=
  {| authed := authed s; stats := stats s; input := v; html := html s;
     verdict := verdict s; prob := prob s; sources := sources s;
     loading := loading s; language := language s |}.
Definition setHtml v (s : State) : State :=
  {| authed := authed s; stats := stats s; input := input s; html := v;
     verdict := verdict s; prob := prob s; sources := sources s;
     loading := loading s; language := language s |}.
Definition setVerdict v (s : State) : State :=
  {| authed := authed s; stats := stats s; input := input s; html := html s;
     verdict := v; prob := prob s; sources := sources s;
     loading := loading s; language := language s |}.
Definition setProb v (s : State) : State :=
  {| authed := authed s; stats := stats s; input := input s; html := html s;
     verdict := verdict s; prob := v; sources := sources s;
     loading := loading s; language := language s |}.
Definition setSources v (s : State) : State :=
  {| authed := authed s; stats := stats s; input := input s; html := html s;
     verdict := verdict s; prob := prob s; sources := v;
     loading := loading s; language := language s |}.
Definition setLoading v (s : State) : State :=
  {| authed := authed s; stats := stats s; input := input s; html := html s;
     verdict := verdict s; prob := prob s; sources := sources s;
     loading := v; language := language s |}.
Definition setLanguage v (s : State) : State :=
  {| authed := authed s; stats := stats s; input := input s; html := html s;
     verdict := verdict s; prob := prob s; sources := sources s;
     loading := loading s; language := v |}.

(** [res.data.language || null] *)
Definition or_null (l : option string) : option string :=
  match l with
  | Some s => if String.eqb s "" then None else Some s
  | None => None
  end.

(** [getStats().then(setStats).catch(() => {})], not awaited. *)
Definition refresh_stats (stats_res : AxiosResult Stats) : M State unit :=
  detached
    (try_catch (s ← Api.getStats stats_res; set_state (setStats (Some s)))
               (fun _ => mret tt)).

Definition backend_error : string := "<div style='color:red'>Backend error</div>".

(** The [try] block of [handleAnalyze] after its [await]. *)
Definition analyzed (data : Analysis) (stats_res : AxiosResult Stats) : M State unit :=
  set_state (setVerdict (res_verdict data));;
  set_state (setHtml (res_html data));;
  set_state (setProb (default ∅ (res_scores data)));;
  set_state (setSources (default [] (res_sources data)));;
  set_state (setLanguage (or_null (res_language data)));;
  refresh_stats stats_res.

(** The [catch] block of [handleAnalyze]. *)
Definition failed (err : exn) : M State unit :=
  emit (ConsoleError err);;
  set_state (setVerdict "Error");;
  set_state (setHtml backend_error);;
  set_state (setProb ∅);;
  set_state (setSources []).

Definition analyze_body (text : string) : jsval := VObj [("text", VStr text)].

(** [handleAnalyze], a closure over the [input] of the render it belongs
    to; [res] and [stats_res] are what the two requests settle to. *)
Definition handleAnalyze (input : string)
    (res : AxiosResult Analysis) (stats_res : AxiosResult Stats) : M State unit :=
  set_state (setLoading true);;
  finally
    (try_catch
       (data ← Api.post "/api/v1/analyze" (analyze_body input) res;
        analyzed data stats_res)
       failed)
    (set_state (setLoading false)).

(** [handleAnalyze] up to its [await]: the request is in flight. *)
Definition handleAnalyze_begin (input : string) : M State unit :=
  set_state (setLoading true);;
  Api.send POST "/api/v1/analyze" (Some (analyze_body input)).

(** [handleAnalyze] from its [await] on. *)
Definition handleAnalyze_settle
    (res : AxiosResult Analysis) (stats_res : AxiosResult Stats) : M State unit :=
  finally
    (try_catch (data ← Api.await res; analyzed data stats_res) failed)
    (set_state (setLoading false)).

(** The scores, the label and the score of the meter as the page computes
    them: the scores of the response, parsed to doubles, times 100 in
    binary64. *)
Module Binary64.

Definition realScore (p : gmap string number) : Double.t :=
  Double.mul (Double.of_number (default 0%Q (p !! "Real News"))) Double.hundred.
Definition fakeScore (p : gmap string number) : Double.t :=
  Double.mul (Double.of_number (default 0%Q (p !! "Fake News"))) Double.hundred.
Definition isReal (p : gmap string number) : bool :=
  Double.ge (realScore p) (fakeScore p).
Definition meterScore (p : gmap string number) : Double.t :=
  if isReal p then realScore p else fakeScore p.
Definition meterLabel (p : gmap string number) : string :=
  if isReal p then "Real" else "Fake".

End Binary64.

(** The element [<AuthMeter score=.. label=.. />] of the page, by its props:
    the score, and the label, which is the word of [meterLabel], " • ", the
    text of [(meterScore || 0).toFixed(1)] and "%". *)
Record Meter := {
  score : Double.t;
  label_word : string;
  label_score : Double.fixed
}.

Record Result := {
  meter : Meter;
  real_text : Double.fixed;     (* realScore.toFixed(1), followed by "%" *)
  fake_text : Double.fixed;     (* fakeScore.toFixed(1), followed by "%" *)
  prose : string;
  cards : list Source
}.

Record View := {
  language_note : option string;
  search : SearchBar.View;
  result : option Result
}.

Definition render (s : State) : View :=
  {| language_note := or_null (language s);
     search := SearchBar.SearchBar (input s) (loading s);
     result :=
       if String.eqb (verdict s) "" then None
       else Some
         {| meter :=
              {| score := Binary64.meterScore (prob s);
                 label_word := Binary64.meterLabel (prob s);
                 label_score :=
                   Double.toFixed 1 (Double.or_zero (Binary64.meterScore (prob s))) |};
            real_text := Double.toFixed 1 (Binary64.realScore (prob s));
            fake_text := Double.toFixed 1 (Binary64.fakeScore (prob s));
            prose := html s;
            cards := sources s |} |}.

(** The scores of the meter in exact arithmetic: the products without the
    rounding of the engine, for the bounds that do not depend on it. *)
Definition realScore (p : gmap string number) : number :=
  (default 0 (p !! "Real News") * 100)%Q.
Definition fakeScore (p : gmap string number) : number :=
  (default 0 (p !! "Fake News") * 100)%Q.
Definition isReal (p : gmap string number) : bool :=
  Number.ge (realScore p) (fakeScore p).
Definition meterScore (p : gmap string number) : number :=
  if isReal p then realScore p else fakeScore p.
Definition meterLabel (p : gmap string number) : string :=
  if isReal p then "Real" else "Fake".

(** The events of the page: typing, the Clear button, a click on the
    Analyze button (which does nothing while the button is disabled). *)
Definition onChange (v : string) : M State unit := set_state (setInput v).

Definition click_analyze (s : State) : M State bool :=
  if SearchBar.analyze_disabled (search (render s))
  then mret false
  else handleAnalyze_begin (input s);; mret true.

(** The effect run on mount: [setAuthed(!!localStorage.getItem("access_token"))]. *)
Definition on_mount : M State unit :=
  token ← getItem "access_token";
  set_state (setAuthed (negb (String.eqb (default "" token) ""))).

End Home.

(** ** pages/dashboard.tsx *)
Module Dashboard.

Import HistoryItem.

Record State := {
  items : list Item;
  stats : option Stats;
  authed : bool
}.

Definition initial : State := {| items := []; stats := None; authed := false |}.

Definition setItems v (s : State) : State :=
  {| items := v; stats := stats s; authed := authed s |}.
Definition setStats v (s : State) : State :=
  {| items := items s; stats := v; authed := authed s |}.

(** [getStats().then(setStats).catch(() => {})], not awaited. *)
Definition refresh_stats (stats_res : AxiosResult Stats) : M State unit :=
  detached
    (try_catch (s ← Api.getStats stats_res; set_state (setStats (Some s)))
               (fun _ => mret tt)).

(** [load]; the body of the history response is the list of records, or
    null. *)
Definition load (history_res : AxiosResult (option (list Item)))
    (stats_res : AxiosResult Stats) : M State unit :=
  data ← Api.get "/api/v1/history" history_res;
  set_state (setItems (default [] data));;
  refresh_stats stats_res.

(** The effect run on mount: [load().catch(console.error)]. *)
Definition on_mount (history_res : AxiosResult (option (list Item)))
    (stats_res : AxiosResult Stats) : M State unit :=
  try_catch (load history_res stats_res) (fun e => emit (ConsoleError e)).

(** [handleReview]: the reload after a successful review is not awaited. *)
Definition handleReview (id : string) (correct : bool)
    (review_res : AxiosResult jsval)
    (history_res : AxiosResult (option (list Item)))
    (stats_res : AxiosResult Stats) : M State unit :=
  try_catch
    (Api.reviewHistory id correct review_res;;
     detached (load history_res stats_res))
    (fun e => emit (ConsoleError e)).

(** [handleReview] up to its [await]. *)
Definition handleReview_begin (id : string) (correct : bool) : M State unit :=
  Api.send POST "/api/v1/history/review"
    (Some (VObj [("history_id", VStr id); ("correct", VBool correct)])).

(** The Accuracy cell: a dash, or the text of [toFixed(1)] followed by "%". *)
Inductive Cell :=
| Dash
| Percent (x : Double.fixed).

(** The cell displayed for the statistics [s], and the divisions evaluated
    on the way, as pairs of a dividend and a divisor.  The two counts are
    numbers of the response, parsed to doubles; the arithmetic is binary64. *)
Definition accuracy (s : Stats) : Cell * list (Double.t * Double.t) :=
  let t := Double.of_number (total_reviews s) in
  let c := Double.of_number (correct_votes s) in
  if Double.gt t Double.zero
  then (Percent (Double.toFixed 1 (Double.mul (Double.div c t) Double.hundred)),
        [(c, t)])
  else (Dash, []).

Record StatsPanel := {
  users : number;
  analyses : number;
  real : number;
  fake : number;
  uncertain : number;
  accuracy_cell : Cell
}.

Record View := {
  panel : option StatsPanel;
  entries : list HistoryItem.View;
  no_history : bool             (* the "No history yet." note *)
}.

Definition render (s : State) : View :=
  {| panel :=
       (fun st => {| users := total_users st; analyses := total_analyses st;
                     real := total_real st; fake := total_fake st;
                     uncertain := total_uncertain st;
                     accuracy_cell := fst (accuracy st) |}) <$> stats s;
     entries := HistoryItem.HistoryItem <$> items s;
     no_history := (length (items s) =? 0)%nat |}.

End Dashboard.

(** ** pages/chat.tsx *)
Module ChatPage.

Inductive Sender := user | bot.

Record Msg := { from : Sender; text : string; id : string }.

Record State := {
  log : list Msg;
  input : string;
  loading : bool;
  copied : option string;
  authed : bool
}.

Definition initial : State :=
  {| log := []; input := ""; loading := false; copied := None; authed := false |}.

Definition setLog (f : list Msg -> list Msg) (s : State) : State :=
  {| log := f (log s); input := input s; loading := loading s;
     copied := copied s; authed := authed s |}.
Definition setInput v (s : State) : State :=
  {| log := log s; input := v; loading := loading s;
     copied := copied s; authed := authed s |}.
Definition setLoading v (s : State) : State :=
  {| log := log s; input := input s; loading := v;
     copied := copied s; authed := authed s |}.

Definition apology : string :=
  "❌ Sorry, something went wrong. Please check your connection and try again.".

(** [Date.now().toString()] *)
Definition stamp (now : Z) : string := Number.digits now.

(** The part of [send] after [await chatAI(..)]: the [try] block, the
    [catch] block and the [finally] block; [now] is the clock when the
    bot message is built. *)
Definition send_settle (res : AxiosResult Api.ChatReply) (now : Z) : M State unit :=
  finally
    (try_catch
       (r ← Api.await res;
        let botMsg := {| from := bot; text := Api.reply r; id := stamp (now + 1)%Z |} in
        set_state (setLog (fun l => (l ++ [botMsg])%list)))
       (fun _ =>
        let botMsg := {| from := bot; text := apology; id := stamp (now + 1)%Z |} in
        set_state (setLog (fun l => (l ++ [botMsg])%list))))
    (set_state (setLoading false)).

(** [send] up to its [await]: [true] when a request has been sent. *)
Definition send_begin (s : State) (now : Z) : M State bool :=
  if Str.blank (input s) || loading s then mret false
  else
    let userMsg := {| from := user; text := input s; id := stamp now |} in
    set_state (setLog (fun l => (l ++ [userMsg])%list));;
    set_state (setInput "");;
    set_state (setLoading true);;
    Api.send POST "/api/v1/chat" (Some (VObj [("message", VStr (text userMsg))]));;
    mret true.

(** [send], a closure over the state [s] of the render it belongs to. *)
Definition send (s : State) (now : Z) (res : AxiosResult Api.ChatReply)
    (now' : Z) : M State unit :=
  if Str.blank (input s) || loading s then mret tt
  else
    let userMsg := {| from := user; text := input s; id := stamp now |} in
    set_state (setLog (fun l => (l ++ [userMsg])%list));;
    set_state (setInput "");;
    set_state (setLoading true);;
    finally
      (try_catch
         (r ← Api.chatAI (text userMsg) res;
          let botMsg := {| from := bot; text := Api.reply r; id := stamp (now' + 1)%Z |} in
          set_state (setLog (fun l => (l ++ [botMsg])%list)))
         (fun _ =>
          let botMsg := {| from := bot; text := apology; id := stamp (now' + 1)%Z |} in
          set_state (setLog (fun l => (l ++ [botMsg])%list))))
      (set_state (setLoading false)).

(** The controls of the page that the render disables. *)
Record View := {
  textarea_disabled : bool;
  clear_disabled : bool;
  send_disabled : bool;
  send_text : string
}.

Definition render (s : State) : View :=
  {| textarea_disabled := loading s;
     clear_disabled := loading s;
     send_disabled := Str.blank (input s) || loading s;
     send_text := if loading s then "Thinking..." else "Send" |}.

(** [handleKeyDown] *)
Definition handleKeyDown (s : State) (key : string) (ctrlKey : bool) (now : Z)
  : M State bool :=
  if String.eqb key "Enter" && ctrlKey && negb (loading s)
  then send_begin s now
  else mret false.

(** The Clear button. *)
Definition clear : M State unit :=
  set_state (setLog (fun _ => []));; set_state (setInput "").

Definition onChange (v : string) : M State unit := set_state (setInput v).

End ChatPage.

(** The [catch] blocks of the signup and login pages read
    [e?.response?.data?.detail]. *)
Definition error_detail (e : exn) : jsval :=
  match e with
  | AxiosError (Some data) => field "detail" data
  | _ => VUndefined
  end.

(** [typeof v === 'object' && v !== null] *)
Definition is_object (v : jsval) : bool :=
  match v with
  | VObj _ | VArr _ => true
  | _ => false
  end.

(** ** pages/signup.tsx *)
Module SignupPage.

Record State := {
  name : string;
  email : string;
  pw : string;
  err : template;
  authed : bool
}.

Definition initial : State :=
  {| name := ""; email := ""; pw := ""; err := []; authed := false |}.

Definition setName v (s : State) : State :=
  {| name := v; email := email s; pw := pw s; err := err s; authed := authed s |}.
Definition setEmail v (s : State) : State :=
  {| name := name s; email := v; pw := pw s; err := err s; authed := authed s |}.
Definition setPw v (s : State) : State :=
  {| name := name s; email := email s; pw := v; err := err s; authed := authed s |}.
Definition setErr v (s : State) : State :=
  {| name := name s; email := email s; pw := pw s; err := v; authed := authed s |}.

(** The [catch] block of [submit]. *)
Definition failed (e : exn) : M State unit :=
  let detail := error_detail e in
  if is_object detail then
    if truthy (field "message" detail) && truthy (field "errors" detail) then
      match field "errors" detail with
      | VArr errors =>
          set_state (setErr [Interp (field "message" detail); Lit ": ";
                             Joined errors ", "])
      | _ => throw TypeError              (* errors.join is not a function *)
      end
    else set_state (setErr [Stringified detail])
  else
    set_state (setErr (if truthy detail then [Interp detail]
                       else [Lit "Signup failed"])).

(** [submit], a closure over the fields of the render it belongs to. *)
Definition submit (s : State) (res : AxiosResult Auth.Tokens) : M State unit :=
  try_catch
    (Auth.signup (name s) (email s) (pw s) (Some "en") res;;
     emit (Navigate "/"))
    failed.

End SignupPage.

(** ** pages/login.tsx *)
Module LoginPage.

Record State := {
  email : string;
  pw : string;
  err : template;
  authed : bool
}.

Definition initial : State :=
  {| email := ""; pw := ""; err := []; authed := false |}.

Definition setErr v (s : State) : State :=
  {| email := email s; pw := pw s; err := v; authed := authed s |}.

Definition failed (e : exn) : M State unit :=
  let detail := error_detail e in
  if is_object detail then set_state (setErr [Stringified detail])
  else
    set_state (setErr (if truthy detail then [Interp detail]
                       else [Lit "Login failed"])).

Definition submit (s : State) (res : AxiosResult Auth.Tokens) : M State unit :=
  try_catch
    (Auth.login (email s) (pw s) res;;
     emit (Navigate "/"))
    failed.

End LoginPage.

(** ** pages/preferences.tsx: the language selector

    The one place of the client where a user chooses a language.  The
    choice is state of this page only. *)
Module Preferences.

Record State := { language : string }.

Definition initial : State := {| language := "en" |}.

(** The values of the options of the selector. *)
Definition options : list string := ["en"; "es"; "fr"].

Definition setLanguage (v : string) (s : State) : State := {| language := v |}.

Definition onChange (v : string) : M State unit := set_state (setLanguage v).

End Preferences.

(** ** components/Navbar.tsx: the Logout button *)
Module Navbar.

Definition logout_click {S} : M S unit :=
  Auth.logout;; emit (Navigate "/").

(** What the bar shows: its links, as label and target, and whether the
    Logout button is there. *)
Record View := {
  links : list (string * string);
  logout_button : bool
}.

Definition Navbar (authed : bool) : View :=
  {| links :=
       ([("Home", "/"); ("DeepVerify Assistant", "/chat"); ("Dashboard", "/dashboard")]
        ++ (if authed then [] else [("Login", "/login"); ("Signup", "/signup")]))%list;
     logout_button := authed |}.

End Navbar.

(** ** components/CookieConsent.tsx *)
Module CookieConsent.

Record State := { show : bool }.

Definition initial : State := {| show := false |}.

Definition setShow (v : bool) (s : State) : State := {| show := v |}.

(** The effect run on mount. *)
Definition on_mount : M State unit :=
  consent ← getItem "cookieConsent";
  if String.eqb (default "" consent) ""
  then set_state (setShow true)
  else (mret tt : M State unit).

Definition accept : M State unit :=
  setItem "cookieConsent" "true";;
  set_state (setShow false).

(** The banner, when there is one: its text and the label of its button. *)
Definition render (s : State) : option (string * string) :=
  if show s then Some ("We use cookies to improve your experience. ", "Accept")
  else None.

End CookieConsent.

(** ** components/SourceCards.tsx *)
Module SourceCards.

Record Card := {
  href : string;
  label : string;        (* s.source || "Source" *)
  heading : string;      (* s.title || s.url *)
  shown_url : string
}.

Definition card (s : Home.Source) : Card :=
  {| href := Home.source_url s;
     label := match Home.source s with
              | Some l => if String.eqb l "" then "Source" else l
              | None => "Source"
              end;
     heading := if String.eqb (Home.title s) "" then Home.source_url s
                else Home.title s;
     shown_url := Home.source_url s |}.

(** [None]: the component renders nothing. *)
Definition SourceCards (sources : list Home.Source) : option (list Card) :=
  if (length sources =? 0)%nat then None else Some (card <$> sources).

End SourceCards.

(** ** components/InteractiveBackground.tsx *)
Module InteractiveBackground.

Record State := { x : number; y : number }.

Definition initial : State := {| x := 50%Q; y := 50%Q |}.



End InteractiveBackground.

(** [fetch(url, {method: 'POST', headers: {'Content-Type':
    'application/json'}, body: JSON.stringify(data)})] up to the point where
    the request is sent.  The call sites pass no [credentials] option: which
    cookies go with the request is the platform's default for its target. *)
Definition fetch_post {S} (target : string) (data : jsval) : M S unit :=
  emit (Sent {| method := POST; via := Fetch; url := target;
                headers := [("Content-Type", "application/json")];
                withCredentials := None; body := Some data |}).

(** [await response.json()] after [await fetch(..)]. *)
Definition fetch_json {S} (res : FetchResult) : M S jsval :=
  match res with
  | Body data => mret data
  | NotJson => throw SyntaxError
  | NetworkDown => throw TypeError
  end.

(** [data.k] on a value of type [any]: a TypeError on null and undefined. *)
Definition prop {S} (k : string) (data : jsval) : M S jsval :=
  match data with
  | VUndefined | VNull => throw TypeError
  | _ => mret (field k data)
  end.

(** ** pages/bulk-analyze.tsx *)
Module BulkAnalyze.

Record State := {
  texts : list string;
  results : list jsval
}.

Definition initial : State := {| texts := [""]; results := [] |}.

Definition setTexts v (s : State) : State := {| texts := v; results := results s |}.
Definition setResults v (s : State) : State := {| texts := texts s; results := v |}.

Definition addText (s : State) : M State unit :=
  set_state (setTexts (texts s ++ [""])%list).

(** [index] is the position of a rendered textarea, within the list. *)
Definition updateText (s : State) (index : nat) (value : string) : M State unit :=
  set_state (setTexts (<[index := value]> (texts s))).

(** [data.results || []], read as an array. *)
Definition results_of (v : jsval) : list jsval :=
  match v with
  | VArr items => items
  | _ => []
  end.

Definition analyze (s : State) (res : FetchResult) : M State unit :=
  fetch_post "/api/v1/analyze/batch" (VObj [("texts", VArr (VStr <$> texts s))]);;
  data ← fetch_json res;
  r ← prop "results" data;
  set_state (setResults (results_of r)).

Definition analyze_begin (s : State) : M State unit :=
  fetch_post "/api/v1/analyze/batch" (VObj [("texts", VArr (VStr <$> texts s))]).

End BulkAnalyze.

(** ** The browser extension *)
Module Extension.

Definition endpoint : string := "http://localhost:8000/api/v1/analyze".

(** The argument of a context-menu click. *)
Record OnClickData := {
  menuItemId : string;
  selectionText : option string
}.

Definition text_body (text : option string) : jsval :=
  VObj [("text", Auth.optional text)].

(** background.js: the [contextMenus.onClicked] listener.  The promise
    chain after [fetch] is not awaited. *)
Definition onClicked (info : OnClickData) (res : FetchResult) : M unit unit :=
  if String.eqb (menuItemId info) "analyzeText" then
    fetch_post endpoint (text_body (selectionText info));;
    detached
      (data ← fetch_json res;
       v ← prop "verdict" data;
       c ← prop "confidence" data;
       emit (Notification "VeriGlow Analysis"
               [Interp v; Lit " ("; Interp c; Lit "%)"]))
  else mret tt.

Record Tab := { tab_id : Z }.

(** One entry of the results of [chrome.scripting.executeScript]; [result]
    is the page's [document.body.innerText]. *)
Record InjectionResult := { result : string }.

Definition newline : string := String (ascii_of_nat 10) "".

(** popup.js: the click handler of the Analyze button; [tabs] is what
    [chrome.tabs.query] resolves to, [injected] what [executeScript]
    passes to its callback (undefined when the injection failed). *)
Definition on_analyze_click (tabs : list Tab)
    (injected : option (list InjectionResult)) (res : FetchResult) : M unit unit :=
  match tabs with
  | [] => throw TypeError                      (* tab.id of undefined *)
  | tab :: _ =>
      detached
        (match injected with
         | Some (first :: _) =>
             fetch_post endpoint (text_body (Some (result first)));;
             data ← fetch_json res;
             v ← prop "verdict" data;
             c ← prop "confidence" data;
             emit (InnerHTML "result"
                     [Lit (newline +:+ "      <h3>"); Interp v;
                      Lit ("</h3>" +:+ newline +:+ "      <p>Confidence: ");
                      Interp c;
                      Lit ("%</p>" +:+ newline +:+ "    ")])
         | _ => throw TypeError                (* results[0] of undefined *)
         end)
  end.

End Extension.

(** ** README.md: the endpoint tables *)
Module Readme.

(** The table of the section "API overview". *)
Definition api_overview : list (string * Method) :=
  [ ("/api/v1/auth/signup", POST);
    ("/api/v1/auth/login", POST);
    ("/api/v1/analyze", POST);
    ("/api/v1/chat", POST);
    ("/api/v1/history", GET);
    ("/api/v1/stats", GET);
    ("/health", GET) ].

(** The tables of the section "API Endpoints" of the longer README. *)
Definition api_endpoints : list (string * Method) :=
  [ ("/api/v1/auth/signup", POST);
    ("/api/v1/auth/login", POST);
    ("/api/v1/analyze", POST);
    ("/api/v1/chat", POST);
    ("/api/v1/chat/health", GET);
    ("/api/v1/history", GET);
    ("/api/v1/history/{id}", GET);
    ("/api/v1/stats", GET);
    ("/health", GET) ].

Definition documented (path : string) : bool :=
  bool_decide (path ∈ ((api_overview ++ api_endpoints)%list).*1).

End Readme.

(** ** Running handlers *)

(** The world a handler leaves behind, and a world with nothing done yet. *)
Definition exec {S A} (m : M S A) (w : World S) : World S := snd (m w).

Definition fresh {S} (s : S) (storage : gmap string string) : World S :=
  mkWorld s true storage [].

(** The effects a handler performs when it runs in the world [w], in
    order, and the requests among them. *)
Definition effects {S A} (m : M S A) (w : World S) : list effect :=
  log (exec m (mkWorld (ui w) (has_window w) (localStorage w) [])).

Definition sends {S A} (m : M S A) (w : World S) : list Request :=
  requests (effects m w).

Definition path_of (r : Request) : string := Url.path (url r).

(** Every operation of the client code that can send a request, with the
    rendered state it closes over and what the network answers. *)
Inductive Operation :=
| HomeAnalyze (s : Home.State)
    (res : AxiosResult Home.Analysis) (stats_res : AxiosResult Stats)
| DashboardLoad (s : Dashboard.State)
    (history_res : AxiosResult (option (list HistoryItem.Item)))
    (stats_res : AxiosResult Stats)
| DashboardReview (s : Dashboard.State) (id : string) (correct : bool)
    (review_res : AxiosResult jsval)
    (history_res : AxiosResult (option (list HistoryItem.Item)))
    (stats_res : AxiosResult Stats)
| ChatSend (s : ChatPage.State) (now : Z)
    (res : AxiosResult Api.ChatReply) (now' : Z)
| Signup (s : SignupPage.State) (res : AxiosResult Auth.Tokens)
| Login (s : LoginPage.State) (res : AxiosResult Auth.Tokens)
| Logout
| BulkAnalysis (s : BulkAnalyze.State) (res : FetchResult)
| ContextMenuClick (info : Extension.OnClickData) (res : FetchResult)
| PopupClick (tabs : list Extension.Tab)
    (injected : option (list Extension.InjectionResult)) (res : FetchResult).

(** The requests an operation sends, in order; [storage] is the content of
    localStorage when it starts. *)
Definition requests_of (op : Operation) (storage : gmap string string) : list Request :=
  match op with
  | HomeAnalyze s res stats_res =>
      sends (Home.handleAnalyze (Home.input s) res stats_res) (fresh s storage)
  | DashboardLoad s history_res stats_res =>
      sends (Dashboard.on_mount history_res stats_res) (fresh s storage)
  | DashboardReview s id correct review_res history_res stats_res =>
      sends (Dashboard.handleReview id correct review_res history_res stats_res)
            (fresh s storage)
  | ChatSend s now res now' =>
      sends (ChatPage.send s now res now') (fresh s storage)
  | Signup s res => sends (SignupPage.submit s res) (fresh s storage)
  | Login s res => sends (LoginPage.submit s res) (fresh s storage)
  | Logout => sends Navbar.logout_click (fresh tt storage)
  | BulkAnalysis s res => sends (BulkAnalyze.analyze s res) (fresh s storage)
  | ContextMenuClick info res => sends (Extension.onClicked info res) (fresh tt storage)
  | PopupClick tabs injected res =>
      sends (Extension.on_analyze_click tabs injected res) (fresh tt storage)
  end.

(** The effects of an operation, in order. *)
Definition effects_of (op : Operation) (storage : gmap string string) : list effect :=
  match op with
  | HomeAnalyze s res stats_res =>
      effects (Home.handleAnalyze (Home.input s) res stats_res) (fresh s storage)
  | DashboardLoad s history_res stats_res =>
      effects (Dashboard.on_mount history_res stats_res) (fresh s storage)
  | DashboardReview s id correct review_res history_res stats_res =>
      effects (Dashboard.handleReview id correct review_res history_res stats_res)
              (fresh s storage)
  | ChatSend s now res now' =>
      effects (ChatPage.send s now res now') (fresh s storage)
  | Signup s res => effects (SignupPage.submit s res) (fresh s storage)
  | Login s res => effects (LoginPage.submit s res) (fresh s storage)
  | Logout => effects Navbar.logout_click (fresh tt storage)
  | BulkAnalysis s res => effects (BulkAnalyze.analyze s res) (fresh s storage)
  | ContextMenuClick info res => effects (Extension.onClicked info res) (fresh tt storage)
  | PopupClick tabs injected res =>
      effects (Extension.on_analyze_click tabs injected res) (fresh tt storage)
  end.

(** A request that is not answered with a successful response. *)
Definition rejected {X} (res : AxiosResult X) : bool :=
  match res with
  | Rejected _ => true
  | Fulfilled _ => false
  end.

Definition unanswered (res : FetchResult) : bool :=
  match res with
  | Body _ => false
  | NotJson | NetworkDown => true
  end.

(** Whether one of the answers to the requests of an operation is a
    failure. *)
Definition fails (op : Operation) : bool :=
  match op with
  | HomeAnalyze _ res stats_res => rejected res || rejected stats_res
  | DashboardLoad _ history_res stats_res => rejected history_res || rejected stats_res
  | DashboardReview _ _ _ review_res history_res stats_res =>
      rejected review_res || rejected history_res || rejected stats_res
  | ChatSend _ _ res _ => rejected res
  | Signup _ res => rejected res
  | Login _ res => rejected res
  | Logout => false
  | BulkAnalysis _ res => unanswered res
  | ContextMenuClick _ res => unanswered res
  | PopupClick _ _ res => unanswered res
  end.

(** What a handler does about a failure without acting on anything but the
    page: it sends what it sends, and may log to the console. *)
Definition request_or_console (e : effect) : bool :=
  match e with
  | Sent _ | ConsoleError _ => true
  | Stored _ _ | Removed _ | Navigate _ | Notification _ _ | InnerHTML _ _ => false
  end.

(** ** The pages as transition systems

    Between two events React renders, so a handler closes over the state the
    previous events left.  A request that has been sent is in flight until
    the event that settles it.  The handlers of the chat page guard
    themselves, and its events are taken as possible in every state: the
    [disabled] attributes of its controls only remove events.  The handler
    of the home page has no guard of its own, and a click on its Analyze
    button counts only while the button is enabled. *)

Definition in_flight {S} (w : World S) (settled : nat) : nat :=
  length (requests (log w)) - settled.

Module ChatSystem.

Record Sys := {
  world : World ChatPage.State;
  settled : nat                 (* requests settled so far *)
}.

Inductive event :=
| Typed (v : string)
| SendClicked (now : Z)
| KeyPressed (key : string) (ctrlKey : bool) (now : Z)
| ClearClicked
| Settled (res : AxiosResult Api.ChatReply) (now : Z).

Definition start (storage : gmap string string) : Sys :=
  {| world := fresh ChatPage.initial storage; settled := 0 |}.

(** [None]: the event cannot happen (nothing is in flight to settle). *)
Definition step (s : Sys) (e : event) : option Sys :=
  let w := world s in
  match e with
  | Typed v => Some {| world := exec (ChatPage.onChange v) w; settled := settled s |}
  | SendClicked now =>
      Some {| world := exec (ChatPage.send_begin (ui w) now) w; settled := settled s |}
  | KeyPressed key ctrlKey now =>
      Some {| world := exec (ChatPage.handleKeyDown (ui w) key ctrlKey now) w;
              settled := settled s |}
  | ClearClicked => Some {| world := exec ChatPage.clear w; settled := settled s |}
  | Settled res now =>
      if (in_flight w (settled s) =? 0)%nat then None
      else Some {| world := exec (ChatPage.send_settle res now) w;
                   settled := S (settled s) |}
  end.

Fixpoint run (s : Sys) (events : list event) : option Sys :=
  match events with
  | [] => Some s
  | e :: rest => s' ← step s e; run s' rest
  end.

Definition pending (s : Sys) : nat := in_flight (world s) (settled s).

End ChatSystem.

Module HomeSystem.

Record Sys := {
  world : World Home.State;
  settled : nat                 (* analyze requests settled so far *)
}.

Inductive event :=
| Typed (v : string)
| AnalyzeClicked
| Settled (res : AxiosResult Home.Analysis) (stats_res : AxiosResult Stats).

Definition is_analyze (r : Request) : bool := String.eqb (url r) "/api/v1/analyze".

(** The analyze requests in flight; the statistics request that follows a
    successful analysis is not counted. *)
Definition pending (s : Sys) : nat :=
  length (filter (fun r => is_analyze r = true) (requests (log (world s)))) - settled s.

Definition start (storage : gmap string string) : Sys :=
  {| world := fresh Home.initial storage; settled := 0 |}.

Definition step (s : Sys) (e : event) : option Sys :=
  let w := world s in
  match e with
  | Typed v => Some {| world := exec (Home.onChange v) w; settled := settled s |}
  | AnalyzeClicked =>
      Some {| world := exec (Home.click_analyze (ui w)) w; settled := settled s |}
  | Settled res stats_res =>
      if (pending s =? 0)%nat then None
      else Some {| world := exec (Home.handleAnalyze_settle res stats_res) w;
                   settled := S (settled s) |}
  end.

Fixpoint run (s : Sys) (events : list event) : option Sys :=
  match events with
  | [] => Some s
  | e :: rest => s' ← step s e; run s' rest
  end.

End HomeSystem.

(** The dashboard's review buttons and the bulk page's Analyze All button,
    clicked [n] times in a row with nothing settled in between. *)
Definition review_clicks (n : nat) (id : string) (correct : bool)
    (w : World Dashboard.State) : World Dashboard.State :=
  Nat.iter n (exec (Dashboard.handleReview_begin id correct)) w.

Definition bulk_clicks (n : nat) (w : World BulkAnalyze.State) : World BulkAnalyze.State :=
  Nat.iter n (fun w => exec (BulkAnalyze.analyze_begin (ui w)) w) w.

(** ** Requests, as the properties below name them *)

(** A request of the [api] instance sent from a browser window. *)
Definition api_request (m : Method) (path : string) (data : option jsval)
    (storage : gmap string string) : Request :=
  {| method := m; via := Axios; url := path;
     headers := Api.interceptor true (storage !! "access_token");
     withCredentials := Some true; body := data |}.

(** The request of the signup form. *)
Definition signup_request (s : SignupPage.State) (storage : gmap string string)
  : Request :=
  api_request POST "/api/v1/auth/signup"
    (Some (VObj [("name", VStr (SignupPage.name s));
                 ("email", VStr (SignupPage.email s));
                 ("password", VStr (SignupPage.pw s));
                 ("language_pref", VStr "en")])) storage.

(** The request of the extension, for a text. *)
Definition extension_request (text : string) : Request :=
  {| method := POST; via := Fetch; url := "http://localhost:8000/api/v1/analyze";
     headers := [("Content-Type", "application/json")];
     withCredentials := None;
     body := Some (VObj [("text", VStr text)]) |}.

(** The value a response gives to read fields from: any JSON value but
    null; nothing when there is no response or it is not JSON. *)
Definition readable (res : FetchResult) : option jsval :=
  match res with
  | Body VNull | Body VUndefined => None
  | Body data => Some data
  | NotJson | NetworkDown => None
  end.

(** ** Invariants of the pages *)

(** The invariant of the chat page: [loading] is set exactly while one
    request is in flight, and there is never more than one. *)
Definition chat_inv (s : ChatSystem.Sys) : Prop :=
  let w := ChatSystem.world s in
  (ChatPage.loading (ui w) = true /\
   length (requests (log w)) = S (ChatSystem.settled s)) \/
  (ChatPage.loading (ui w) = false /\
   length (requests (log w)) = ChatSystem.settled s).

Definition analyze_count {S} (w : World S) : nat :=
  length (filter (fun r => HomeSystem.is_analyze r = true) (requests (log w))).

(** The invariant of the home page, for its analyze requests. *)
Definition home_inv (s : HomeSystem.Sys) : Prop :=
  let w := HomeSystem.world s in
  (Home.loading (ui w) = true /\ analyze_count w = S (HomeSystem.settled s)) \/
  (Home.loading (ui w) = false /\ analyze_count w = HomeSystem.settled s).

(** The endpoint a request addresses. *)
Definition endpoint_of (r : Request) : string * Method := (path_of r, method r).

(** ** The backend's data access *)

(** Modelled from the spec: the route handlers of the backend, whose sources
    are missing.  The spec lists Analysis/History and AuditLog among the
    persisted entities and has the Analysis/History records read on dashboard
    queries; the design document of the repository (Audit Log Model;
    Property 35, Audit Log Creation; Property 45, Data Access Audit Trail)
    has an audit entry created, with user id and timestamp, for any data
    access. *)
Module Backend.

Record AuditLog := {
  user_id : option string;     (* from the bearer of the request, when it has one *)
  action : string;
  resource : string;
  timestamp : Z
}.

(** The persisted records, as far as a dashboard query is concerned. *)
Record Store := {
  history : list HistoryItem.Item;
  audit_logs : list AuditLog
}.





(** Modelled from the spec: the answer to GET /api/v1/history, whose handler
    is missing: the records of the history. *)
Definition answer (db : Store) : AxiosResult (option (list HistoryItem.Item)) :=
  Fulfilled (Some (history db)).


End Backend.

(** ** Counting the messages of a conversation *)

#[global] Instance Sender_eq_dec : EqDecision ChatPage.Sender.
Proof. solve_decision. Defined.

Definition messages_from (who : ChatPage.Sender) (l : list ChatPage.Msg) : nat :=
  length (filter (fun m => ChatPage.from m = who) l).

Definition is_clear (e : ChatSystem.event) : bool :=
  match e with
  | ChatSystem.ClearClicked => true
  | _ => false
  end.

(** The bookkeeping of a conversation: one message of the user per request
    sent, one message of the bot per request settled. *)
Definition exchange_inv (s : ChatSystem.Sys) : Prop :=
  let w := ChatSystem.world s in
  messages_from ChatPage.user (ChatPage.log (ui w)) = length (requests (log w)) /\
  messages_from ChatPage.bot (ChatPage.log (ui w)) = ChatSystem.settled s.

(** ** Sample data *)

Definition sample_items : list HistoryItem.Item :=
  [ {| HistoryItem._id := "65f0c1"; HistoryItem.query := "Moon made of cheese";
       HistoryItem.verdict := "Fake"; HistoryItem.confidence := Some (9731 # 100)%Q;
       HistoryItem.reviewed := Some true; HistoryItem.correct := Some (Some true) |};
    {| HistoryItem._id := "65f0c2"; HistoryItem.query := "Rain expected on Monday";
       HistoryItem.verdict := "Real"; HistoryItem.confidence := Some (88 # 1)%Q;
       HistoryItem.reviewed := None; HistoryItem.correct := None |} ].



Definition sample_analysis : Home.Analysis :=
  {| Home.res_verdict := "Fake";
     Home.res_html := "<p>Likely fabricated.</p>";
     Home.res_scores := Some (<["Real News" := (1 # 5)%Q]> (<["Fake News" := (4 # 5)%Q]> ∅));
     Home.res_sources := None;
     Home.res_language := Some "en" |}.

(** Two scores that differ in the last place of their doubles. *)
Definition close_scores : gmap string number :=
  <["Real News" := (7 # 1000)%Q]>
    (<["Fake News" := (7000000000000001 # 1000000000000000000)%Q]> ∅).

Definition close_analysis : Home.Analysis :=
  {| Home.res_verdict := "Real";
     Home.res_html := "<p>Too close to call.</p>";
     Home.res_scores := Some close_scores;
     Home.res_sources := None;
     Home.res_language := None |}.

Definition unanimous_stats : Stats :=
  {| total_users := 3%Q; total_analyses := 9%Q; total_real := 4%Q;
     total_fake := 4%Q; total_uncertain := 1%Q;
     total_reviews := 7%Q; correct_votes := 7%Q |}.


(** A no-break space, a space and an ideographic space. *)
Definition wide_blank : string :=
  Str.of_chars (Str.bytes [194; 160] ++ Str.bytes [32] ++ Str.bytes [227; 128; 128]).

Definition sample_signup : SignupPage.State :=
  {| SignupPage.name := "Ada"; SignupPage.email := "ada@example.org";
     SignupPage.pw := "s3cret!"; SignupPage.err := [];
     SignupPage.authed := false |}.

Definition sample_tokens : Auth.Tokens :=
  {| Auth.access_token := "A1"; Auth.refresh_token := "R1" |}.

Definition sample_click : Extension.OnClickData :=
  {| Extension.menuItemId := "analyzeText";
     Extension.selectionText := Some "Breaking: cats can fly" |}.

Definition sample_verdict : jsval :=
  VObj [("verdict", VStr "Fake"); ("confidence", VNum (912 # 10)%Q)].

(** * Properties *)

(** ** Evaluations *)

Example toFixed_rounds_to_tenths :
  Number.toFixed 1 (8746 # 100) = "87.5" /\ Number.toFixed 1 (8744 # 100) = "87.4" /\
  Number.toFixed 1 (8745 # 100) = "87.5" /\ Number.toFixed 1 0 = "0.0" /\
  Number.toFixed 1 (- (123 # 10)) = "-12.3" /\ Number.toFixed 1 100 = "100.0".
Proof. repeat split; vm_compute; reflexivity. Qed.

Example trim_drops_outer_whitespace :
  Str.trim "  news  of the day " = "news  of the day" /\
  Str.blank "   " = true /\ Str.blank " a " = false.
Proof. repeat split; vm_compute; reflexivity. Qed.

Example trim_drops_white_space_beyond_ascii :
  Str.blank wide_blank = true /\
  Str.trim (Str.of_chars (Str.bytes [239; 187; 191; 110; 101; 119; 115; 194; 160]))
  = "news" /\
  Str.blank (Str.of_chars (Str.bytes [194; 161])) = false.
Proof. repeat split; vm_compute; reflexivity. Qed.

(** The doubles of [Double] next to those of the machine: parsing, the
    product and the quotient agree with the primitive floats. *)
#[local] Set Warnings "-inexact-float".
Example doubles_as_the_machine_has_them :
  Double.of_number (7 # 1000) = Prim2SF 0.007%float /\
  Double.of_number (1 # 3) = Prim2SF (1 / 3)%float /\
  Double.mul (Double.of_number (7 # 1000)) Double.hundred = Prim2SF (0.007 * 100)%float /\
  Double.mul (Double.div (Double.of_number 23) (Double.of_number 80)) Double.hundred
  = Prim2SF (23 / 80 * 100)%float /\
  Double.of_number (4 # 10 ^ 324) = Prim2SF 4e-324%float /\
  Double.of_number (10 ^ 400 # 1) = Prim2SF infinity.
Proof. repeat split; vm_compute; reflexivity. Qed.
#[local] Set Warnings "+inexact-float".

Example toFixed_of_doubles :
  Double.toFixed 1 (Double.of_number (35 # 100)) = Double.Decimal "0.3" /\
  Double.toFixed 1 (Double.of_number (25 # 100)) = Double.Decimal "0.3" /\
  Double.toFixed 2 (Double.of_number (1005 # 1000)) = Double.Decimal "1.00" /\
  Double.toFixed 1 (Double.of_number (- (4 # 100))) = Double.Decimal "-0.0" /\
  Double.toFixed 1 (Double.of_number (10 ^ 21 # 1))
  = Double.AsString (Double.of_number (10 ^ 21 # 1)) /\
  Double.toFixed 1 (Double.div Double.zero Double.zero) = Double.AsString S754_nan.
Proof. repeat split; vm_compute; reflexivity. Qed.

Example path_of_absolute_and_relative_urls :
  Url.path "http://localhost:8000/api/v1/analyze" = "/api/v1/analyze" /\
  Url.path "/api/v1/analyze/batch" = "/api/v1/analyze/batch" /\
  Url.path "https://example.org" = "/".
Proof. repeat split; vm_compute; reflexivity. Qed.

Example history_entry_of_a_record :
  HistoryItem.HistoryItem <$> sample_items =
  [ {| HistoryItem.shown_id := "65f0c1";
       HistoryItem.shown_query := "Moon made of cheese";
       HistoryItem.shown_verdict := "Fake";
       HistoryItem.shown_confidence := Some (Double.Decimal "97.3");
       HistoryItem.review := HistoryItem.Reviewed "var(--good)" "Reviewed: Correct" |};
    {| HistoryItem.shown_id := "65f0c2";
       HistoryItem.shown_query := "Rain expected on Monday";
       HistoryItem.shown_verdict := "Real";
       HistoryItem.shown_confidence := Some (Double.Decimal "88.0");
       HistoryItem.review :=
         HistoryItem.Buttons ("65f0c2", true) ("65f0c2", false) |} ].
Proof. vm_compute. reflexivity. Qed.

Example home_after_sample_analysis :
  Home.meter <$>
    Home.result (Home.render
      (ui (exec (Home.handleAnalyze "Cats can fly" (Fulfilled sample_analysis)
                                    (Rejected None))
                (fresh Home.initial ∅))))
  = Some {| Home.score := Double.of_number 80;
            Home.label_word := "Fake";
            Home.label_score := Double.Decimal "80.0" |}.
Proof. vm_compute. reflexivity. Qed.

(** ** Numbers *)

Lemma ge_iff (a b : number) : Number.ge a b = true <-> (b <= a)%Q.
Proof. unfold Number.ge. apply Qle_bool_iff. Qed.

Lemma ge_false_iff (a b : number) : Number.ge a b = false <-> (a < b)%Q.
Proof.
  unfold Number.ge. split.
  - intros H. apply Qnot_le_lt. intros Hle. apply Qle_bool_iff in Hle. congruence.
  - intros H. destruct (Qle_bool b a) eqn:E; [|reflexivity].
    apply Qle_bool_iff in E. exfalso. exact (Qlt_not_le _ _ H E).
Qed.

Lemma gt_iff (a b : number) : Number.gt a b = true <-> (b < a)%Q.
Proof.
  unfold Number.gt. rewrite negb_true_iff. apply (ge_false_iff b a).
Qed.

Lemma Math_max_spec (a b : number) : (Number.Math_max a b == Qmax a b)%Q.
Proof.
  unfold Number.Math_max. destruct (Qle_bool a b) eqn:E.
  - apply Qle_bool_iff in E. symmetry. apply Q.max_r. exact E.
  - apply (ge_false_iff b a) in E. symmetry. apply Q.max_l. apply Qlt_le_weak, E.
Qed.

Lemma Math_min_spec (a b : number) : (Number.Math_min a b == Qmin a b)%Q.
Proof.
  unfold Number.Math_min. destruct (Qle_bool a b) eqn:E.
  - apply Qle_bool_iff in E. symmetry. apply Q.min_l. exact E.
  - apply (ge_false_iff b a) in E. symmetry. apply Q.min_r. apply Qlt_le_weak, E.
Qed.

(** ** Doubles *)

Lemma shr_1_nonneg (mrs : shr_record) :
  (0 <= shr_m mrs)%Z -> (0 <= shr_m (shr_1 mrs))%Z.
Proof. destruct mrs as [[|[p|p|]|[p|p|]] r s]; cbn; lia. Qed.

Lemma iter_pos_invariant {A : Type} (P : A -> Prop) (f : A -> A) :
  (forall x, P x -> P (f x)) -> forall p x, P x -> P (SpecFloat.iter_pos f p x).
Proof. intros Hf. induction p as [p IH|p IH|]; intros x Hx; cbn; auto. Qed.

Lemma shr_fexp_nonneg (m e : Z) (l : location) :
  (0 <= m)%Z -> (0 <= shr_m (fst (shr_fexp Double.prec Double.emax m e l)))%Z.
Proof.
  intros Hm. unfold shr_fexp, shr.
  assert (H0 : (0 <= shr_m (shr_record_of_loc m l))%Z) by (destruct l as [|[]]; exact Hm).
  destruct (fexp Double.prec Double.emax (Zdigits2 m + e) - e)%Z; cbn [fst]; try exact H0.
  apply (iter_pos_invariant (fun r => (0 <= shr_m r)%Z)); [exact shr_1_nonneg|exact H0].
Qed.

Lemma round_nearest_even_nonneg (m : Z) (l : location) :
  (0 <= m)%Z -> (0 <= round_nearest_even m l)%Z.
Proof. intros Hm. destruct l as [|[]]; cbn; try lia. destruct (Z.even m); lia. Qed.

(** Rounding keeps the sign and never gives NaN. *)
Lemma binary_round_aux_signed (s : bool) (m e : Z) (l : location) :
  (0 <= m)%Z -> Double.has_sign s (binary_round_aux Double.prec Double.emax s m e l) = true.
Proof.
  intros Hm. unfold binary_round_aux.
  pose proof (shr_fexp_nonneg m e l Hm) as H1.
  destruct (shr_fexp Double.prec Double.emax m e l) as [mrs' e'].
  cbn [fst] in H1.
  pose proof (shr_fexp_nonneg _ e' loc_Exact
                (round_nearest_even_nonneg _ (loc_of_shr_record mrs') H1)) as H2.
  destruct (shr_fexp Double.prec Double.emax
              (round_nearest_even (shr_m mrs') (loc_of_shr_record mrs')) e' loc_Exact)
    as [mrs'' e''].
  cbn [fst] in H2.
  destruct (shr_m mrs'') as [|p|p].
  - cbn. apply Bool.eqb_reflx.
  - destruct (e'' <=? Double.emax - Double.prec)%Z; cbn; apply Bool.eqb_reflx.
  - lia.
Qed.

Lemma div_finite_signed (sx sy : bool) (mx my : positive) (ex ey : Z) :
  Double.has_sign (xorb sx sy)
    (Double.div (S754_finite sx mx ex) (S754_finite sy my ey)) = true.
Proof.
  unfold Double.div, SFdiv.
  destruct (SFdiv_core_binary Double.prec Double.emax (Z.pos mx) ex (Z.pos my) ey)
    as [[mz ez] lz] eqn:E.
  apply binary_round_aux_signed.
  unfold SFdiv_core_binary in E.
  set (m' := match _ with Z.pos _ => _ | Z0 => _ | Z.neg _ => _ end) in E.
  assert (Hm' : (0 <= m')%Z).
  { subst m'. destruct (_ - _ - _)%Z; try lia. apply Z.shiftl_nonneg. lia. }
  pose proof (Z.div_eucl_eq m' (Z.pos my) ltac:(lia)) as Heq.
  pose proof (Z.mod_pos_bound m' (Z.pos my) ltac:(lia)) as Hmod.
  unfold Z.modulo in Hmod.
  destruct (Z.div_eucl m' (Z.pos my)) as [q r]. injection E as <- _ _.
  nia.
Qed.

(** A parsed number is never NaN, and has the sign of the literal. *)
Lemma of_number_signed (q : Q) :
  Double.has_sign (Qnum q <? 0)%Z (Double.of_number q) = true.
Proof.
  unfold Double.of_number. destruct (Qnum q) as [|n|n].
  - reflexivity.
  - apply (div_finite_signed false false).
  - apply (div_finite_signed true false).
Qed.

Lemma mul_finite_signed (s sy : bool) (x : Double.t) (my : positive) (ey : Z) :
  Double.has_sign s x = true ->
  Double.has_sign (xorb s sy) (Double.mul x (S754_finite sy my ey)) = true.
Proof.
  destruct x as [sx|sx| |sx mx ex]; cbn [Double.has_sign]; try discriminate;
    intros H; apply Bool.eqb_prop in H; subst sx; cbn.
  - apply Bool.eqb_reflx.
  - apply Bool.eqb_reflx.
  - apply binary_round_aux_signed. lia.
Qed.

Lemma has_sign_not_nan (s : bool) (x : Double.t) :
  Double.has_sign s x = true -> Double.is_nan x = false.
Proof. destruct x; cbn; congruence. Qed.

Lemma hundred_finite : Double.hundred = S754_finite false 7036874417766400 (-46).
Proof. vm_compute. reflexivity. Qed.

(** A number of a response times 100 is never NaN. *)
Lemma scaled_not_nan (q : Q) :
  Double.is_nan (Double.mul (Double.of_number q) Double.hundred) = false.
Proof.
  rewrite hundred_finite.
  apply (has_sign_not_nan (xorb (Qnum q <? 0)%Z false)).
  apply mul_finite_signed, of_number_signed.
Qed.

(** The order of the doubles. *)
Lemma SFcompare_antisym (a b : Double.t) :
  SFcompare b a = CompOpp <$> SFcompare a b.
Proof.
  destruct a as [sa|sa| |sa ma ea], b as [sb|sb| |sb mb eb]; cbn;
    try reflexivity; try (destruct sa; reflexivity); try (destruct sb; reflexivity);
    try (destruct sa, sb; reflexivity).
  f_equal. destruct sa, sb; try reflexivity.
  - rewrite (Z.compare_antisym ea eb). destruct (ea ?= eb)%Z; cbn; try reflexivity.
    change (Pos.compare_cont Eq mb ma) with (mb ?= ma)%positive.
    change (Pos.compare_cont Eq ma mb) with (ma ?= mb)%positive.
    rewrite (Pos.compare_antisym ma mb). destruct (ma ?= mb)%positive; reflexivity.
  - rewrite (Z.compare_antisym ea eb). destruct (ea ?= eb)%Z; cbn; try reflexivity.
    change (Pos.compare_cont Eq mb ma) with (mb ?= ma)%positive.
    change (Pos.compare_cont Eq ma mb) with (ma ?= mb)%positive.
    rewrite (Pos.compare_antisym ma mb). destruct (ma ?= mb)%positive; reflexivity.
Qed.

Lemma SFcompare_defined (a b : Double.t) :
  Double.is_nan a = false -> Double.is_nan b = false -> exists c, SFcompare a b = Some c.
Proof.
  destruct a, b; cbn; try discriminate; intros _ _; eexists; reflexivity.
Qed.

Lemma SFcompare_refl (a : Double.t) :
  Double.is_nan a = false -> SFcompare a a = Some Eq.
Proof.
  destruct a as [s|s| |s m e]; cbn; try discriminate; intros _;
    try reflexivity; try (destruct s; reflexivity).
  f_equal. rewrite Z.compare_refl.
  change (Pos.compare_cont Eq m m) with (m ?= m)%positive.
  rewrite Pos.compare_refl. destruct s; reflexivity.
Qed.

Lemma ge_refl (a : Double.t) : Double.is_nan a = false -> Double.ge a a = true.
Proof. intros H. unfold Double.ge, SFleb. rewrite (SFcompare_refl a H). reflexivity. Qed.

(** [a >= b] is false exactly when [a < b], for operands that are not NaN. *)
Lemma ge_false_lt (a b : Double.t) :
  Double.is_nan a = false -> Double.is_nan b = false ->
  (Double.ge a b = false <-> Double.lt a b = true).
Proof.
  intros Ha Hb. unfold Double.ge, Double.lt, SFleb, SFltb.
  rewrite (SFcompare_antisym a b).
  destruct (SFcompare_defined a b Ha Hb) as [c ->]. destruct c; cbn; split; congruence.
Qed.

Lemma lt_ge (a b : Double.t) : Double.lt a b = true -> Double.ge b a = true.
Proof. unfold Double.lt, Double.ge, SFltb, SFleb. destruct (SFcompare a b) as [[]|]; congruence. Qed.

Lemma eqb_ge (a b : Double.t) : Double.eqb a b = true -> Double.ge a b = true.
Proof.
  unfold Double.eqb, Double.ge, SFeqb, SFleb. rewrite (SFcompare_antisym a b).
  destruct (SFcompare a b) as [[]|]; cbn; congruence.
Qed.

(** Doubles that compare equal are two zeros or the same double. *)
Lemma eqb_cases (a b : Double.t) :
  Double.eqb a b = true ->
  (Double.is_zero a = true /\ Double.is_zero b = true) \/ a = b.
Proof.
  unfold Double.eqb, SFeqb.
  destruct a as [sa|sa| |sa ma ea], b as [sb|sb| |sb mb eb]; cbn;
    try discriminate; try (destruct sa; discriminate); try (destruct sb; discriminate).
  - intros _. left. split; reflexivity.
  - destruct sa, sb; try discriminate; intros _; right; reflexivity.
  - destruct sa, sb; try discriminate.
    + destruct (ea ?= eb)%Z eqn:E; try discriminate.
      apply Z.compare_eq in E. subst eb.
      change (Pos.compare_cont Eq ma mb) with (ma ?= mb)%positive.
      destruct (ma ?= mb)%positive eqn:M; try discriminate.
      apply Pos.compare_eq in M. subst mb. intros _. right. reflexivity.
    + destruct (ea ?= eb)%Z eqn:E; try discriminate.
      apply Z.compare_eq in E. subst eb.
      change (Pos.compare_cont Eq ma mb) with (ma ?= mb)%positive.
      destruct (ma ?= mb)%positive eqn:M; try discriminate.
      apply Pos.compare_eq in M. subst mb. intros _. right. reflexivity.
Qed.

Lemma gt_zero_cases (x : Double.t) :
  Double.gt x Double.zero = true ->
  Double.has_sign false x = true /\ Double.is_zero x = false.
Proof.
  destruct x as [s|s| |s m e]; cbn; try discriminate; destruct s; cbn;
    try discriminate; intros _; split; reflexivity.
Qed.

(** ** AuthMeter *)

(** C7.  For every score the width of the meter fill is
    max(0, min(100, score)) percent, hence between 0 and 100 whatever the
    score, and the label has the "good" colour exactly when the score itself,
    not clamped, is at least 50 (the "bad" colour otherwise). *)
Theorem AuthMeter_width_and_colour (score : number) (label : string) :
  let v := AuthMeter.AuthMeter score label in
  (AuthMeter.fill_width v == Qmax 0 (Qmin 100 score))%Q /\
  (0 <= AuthMeter.fill_width v <= 100)%Q /\
  (AuthMeter.label_color v = "var(--good)" <-> (50 <= score)%Q) /\
  (AuthMeter.label_color v = "var(--bad)" <-> (score < 50)%Q) /\
  AuthMeter.label_text v = label.
Proof.
  intros v. subst v. cbn [AuthMeter.AuthMeter AuthMeter.fill_width
    AuthMeter.label_color AuthMeter.label_text].
  assert (Hw : (Number.Math_max 0 (Number.Math_min 100 score)
                == Qmax 0 (Qmin 100 score))%Q).
  { rewrite Math_max_spec. rewrite Math_min_spec. reflexivity. }
  split; [exact Hw|]. split.
  - rewrite Hw. split.
    + apply Q.le_max_l.
    + apply Q.max_lub; [discriminate|]. apply Q.le_min_l.
  - destruct (Number.ge score 50%Q) eqn:E.
    + apply ge_iff in E. repeat split; try congruence; try discriminate.
      intros H. exfalso. exact (Qlt_not_le _ _ H E).
    + apply ge_false_iff in E. repeat split; try congruence; try discriminate.
      intros H. exfalso. exact (Qlt_not_le _ _ E H).
Qed.

Lemma AuthMeter_width_and_colour_witness :
  (0 <= AuthMeter.fill_width (AuthMeter.AuthMeter 150 "Real • 150.0%") <= 100)%Q /\
  AuthMeter.label_color (AuthMeter.AuthMeter 150 "Real • 150.0%") = "var(--good)".
Proof.
  destruct (AuthMeter_width_and_colour 150 "Real • 150.0%") as (_ & Hw & Hgood & _).
  split; [exact Hw|]. apply Hgood. discriminate.
Defined.

(** ** The home page *)




(** The state a successful analysis leaves. *)
Lemma handleAnalyze_fulfilled (w : World Home.State) (input : string)
    (data : Home.Analysis) (stats_res : AxiosResult Stats) :
  ui (exec (Home.handleAnalyze input (Fulfilled data) stats_res) w) =
  {| Home.authed := Home.authed (ui w);
     Home.stats := match stats_res with
                   | Fulfilled st => Some st
                   | Rejected _ => Home.stats (ui w)
                   end;
     Home.input := Home.input (ui w);
     Home.html := Home.res_html data;
     Home.verdict := Home.res_verdict data;
     Home.prob := default ∅ (Home.res_scores data);
     Home.sources := default [] (Home.res_sources data);
     Home.loading := false;
     Home.language := Home.or_null (Home.res_language data) |}.
Proof. destruct stats_res; reflexivity. Qed.

(** C8 (as stated) fails: the page compares the two scores after it has
    multiplied each by 100, in binary64, and the products of two different
    scores can be the same double.  For a response with "Real News" 0.007 and
    "Fake News" 0.007000000000000001 the second score is the greater, as a
    number and as a double, yet the two products are equal and the meter is
    labelled "Real". *)
Lemma close_scores_labelled_real :
  let s := ui (exec (Home.handleAnalyze "Cats can fly" (Fulfilled close_analysis)
                                        (Rejected None))
                    (fresh Home.initial ∅)) in
  let real := default 0%Q (Home.prob s !! "Real News") in
  let fake := default 0%Q (Home.prob s !! "Fake News") in
  (real < fake)%Q /\
  Double.lt (Double.of_number real) (Double.of_number fake) = true /\
  Home.Binary64.realScore (Home.prob s) = Home.Binary64.fakeScore (Home.prob s) /\
  Home.label_word ∘ Home.meter <$> Home.result (Home.render s) = Some "Real" /\
  ~ (Home.Binary64.meterLabel (Home.prob s) = "Real" <-> (fake <= real)%Q).
Proof.
  cbv zeta.
  split; [vm_compute; reflexivity|]. split; [vm_compute; reflexivity|].
  split; [vm_compute; reflexivity|]. split; [vm_compute; reflexivity|].
  intros [H _].
  assert (Hle : (7000000000000001 # 1000000000000000000 <= 7 # 1000)%Q).
  { apply H. vm_compute. reflexivity. }
  revert Hle. vm_compute. intros Hle. apply Hle. reflexivity.
Qed.

Lemma isReal_false_lt (p : gmap string number) :
  Home.Binary64.isReal p = false <->
  Double.lt (Home.Binary64.realScore p) (Home.Binary64.fakeScore p) = true.
Proof.
  unfold Home.Binary64.isReal. apply ge_false_lt; apply scaled_not_nan.
Qed.

Lemma scaled_zero (s : bool) :
  Double.mul (S754_zero s) Double.hundred = S754_zero s.
Proof. destruct s; vm_compute; reflexivity. Qed.

(** Scores that compare equal are scaled to products that compare equal. *)
Lemma scaled_tie (a b : Double.t) :
  Double.is_nan (Double.mul a Double.hundred) = false ->
  Double.eqb a b = true ->
  Double.ge (Double.mul a Double.hundred) (Double.mul b Double.hundred) = true.
Proof.
  intros Hn Hab. destruct (eqb_cases a b Hab) as [[Ha Hb]| <-].
  - destruct a as [sa| | |]; try discriminate. destruct b as [sb| | |]; try discriminate.
    rewrite !scaled_zero. reflexivity.
  - apply ge_refl. exact Hn.
Qed.

(** C8 (amended).  After an analysis that succeeded the page holds the
    scores of the response (none when the response has no scores).  With the
    "Real News" and "Fake News" scores parsed to doubles, 0 when absent, and
    each multiplied by 100 in binary64: the meter label is "Real" exactly
    when the product of the first is greater than or equal to the product of
    the second, and "Fake" exactly when it is less; scores that compare equal
    and two missing scores give "Real"; the score of the meter is one of the
    two products and is greater than or equal to both; and when the verdict
    of the response is not empty the meter is displayed with that score and
    a label made of that word and the score written by [toFixed(1)]. *)
Theorem home_meter_label_and_score
    (w : World Home.State) (input : string) (data : Home.Analysis)
    (stats_res : AxiosResult Stats) :
  let w' := exec (Home.handleAnalyze input (Fulfilled data) stats_res) w in
  let scores := default ∅ (Home.res_scores data) in
  let real := Double.of_number (default 0%Q (scores !! "Real News")) in
  let fake := Double.of_number (default 0%Q (scores !! "Fake News")) in
  let real100 := Double.mul real Double.hundred in
  let fake100 := Double.mul fake Double.hundred in
  let label := Home.Binary64.meterLabel scores in
  let score := Home.Binary64.meterScore scores in
  Home.prob (ui w') = scores /\
  (label = "Real" <-> Double.ge real100 fake100 = true) /\
  (label = "Fake" <-> Double.lt real100 fake100 = true) /\
  (Double.eqb real fake = true -> label = "Real") /\
  (scores !! "Real News" = None -> scores !! "Fake News" = None ->
     label = "Real" /\ score = Double.zero) /\
  (score = real100 \/ score = fake100) /\
  Double.ge score real100 = true /\ Double.ge score fake100 = true /\
  Home.meter <$> Home.result (Home.render (ui w')) =
    if String.eqb (Home.res_verdict data) "" then None
    else Some {| Home.score := score;
                 Home.label_word := label;
                 Home.label_score := Double.toFixed 1 (Double.or_zero score) |}.
Proof.
  intros w' scores real fake real100 fake100 label score.
  assert (Hprob : Home.prob (ui w') = scores)
    by (subst w'; destruct stats_res; reflexivity).
  assert (Hr : Double.is_nan real100 = false) by apply scaled_not_nan.
  assert (Hf : Double.is_nan fake100 = false) by apply scaled_not_nan.
  subst label score. unfold Home.Binary64.meterLabel, Home.Binary64.meterScore.
  pose proof (isReal_false_lt scores) as Hlt.
  unfold Home.Binary64.isReal in *.
  change (Home.Binary64.realScore scores) with real100 in *.
  change (Home.Binary64.fakeScore scores) with fake100 in *.
  split; [exact Hprob|].
  split; [|split; [|split; [|split; [|split; [|split; [|split]]]]]].
  - destruct (Double.ge real100 fake100); split; congruence.
  - destruct (Double.ge real100 fake100).
    + split; [discriminate|]. intros H. apply Hlt in H. discriminate.
    + split; [intros _; apply Hlt; reflexivity|reflexivity].
  - intros Htie. pose proof (scaled_tie real fake Hr Htie) as H.
    fold real100 fake100 in H. rewrite H. reflexivity.
  - intros Hnr Hnf. subst real100 fake100 real fake. rewrite Hnr, Hnf.
    split; reflexivity.
  - destruct (Double.ge real100 fake100); [left|right]; reflexivity.
  - destruct (Double.ge real100 fake100) eqn:E.
    + apply ge_refl, Hr.
    + apply lt_ge, Hlt. reflexivity.
  - destruct (Double.ge real100 fake100) eqn:E.
    + exact E.
    + apply ge_refl, Hf.
  - subst w'. unfold Home.render. rewrite handleAnalyze_fulfilled.
    cbn [Home.result Home.verdict Home.prob].
    destruct (String.eqb (Home.res_verdict data) ""); reflexivity.
Qed.

Lemma home_meter_label_and_score_witness :
  Double.lt (Double.mul (Double.of_number (1 # 5)) Double.hundred)
            (Double.mul (Double.of_number (4 # 5)) Double.hundred) = true /\
  Home.Binary64.meterLabel (default ∅ (Home.res_scores sample_analysis)) = "Fake".
Proof.
  assert (H : Double.lt (Double.mul (Double.of_number (1 # 5)) Double.hundred)
                (Double.mul (Double.of_number (4 # 5)) Double.hundred) = true)
    by (vm_compute; reflexivity).
  split; [exact H|].
  destruct (home_meter_label_and_score (fresh Home.initial ∅) "Cats can fly"
              sample_analysis (Rejected None)) as (_ & _ & Hfake & _).
  apply Hfake. exact H.
Defined.

(** ** The dashboard *)








(** ** Signup *)

(** The [catch] block of the signup page performs no effect and leaves
    localStorage as it is: it only sets the error text, or throws. *)
Lemma signup_failed_world (e : exn) (w : World SignupPage.State) :
  log (exec (SignupPage.failed e) w) = log w /\
  localStorage (exec (SignupPage.failed e) w) = localStorage w.
Proof.
  unfold SignupPage.failed, exec.
  destruct (is_object (error_detail e)).
  - destruct (truthy (field "message" (error_detail e))
              && truthy (field "errors" (error_detail e))).
    + destruct (field "errors" (error_detail e)); split; reflexivity.
    + split; reflexivity.
  - split; reflexivity.
Qed.

Lemma signup_sends (s : SignupPage.State) (storage : gmap string string)
    (res : AxiosResult Auth.Tokens) :
  requests_of (Signup s res) storage = [signup_request s storage].
Proof.
  unfold requests_of, sends, effects, fresh. cbn [ui localStorage has_window].
  destruct res as [tokens|r]; [reflexivity|].
  change (exec (SignupPage.submit s (Rejected r)) (mkWorld s true storage []))
    with (exec (SignupPage.failed (AxiosError r))
               (mkWorld s true storage [Sent (signup_request s storage)])).
  rewrite (proj1 (signup_failed_world _ _)). reflexivity.
Qed.

(** C6 (as stated) fails on the language preference: it is not entered.
    The signup form has a name, an email and a password; whatever they are,
    and whatever language the user chose in the selector of the preferences
    page, the request carries the language preference "en". *)
Lemma signup_language_preference_not_entered :
  let chosen := ui (exec (Preferences.onChange "fr") (fresh Preferences.initial ∅)) in
  Preferences.language chosen = "fr" /\
  field "language_pref"
    (default VUndefined (body (signup_request sample_signup ∅))) = VStr "en" /\
  (forall s storage res r,
     r ∈ sends (SignupPage.submit s res) (fresh s storage) ->
     field "language_pref" (default VUndefined (body r)) = VStr "en") /\
  ~ (forall (prefs : Preferences.State) s storage res r,
       r ∈ sends (SignupPage.submit s res) (fresh s storage) ->
       field "language_pref" (default VUndefined (body r))
       = VStr (Preferences.language prefs)).
Proof.
  cbv zeta.
  assert (Hen : forall s storage res r,
            r ∈ sends (SignupPage.submit s res) (fresh s storage) ->
            field "language_pref" (default VUndefined (body r)) = VStr "en").
  { intros s storage res r Hr.
    change (sends (SignupPage.submit s res) (fresh s storage))
      with (requests_of (Signup s res) storage) in Hr.
    rewrite signup_sends in Hr. apply list_elem_of_singleton in Hr. subst r.
    reflexivity. }
  split; [reflexivity|]. split; [reflexivity|]. split; [exact Hen|].
  intros Hall.
  assert (Hr : signup_request sample_signup ∅
               ∈ sends (SignupPage.submit sample_signup (Rejected None))
                       (fresh sample_signup ∅)) by apply list_elem_of_here.
  specialize (Hall (Preferences.setLanguage "fr" Preferences.initial) _ _ _ _ Hr).
  discriminate Hall.
Qed.

(** C6 (amended).  A submission of the signup form, in a browser window:
    whatever the server answers, the one request sent is a POST to
    /api/v1/auth/signup whose body carries the name, the email and the
    password entered in the form, and the language preference "en", a
    constant of the page; when the response is successful the two tokens of
    the response are stored in localStorage under access_token and
    refresh_token, and only then the page navigates to "/". *)
Theorem signup_posts_once_and_stores_tokens
    (w : World SignupPage.State) (res : AxiosResult Auth.Tokens)
    (Hwin : has_window w = true) :
  let w' := exec (SignupPage.submit (ui w) res) w in
  let req := signup_request (ui w) (localStorage w) in
  sends (SignupPage.submit (ui w) res) w = [req] /\
  method req = POST /\ path_of req = "/api/v1/auth/signup" /\
  body req = Some (VObj [("name", VStr (SignupPage.name (ui w)));
                         ("email", VStr (SignupPage.email (ui w)));
                         ("password", VStr (SignupPage.pw (ui w)));
                         ("language_pref", VStr "en")]) /\
  forall tokens, res = Fulfilled tokens ->
    effects (SignupPage.submit (ui w) res) w =
      [Sent req;
       Stored "access_token" (Auth.access_token tokens);
       Stored "refresh_token" (Auth.refresh_token tokens);
       Navigate "/"] /\
    localStorage w' !! "access_token" = Some (Auth.access_token tokens) /\
    localStorage w' !! "refresh_token" = Some (Auth.refresh_token tokens) /\
    SignupPage.submit (ui w) res w = (Done tt, w').
Proof.
  destruct w as [s hw storage l]. cbn in Hwin. subst hw.
  cbv zeta. cbn [ui localStorage log].
  split; [|split; [reflexivity|split; [reflexivity|split; [reflexivity|]]]].
  - exact (signup_sends s storage res).
  - intros tokens ->. split; [reflexivity|].
    split; [|split; [|reflexivity]].
    + change (localStorage (exec _ _))
        with (<["refresh_token" := Auth.refresh_token tokens]>
                (<["access_token" := Auth.access_token tokens]> storage)).
      rewrite lookup_insert_ne by discriminate. apply lookup_insert_eq.
    + change (localStorage (exec _ _))
        with (<["refresh_token" := Auth.refresh_token tokens]>
                (<["access_token" := Auth.access_token tokens]> storage)).
      apply lookup_insert_eq.
Qed.

Lemma signup_posts_once_and_stores_tokens_witness :
  has_window (fresh sample_signup ∅) = true /\
  sends (SignupPage.submit sample_signup (Fulfilled sample_tokens))
        (fresh sample_signup ∅)
  = [ {| method := POST; via := Axios; url := "/api/v1/auth/signup";
         headers := []; withCredentials := Some true;
         body := Some (VObj [("name", VStr "Ada"); ("email", VStr "ada@example.org");
                             ("password", VStr "s3cret!");
                             ("language_pref", VStr "en")]) |} ].
Proof.
  split; [reflexivity|].
  exact (proj1 (signup_posts_once_and_stores_tokens
                  (fresh sample_signup ∅) (Fulfilled sample_tokens) eq_refl)).
Defined.

(** ** Dashboard history *)





(** ** The browser extension *)

(** C4 (as stated) fails: not every analyze action issues the request.  A
    click in the popup whose script injection fails (the callback then gets
    no results) or that finds no active tab sends nothing and presents
    nothing; and when the backend does not answer a context-menu click, the
    request has been sent and nothing is presented. *)
Lemma popup_click_without_injection_sends_nothing :
  let tab := {| Extension.tab_id := 7 |} in
  effects (Extension.on_analyze_click [tab] None (Body sample_verdict)) (fresh tt ∅) = [] /\
  effects (Extension.on_analyze_click [] None (Body sample_verdict)) (fresh tt ∅) = [] /\
  effects (Extension.onClicked sample_click NetworkDown) (fresh tt ∅)
    = [Sent (extension_request "Breaking: cats can fly")] /\
  ~ (forall tabs injected res,
       exists text, sends (Extension.on_analyze_click tabs injected res) (fresh tt ∅)
                    = [extension_request text]).
Proof.
  cbv zeta. split; [reflexivity|]. split; [reflexivity|]. split; [reflexivity|].
  intros Hall.
  destruct (Hall [ {| Extension.tab_id := 7 |} ] None (Body sample_verdict)) as [text H].
  discriminate H.
Qed.

(** C4 (amended).  What each analyze action of the extension does, for
    every click and every answer.  The request, when one is sent, is a POST
    to http://localhost:8000/api/v1/analyze whose JSON body holds the text
    under "text".  A click on the context-menu entry "analyzeText" sends it
    with the selected text, a click on another entry sends nothing; a click
    in the popup sends it with the text of the page when there is an active
    tab and the script injection returned a result, and sends nothing
    otherwise.  After the request, when the response is JSON and not null,
    its verdict and confidence fields are presented, in a notification
    ("verdict (confidence%)") for the context menu and in the popup's result
    element for the popup; when there is no response or it is not JSON,
    nothing is presented. *)
Theorem extension_posts_text_and_presents_verdict
    (w : World unit) (res : FetchResult) :
  (forall text,
     let req := extension_request text in
     method req = POST /\ path_of req = "/api/v1/analyze" /\
     url req = "http://localhost:8000/api/v1/analyze" /\
     body req = Some (VObj [("text", VStr text)])) /\
  (forall info,
     effects (Extension.onClicked info res) w =
       if String.eqb (Extension.menuItemId info) "analyzeText" then
         Sent {| method := POST; via := Fetch; url := Extension.endpoint;
                 headers := [("Content-Type", "application/json")];
                 withCredentials := None;
                 body := Some (Extension.text_body (Extension.selectionText info)) |}
         :: match readable res with
            | Some data =>
                [Notification "VeriGlow Analysis"
                   [Interp (field "verdict" data); Lit " (";
                    Interp (field "confidence" data); Lit "%)"]]
            | None => []
            end
       else []) /\
  (forall info text,
     Extension.menuItemId info = "analyzeText" ->
     Extension.selectionText info = Some text ->
     sends (Extension.onClicked info res) w = [extension_request text]) /\
  (forall tabs injected,
     effects (Extension.on_analyze_click tabs injected res) w =
       match tabs, injected with
       | _ :: _, Some (first :: _) =>
           Sent (extension_request (Extension.result first))
           :: match readable res with
              | Some data =>
                  [InnerHTML "result"
                     [Lit (Extension.newline +:+ "      <h3>");
                      Interp (field "verdict" data);
                      Lit ("</h3>" +:+ Extension.newline +:+ "      <p>Confidence: ");
                      Interp (field "confidence" data);
                      Lit ("%</p>" +:+ Extension.newline +:+ "    ")]]
              | None => []
              end
       | _, _ => []
       end).
Proof.
  split; [intros text; cbv zeta; repeat split|].
  split; [|split].
  - intros [item selection]. unfold effects, Extension.onClicked.
    cbn [Extension.menuItemId Extension.selectionText].
    destruct (String.eqb item "analyzeText"); [|reflexivity].
    destruct res as [data| |]; [|reflexivity|reflexivity].
    destruct data; reflexivity.
  - intros [item selection] text Hid Hsel. cbn in Hid, Hsel. subst item selection.
    destruct res as [data| |]; [|reflexivity|reflexivity].
    destruct data; reflexivity.
  - intros tabs injected. destruct tabs as [|tab tabs]; [reflexivity|].
    destruct injected as [[|first others]|]; [reflexivity| |reflexivity].
    destruct res as [data| |]; [|reflexivity|reflexivity].
    destruct data; reflexivity.
Qed.

Lemma extension_posts_text_and_presents_verdict_witness :
  Extension.menuItemId sample_click = "analyzeText" /\
  Extension.selectionText sample_click = Some "Breaking: cats can fly" /\
  sends (Extension.onClicked sample_click (Body sample_verdict)) (fresh tt ∅)
  = [extension_request "Breaking: cats can fly"].
Proof.
  split; [reflexivity|]. split; [reflexivity|].
  destruct (extension_posts_text_and_presents_verdict (fresh tt ∅) (Body sample_verdict))
    as (_ & _ & Hmenu & _).
  exact (Hmenu sample_click _ eq_refl eq_refl).
Defined.

(** ** Endpoints *)

Lemma login_failed_world (e : exn) (w : World LoginPage.State) :
  log (exec (LoginPage.failed e) w) = log w /\
  localStorage (exec (LoginPage.failed e) w) = localStorage w.
Proof.
  unfold LoginPage.failed, exec.
  destruct (is_object (error_detail e)); split; reflexivity.
Qed.

Lemma login_sends (s : LoginPage.State) (storage : gmap string string)
    (res : AxiosResult Auth.Tokens) :
  requests_of (Login s res) storage =
  [api_request POST "/api/v1/auth/login"
     (Some (VObj [("email", VStr (LoginPage.email s));
                  ("password", VStr (LoginPage.pw s))])) storage].
Proof.
  unfold requests_of, sends, effects, fresh. cbn [ui localStorage has_window].
  destruct res as [tokens|r]; [reflexivity|].
  match goal with
  | |- requests (log (exec _ ?W)) = [?req] =>
      change (exec (LoginPage.submit s (Rejected r)) W)
        with (exec (LoginPage.failed (AxiosError r))
                   (mkWorld s true storage [Sent req]))
  end.
  rewrite (proj1 (login_failed_world _ _)). reflexivity.
Qed.

(** Membership in an explicit list, one element after the other. *)
Ltac members H :=
  repeat (apply elem_of_cons in H as [->|H]);
  try (apply not_elem_of_nil in H; contradiction).

Ltac in_table := left; apply (bool_decide_unpack _); vm_compute; exact I.

(** C1 (amended).  Every request the client code sends addresses an endpoint
    of the README's API overview, with the method the table gives, except
    two: the POST of /api/v1/history/review sent by the dashboard's review
    buttons, and the POST of /api/v1/analyze/batch sent by the bulk
    analysis page. *)
Theorem client_endpoints_documented_but_two
    (op : Operation) (storage : gmap string string) (r : Request) :
  r ∈ requests_of op storage ->
  endpoint_of r ∈ Readme.api_overview \/
  (endpoint_of r = ("/api/v1/history/review", POST) /\
   exists s id correct review_res history_res stats_res,
     op = DashboardReview s id correct review_res history_res stats_res) \/
  (endpoint_of r = ("/api/v1/analyze/batch", POST) /\
   exists s res, op = BulkAnalysis s res).
Proof.
  intros H. destruct op.
  - destruct res, stats_res; cbv -[lookup Api.interceptor] in H; members H; in_table.
  - destruct history_res, stats_res; cbv -[lookup Api.interceptor] in H;
      members H; in_table.
  - destruct review_res, history_res, stats_res;
      cbv -[lookup Api.interceptor] in H; members H;
      try in_table; right; left; (split; [reflexivity|]); repeat eexists.
  - unfold requests_of, sends, effects, ChatPage.send in H.
    cbn [ui fresh] in H.
    destruct (Str.blank (ChatPage.input s) || ChatPage.loading s);
      destruct res; cbv -[lookup Api.interceptor] in H; members H; in_table.
  - rewrite signup_sends in H. members H. in_table.
  - rewrite login_sends in H. members H. in_table.
  - cbv in H. members H.
  - destruct res as [[]| |]; cbv -[lookup Api.interceptor] in H; members H;
      right; right; (split; [reflexivity|]); repeat eexists.
  - destruct info as [item selection].
    unfold requests_of, sends, effects, Extension.onClicked in H.
    cbn [Extension.menuItemId Extension.selectionText] in H.
    destruct (String.eqb item "analyzeText");
      destruct res as [[]| |]; cbv in H; members H; in_table.
  - destruct tabs as [|tab tabs]; [cbv in H; members H|].
    destruct injected as [[|first others]|]; destruct res as [[]| |];
      cbv in H; members H; in_table.
Qed.

Lemma client_endpoints_documented_but_two_witness :
  extension_request "Breaking: cats can fly"
    ∈ requests_of (ContextMenuClick sample_click NetworkDown) ∅ /\
  (endpoint_of (extension_request "Breaking: cats can fly") ∈ Readme.api_overview \/
   (endpoint_of (extension_request "Breaking: cats can fly")
      = ("/api/v1/history/review", POST) /\
    exists s id correct review_res history_res stats_res,
      ContextMenuClick sample_click NetworkDown
      = DashboardReview s id correct review_res history_res stats_res) \/
   (endpoint_of (extension_request "Breaking: cats can fly")
      = ("/api/v1/analyze/batch", POST) /\
    exists s res, ContextMenuClick sample_click NetworkDown = BulkAnalysis s res)).
Proof.
  assert (Hin : extension_request "Breaking: cats can fly"
                  ∈ requests_of (ContextMenuClick sample_click NetworkDown) ∅)
    by apply list_elem_of_here.
  split; [exact Hin|].
  exact (client_endpoints_documented_but_two _ _ _ Hin).
Defined.

(** The endpoints an operation addresses, in the order of its requests,
    by what the network answers. *)
Lemma operation_endpoints (op : Operation) (storage : gmap string string) :
  endpoint_of <$> requests_of op storage =
  match op with
  | HomeAnalyze _ (Fulfilled _) _ => [("/api/v1/analyze", POST); ("/api/v1/stats", GET)]
  | HomeAnalyze _ (Rejected _) _ => [("/api/v1/analyze", POST)]
  | DashboardLoad _ (Fulfilled _) _ => [("/api/v1/history", GET); ("/api/v1/stats", GET)]
  | DashboardLoad _ (Rejected _) _ => [("/api/v1/history", GET)]
  | DashboardReview _ _ _ (Rejected _) _ _ => [("/api/v1/history/review", POST)]
  | DashboardReview _ _ _ (Fulfilled _) (Rejected _) _ =>
      [("/api/v1/history/review", POST); ("/api/v1/history", GET)]
  | DashboardReview _ _ _ (Fulfilled _) (Fulfilled _) _ =>
      [("/api/v1/history/review", POST); ("/api/v1/history", GET);
       ("/api/v1/stats", GET)]
  | ChatSend s _ _ _ =>
      if Str.blank (ChatPage.input s) || ChatPage.loading s then []
      else [("/api/v1/chat", POST)]
  | Signup _ _ => [("/api/v1/auth/signup", POST)]
  | Login _ _ => [("/api/v1/auth/login", POST)]
  | Logout => []
  | BulkAnalysis _ _ => [("/api/v1/analyze/batch", POST)]
  | ContextMenuClick info _ =>
      if String.eqb (Extension.menuItemId info) "analyzeText"
      then [("/api/v1/analyze", POST)] else []
  | PopupClick (_ :: _) (Some (_ :: _)) _ => [("/api/v1/analyze", POST)]
  | PopupClick _ _ _ => []
  end.
Proof.
  destruct op.
  - destruct res, stats_res; reflexivity.
  - destruct history_res, stats_res; reflexivity.
  - destruct review_res, history_res, stats_res; reflexivity.
  - unfold requests_of, sends, effects, ChatPage.send. cbn [ui fresh].
    destruct (Str.blank (ChatPage.input s) || ChatPage.loading s);
      destruct res; reflexivity.
  - rewrite signup_sends. reflexivity.
  - rewrite login_sends. reflexivity.
  - reflexivity.
  - destruct res as [[]| |]; reflexivity.
  - destruct info as [item selection].
    unfold requests_of, sends, effects, Extension.onClicked.
    cbn [Extension.menuItemId Extension.selectionText].
    destruct (String.eqb item "analyzeText");
      destruct res as [[]| |]; reflexivity.
  - destruct tabs as [|tab tabs]; [reflexivity|].
    destruct injected as [[|first others]|]; destruct res as [[]| |]; reflexivity.
Qed.

(** C1 (as stated) fails: a click on a review button of the dashboard posts
    to /api/v1/history/review and a click on Analyze All of the bulk page
    posts to /api/v1/analyze/batch; neither path is in the API overview, nor
    in any endpoint table of the README. *)
Lemma review_and_batch_endpoints_undocumented :
  let review :=
    DashboardReview Dashboard.initial "65f0c1" true
      (Rejected None) (Rejected None) (Rejected None) in
  let bulk := BulkAnalysis BulkAnalyze.initial NetworkDown in
  path_of <$> requests_of review ∅ = ["/api/v1/history/review"] /\
  path_of <$> requests_of bulk ∅ = ["/api/v1/analyze/batch"] /\
  Readme.documented "/api/v1/history/review" = false /\
  Readme.documented "/api/v1/analyze/batch" = false /\
  ~ (forall op storage r,
       r ∈ requests_of op storage -> path_of r ∈ Readme.api_overview.*1).
Proof.
  cbv zeta. repeat split; try reflexivity.
  intros Hall.
  specialize (Hall (BulkAnalysis BulkAnalyze.initial NetworkDown) ∅
                   (Build_Request POST Fetch "/api/v1/analyze/batch"
                      [("Content-Type", "application/json")] None
                      (Some (VObj [("texts", VArr [VStr ""])])))).
  assert (Hin : path_of (Build_Request POST Fetch "/api/v1/analyze/batch"
                      [("Content-Type", "application/json")] None
                      (Some (VObj [("texts", VArr [VStr ""])])))
                ∈ Readme.api_overview.*1).
  { apply Hall. apply list_elem_of_here. }
  revert Hin. apply (bool_decide_eq_false_1 _). vm_compute. reflexivity.
Qed.

(** ** Failed requests *)

(** Unfolds the operations of the handler monad. *)
Ltac run_monad :=
  cbv beta iota zeta delta
    [mbind M_bind bind mret M_ret ret throw try_catch finally set_state emit
     getItem setItem removeItem window_defined detached
     Api.chatAI Api.post Api.get Api.send Api.await Api.getStats Api.reviewHistory
     fresh exec sends effects fst snd ui log localStorage has_window].

Lemma object_is_truthy (v : jsval) : is_object v = true -> truthy v = true.
Proof. destruct v; cbn; congruence. Qed.

(** The [catch] block of the signup page, case by case. *)
Lemma signup_failed_cases (e : exn) (w : World SignupPage.State) :
  let d := error_detail e in
  let shows t := (Done tt, mkWorld (SignupPage.setErr t (ui w)) (has_window w)
                             (localStorage w) (log w)) in
  SignupPage.failed e w =
  if is_object d then
    if truthy (field "message" d) && truthy (field "errors" d) then
      match field "errors" d with
      | VArr errors => shows [Interp (field "message" d); Lit ": "; Joined errors ", "]
      | _ => (Thrown TypeError, w)
      end
    else shows [Stringified d]
  else shows (if truthy d then [Interp d] else [Lit "Signup failed"]).
Proof.
  cbv zeta. unfold SignupPage.failed.
  destruct (is_object (error_detail e)); [|reflexivity].
  destruct (truthy (field "message" (error_detail e))
            && truthy (field "errors" (error_detail e))); [|reflexivity].
  destruct (field "errors" (error_detail e)); reflexivity.
Qed.

(** The fields of the forms that a failure leaves alone. *)
Lemma signup_failed_fields (e : exn) (w : World SignupPage.State) :
  let s' := ui (exec (SignupPage.failed e) w) in
  SignupPage.name s' = SignupPage.name (ui w) /\
  SignupPage.email s' = SignupPage.email (ui w) /\
  SignupPage.pw s' = SignupPage.pw (ui w) /\
  SignupPage.authed s' = SignupPage.authed (ui w).
Proof.
  cbv zeta. unfold SignupPage.failed, exec.
  destruct (is_object (error_detail e)).
  - destruct (truthy (field "message" (error_detail e))
              && truthy (field "errors" (error_detail e))).
    + destruct (field "errors" (error_detail e)); repeat split.
    + repeat split.
  - repeat split.
Qed.

Lemma login_failed_fields (e : exn) (w : World LoginPage.State) :
  let s' := ui (exec (LoginPage.failed e) w) in
  LoginPage.email s' = LoginPage.email (ui w) /\
  LoginPage.pw s' = LoginPage.pw (ui w) /\
  LoginPage.authed s' = LoginPage.authed (ui w).
Proof.
  cbv zeta. unfold LoginPage.failed, exec.
  destruct (is_object (error_detail e)); repeat split.
Qed.

Lemma signup_rejected (s : SignupPage.State) (storage : gmap string string)
    (r : option jsval) :
  SignupPage.submit s (Rejected r) (fresh s storage) =
  SignupPage.failed (AxiosError r)
    (mkWorld s true storage [Sent (signup_request s storage)]).
Proof. reflexivity. Qed.

Lemma login_rejected (s : LoginPage.State) (storage : gmap string string)
    (r : option jsval) :
  LoginPage.submit s (Rejected r) (fresh s storage) =
  LoginPage.failed (AxiosError r)
    (mkWorld s true storage
       [Sent (api_request POST "/api/v1/auth/login"
                (Some (VObj [("email", VStr (LoginPage.email s));
                             ("password", VStr (LoginPage.pw s))])) storage)]).
Proof. reflexivity. Qed.

Lemma effects_fresh {S A} (m : M S A) (s : S) (storage : gmap string string) :
  effects m (fresh s storage) = log (exec m (fresh s storage)).
Proof. reflexivity. Qed.

Lemma requests_of_effects (op : Operation) (storage : gmap string string) :
  requests_of op storage = requests (effects_of op storage).
Proof. destruct op; reflexivity. Qed.

Lemma failing_effects (op : Operation) (storage : gmap string string) :
  fails op = true -> forallb request_or_console (effects_of op storage) = true.
Proof.
  destruct op as [s res stats_res|s history_res stats_res
                 |s id correct review_res history_res stats_res
                 |s now res now'|s res|s res| |s res|info res|tabs injected res];
    cbn [fails].
  - destruct res, stats_res; try discriminate; intros _; reflexivity.
  - destruct history_res, stats_res; try discriminate; intros _; reflexivity.
  - destruct review_res, history_res, stats_res; try discriminate; intros _; reflexivity.
  - destruct res as [|r]; [discriminate|]. intros _.
    unfold effects_of, ChatPage.send.
    destruct (Str.blank (ChatPage.input s) || ChatPage.loading s); reflexivity.
  - destruct res as [|r]; [discriminate|]. intros _.
    unfold effects_of. rewrite effects_fresh. unfold exec.
    rewrite signup_rejected. fold (exec (SignupPage.failed (AxiosError r))
      (mkWorld s true storage [Sent (signup_request s storage)])).
    rewrite (proj1 (signup_failed_world _ _)). reflexivity.
  - destruct res as [|r]; [discriminate|]. intros _.
    unfold effects_of. rewrite effects_fresh. unfold exec.
    rewrite login_rejected.
    match goal with |- context [LoginPage.failed ?e ?w] =>
      fold (exec (LoginPage.failed e) w);
      rewrite (proj1 (login_failed_world e w)) end.
    reflexivity.
  - discriminate.
  - destruct res; try discriminate; intros _; reflexivity.
  - destruct res; try discriminate; intros _; unfold effects_of, Extension.onClicked;
      destruct (String.eqb (Extension.menuItemId info) "analyzeText"); reflexivity.
  - destruct res; try discriminate; intros _;
      destruct tabs as [|tab tabs]; try reflexivity;
      destruct injected as [[|first others]|]; reflexivity.
Qed.

(** C3.  A request that fails is not sent again, and nothing is done to
    make up for it.  Whatever the answers, the requests of one operation
    address pairwise different endpoints; and in a run in which an answer is
    a failure, the handler performs no effect but its requests and, at most,
    a [console.error]: it stores nothing, removes nothing, navigates nowhere
    and presents nothing.  Handler by handler, the failed request is the last
    one sent, and what remains of the failure is in the state of the page:
    - the chat page ends normally, with a fixed message of the bot after the
      user's message, and [loading] cleared;
    - the home page logs the error and shows it as the verdict "Error" with
      a fixed text, scores and sources emptied, [loading] cleared, the input,
      the statistics, the language and [authed] as they were; a failed
      statistics request is ignored;
    - the dashboard logs a failed load or review and keeps its state; a
      failed statistics request, or a failed reload after a review, is
      ignored;
    - the signup and login pages keep the fields of the form and
      localStorage, and show an error text, the fixed "Signup failed" or
      "Login failed" when the error has no detail (the signup page may end
      with a TypeError instead);
    - the bulk page ends with the exception and keeps its state; the
      extension presents nothing. *)
Theorem failed_requests_reported_not_retried (storage : gmap string string) :
  (forall op, NoDup (endpoint_of <$> requests_of op storage)) /\
  (forall op, fails op = true ->
     requests_of op storage = requests (effects_of op storage) /\
     forallb request_or_console (effects_of op storage) = true) /\
  (forall s now r now',
     Str.blank (ChatPage.input s) || ChatPage.loading s = false ->
     let m := ChatPage.send s now (Rejected r) now' in
     let s' := ui (exec m (fresh s storage)) in
     fst (m (fresh s storage)) = Done tt /\
     effects m (fresh s storage) =
       [Sent (api_request POST "/api/v1/chat"
                (Some (VObj [("message", VStr (ChatPage.input s))])) storage)] /\
     ChatPage.log s' =
       (ChatPage.log s ++
        [ {| ChatPage.from := ChatPage.user; ChatPage.text := ChatPage.input s;
             ChatPage.id := ChatPage.stamp now |};
          {| ChatPage.from := ChatPage.bot; ChatPage.text := ChatPage.apology;
             ChatPage.id := ChatPage.stamp (now' + 1) |} ])%list /\
     ChatPage.loading s' = false) /\
  (forall s r stats_res,
     let m := Home.handleAnalyze (Home.input s) (Rejected r) stats_res in
     let s' := ui (exec m (fresh s storage)) in
     fst (m (fresh s storage)) = Done tt /\
     effects m (fresh s storage) =
       [Sent (api_request POST "/api/v1/analyze"
                (Some (Home.analyze_body (Home.input s))) storage);
        ConsoleError (AxiosError r)] /\
     Home.verdict s' = "Error" /\ Home.html s' = Home.backend_error /\
     Home.prob s' = ∅ /\ Home.sources s' = [] /\ Home.loading s' = false /\
     Home.input s' = Home.input s /\ Home.stats s' = Home.stats s /\
     Home.language s' = Home.language s /\ Home.authed s' = Home.authed s) /\
  (forall s data r,
     let m := Home.handleAnalyze (Home.input s) (Fulfilled data) (Rejected r) in
     fst (m (fresh s storage)) = Done tt /\
     effects m (fresh s storage) =
       [Sent (api_request POST "/api/v1/analyze"
                (Some (Home.analyze_body (Home.input s))) storage);
        Sent (api_request GET "/api/v1/stats" None storage)] /\
     Home.stats (ui (exec m (fresh s storage))) = Home.stats s) /\
  (forall s r stats_res,
     let m := Dashboard.on_mount (Rejected r) stats_res in
     fst (m (fresh s storage)) = Done tt /\
     effects m (fresh s storage) =
       [Sent (api_request GET "/api/v1/history" None storage);
        ConsoleError (AxiosError r)] /\
     ui (exec m (fresh s storage)) = s) /\
  (forall s records r,
     let m := Dashboard.on_mount (Fulfilled records) (Rejected r) in
     fst (m (fresh s storage)) = Done tt /\
     effects m (fresh s storage) =
       [Sent (api_request GET "/api/v1/history" None storage);
        Sent (api_request GET "/api/v1/stats" None storage)] /\
     Dashboard.stats (ui (exec m (fresh s storage))) = Dashboard.stats s) /\
  (forall s id correct r history_res stats_res,
     let m := Dashboard.handleReview id correct (Rejected r) history_res stats_res in
     fst (m (fresh s storage)) = Done tt /\
     effects m (fresh s storage) =
       [Sent (api_request POST "/api/v1/history/review"
                (Some (VObj [("history_id", VStr id); ("correct", VBool correct)]))
                storage);
        ConsoleError (AxiosError r)] /\
     ui (exec m (fresh s storage)) = s) /\
  (forall s id correct v r stats_res,
     let m := Dashboard.handleReview id correct (Fulfilled v) (Rejected r) stats_res in
     fst (m (fresh s storage)) = Done tt /\
     effects m (fresh s storage) =
       [Sent (api_request POST "/api/v1/history/review"
                (Some (VObj [("history_id", VStr id); ("correct", VBool correct)]))
                storage);
        Sent (api_request GET "/api/v1/history" None storage)] /\
     ui (exec m (fresh s storage)) = s) /\
  (forall s r,
     let m := SignupPage.submit s (Rejected r) in
     let w' := exec m (fresh s storage) in
     (fst (m (fresh s storage)) = Done tt \/ fst (m (fresh s storage)) = Thrown TypeError) /\
     effects m (fresh s storage) = [Sent (signup_request s storage)] /\
     localStorage w' = storage /\
     SignupPage.name (ui w') = SignupPage.name s /\
     SignupPage.email (ui w') = SignupPage.email s /\
     SignupPage.pw (ui w') = SignupPage.pw s /\
     (fst (m (fresh s storage)) = Done tt -> SignupPage.err (ui w') <> []) /\
     (r = None -> SignupPage.err (ui w') = [Lit "Signup failed"])) /\
  (forall s r,
     let m := LoginPage.submit s (Rejected r) in
     let w' := exec m (fresh s storage) in
     fst (m (fresh s storage)) = Done tt /\
     effects m (fresh s storage) =
       [Sent (api_request POST "/api/v1/auth/login"
                (Some (VObj [("email", VStr (LoginPage.email s));
                             ("password", VStr (LoginPage.pw s))])) storage)] /\
     localStorage w' = storage /\
     LoginPage.email (ui w') = LoginPage.email s /\
     LoginPage.pw (ui w') = LoginPage.pw s /\
     LoginPage.err (ui w') <> [] /\
     (r = None -> LoginPage.err (ui w') = [Lit "Login failed"])) /\
  (forall s res,
     unanswered res = true ->
     let m := BulkAnalyze.analyze s res in
     (exists e, fst (m (fresh s storage)) = Thrown e) /\
     effects m (fresh s storage) =
       [Sent {| method := POST; via := Fetch; url := "/api/v1/analyze/batch";
                headers := [("Content-Type", "application/json")];
                withCredentials := None;
                body := Some (VObj [("texts", VArr (VStr <$> BulkAnalyze.texts s))]) |}] /\
     ui (exec m (fresh s storage)) = s) /\
  (forall info res,
     unanswered res = true ->
     Extension.menuItemId info = "analyzeText" ->
     Extension.onClicked info res (fresh tt storage) =
       (Done tt,
        mkWorld tt true storage
          [Sent {| method := POST; via := Fetch; url := Extension.endpoint;
                   headers := [("Content-Type", "application/json")];
                   withCredentials := None;
                   body := Some (Extension.text_body (Extension.selectionText info)) |}])) /\
  (forall tabs injected res,
     unanswered res = true ->
     effects (Extension.on_analyze_click tabs injected res) (fresh tt storage) =
       match tabs, injected with
       | _ :: _, Some (first :: _) => [Sent (extension_request (Extension.result first))]
       | _, _ => []
       end).
Proof.
  split.
  { intros op. rewrite operation_endpoints.
    destruct op as [? [] ?|? [] ?|? ? ? [] [] ?|s ? ? ?|? ?|? ?| |? ?|info ?|[] [[]|] ?];
      try (apply (bool_decide_unpack _); vm_compute; exact I).
    - destruct (Str.blank (ChatPage.input s) || ChatPage.loading s);
        apply (bool_decide_unpack _); vm_compute; exact I.
    - destruct (String.eqb (Extension.menuItemId info) "analyzeText");
        apply (bool_decide_unpack _); vm_compute; exact I. }
  split.
  { intros op Hf. split; [apply requests_of_effects|apply failing_effects, Hf]. }
  split.
  { intros s now r now' Hguard. cbv zeta.
    unfold ChatPage.send. rewrite Hguard.
    split; [reflexivity|]. split; [reflexivity|]. split; [|reflexivity].
    run_monad.
    cbn [ChatPage.log ChatPage.setLog ChatPage.setInput ChatPage.setLoading].
    rewrite <- app_assoc. reflexivity. }
  split; [intros s r stats_res; cbv zeta; repeat split|].
  split; [intros s data r; cbv zeta; repeat split|].
  split; [intros s r stats_res; cbv zeta; repeat split|].
  split; [intros s records r; cbv zeta; repeat split|].
  split; [intros s id correct r history_res stats_res; cbv zeta; repeat split|].
  split; [intros s id correct v r stats_res; cbv zeta; repeat split|].
  split.
  { intros s r. cbv zeta. unfold effects, exec. cbn [ui has_window localStorage fresh].
    change (mkWorld s true storage []) with (fresh s storage).
    rewrite signup_rejected.
    set (w := mkWorld s true storage [Sent (signup_request s storage)]).
    pose proof (signup_failed_world (AxiosError r) w) as [Hlog Hst].
    pose proof (signup_failed_fields (AxiosError r) w) as (Hn & He & Hp & _).
    unfold exec in Hlog, Hst, Hn, He, Hp. cbv zeta in Hn, He, Hp.
    split; [|split; [exact Hlog|split; [exact Hst|split; [exact Hn|split;
      [exact He|split; [exact Hp|]]]]]].
    - rewrite signup_failed_cases. cbv zeta.
      destruct (is_object (error_detail (AxiosError r))).
      + destruct (truthy (field "message" (error_detail (AxiosError r)))
                  && truthy (field "errors" (error_detail (AxiosError r)))).
        * destruct (field "errors" (error_detail (AxiosError r)));
            first [left; reflexivity|right; reflexivity].
        * left. reflexivity.
      + left. reflexivity.
    - split.
      + rewrite signup_failed_cases. cbv zeta.
        destruct (is_object (error_detail (AxiosError r))).
        * destruct (truthy (field "message" (error_detail (AxiosError r)))
                    && truthy (field "errors" (error_detail (AxiosError r)))).
          -- destruct (field "errors" (error_detail (AxiosError r))); cbn;
               intros H; try discriminate H; discriminate.
          -- intros _. cbn. discriminate.
        * intros _. cbn.
          match goal with |- (if ?b then _ else _) <> _ => destruct b end; discriminate.
      + intros ->. reflexivity. }
  split.
  { intros s r. cbv zeta. unfold effects, exec. cbn [ui has_window localStorage fresh].
    change (mkWorld s true storage []) with (fresh s storage).
    rewrite login_rejected.
    match goal with |- context [LoginPage.failed ?e ?w0] => set (w := w0) end.
    pose proof (login_failed_world (AxiosError r) w) as [Hlog Hst].
    pose proof (login_failed_fields (AxiosError r) w) as (He & Hp & _).
    unfold exec in Hlog, Hst, He, Hp. cbv zeta in He, Hp.
    split; [|split; [exact Hlog|split; [exact Hst|split; [exact He|split; [exact Hp|]]]]].
    - unfold LoginPage.failed. destruct (is_object (error_detail (AxiosError r))); reflexivity.
    - unfold LoginPage.failed. split.
      + destruct (is_object (error_detail (AxiosError r))); cbn; [discriminate|].
        match goal with |- (if ?b then _ else _) <> _ => destruct b end; discriminate.
      + intros ->. reflexivity. }
  split.
  { intros s res Hres. cbv zeta. destruct res; try discriminate;
      (split; [eexists; reflexivity|]); split; try reflexivity; destruct s; reflexivity. }
  split.
  { intros info res Hres Hid. unfold Extension.onClicked. rewrite Hid.
    destruct res; try discriminate; reflexivity. }
  intros tabs injected res Hres.
  destruct tabs as [|tab tabs]; [reflexivity|].
  destruct injected as [[|first others]|]; destruct res; try discriminate; reflexivity.
Qed.

Lemma failed_requests_reported_not_retried_witness :
  let s := ChatPage.setInput "Is this article real?" ChatPage.initial in
  Str.blank (ChatPage.input s) || ChatPage.loading s = false /\
  effects (ChatPage.send s 1700000000000 (Rejected None) 1700000000900) (fresh s ∅) =
    [Sent (api_request POST "/api/v1/chat"
             (Some (VObj [("message", VStr "Is this article real?")])) ∅)].
Proof.
  cbv zeta. split; [vm_compute; reflexivity|].
  destruct (failed_requests_reported_not_retried ∅) as (_ & _ & Hchat & _).
  destruct (Hchat (ChatPage.setInput "Is this article real?" ChatPage.initial)
                  1700000000000%Z None 1700000000900%Z ltac:(vm_compute; reflexivity))
    as (_ & Heffects & _).
  exact Heffects.
Defined.

(** ** Requests in flight *)

Lemma requests_app (l1 l2 : list effect) :
  requests (l1 ++ l2) = (requests l1 ++ requests l2)%list.
Proof.
  induction l1 as [|e l1 IH]; [reflexivity|].
  destruct e; cbn; rewrite IH; reflexivity.
Qed.

(** [send] is its part before the [await] followed, when a request has been
    sent, by its part after the [await]. *)
Lemma send_split (s : ChatPage.State) (now : Z) (res : AxiosResult Api.ChatReply)
    (now' : Z) (w : World ChatPage.State) :
  ChatPage.send s now res now' w =
  (sent ← ChatPage.send_begin s now;
   if sent : bool then ChatPage.send_settle res now' else mret tt) w.
Proof.
  unfold ChatPage.send, ChatPage.send_begin.
  destruct (Str.blank (ChatPage.input s) || ChatPage.loading s); reflexivity.
Qed.

Lemma handleAnalyze_split (input : string) (res : AxiosResult Home.Analysis)
    (stats_res : AxiosResult Stats) (w : World Home.State) :
  Home.handleAnalyze input res stats_res w =
  (Home.handleAnalyze_begin input;; Home.handleAnalyze_settle res stats_res) w.
Proof. destruct res; reflexivity. Qed.

(** What the two parts of [send] do to the world. *)
Lemma send_begin_world (w : World ChatPage.State) (now : Z) :
  let w' := exec (ChatPage.send_begin (ui w) now) w in
  if Str.blank (ChatPage.input (ui w)) || ChatPage.loading (ui w)
  then w' = w
  else ChatPage.loading (ui w') = true /\
       exists r, log w' = (log w ++ [Sent r])%list /\
                 endpoint_of r = ("/api/v1/chat", POST).
Proof.
  destruct w as [s hw storage l]. cbv zeta. cbn [ui log].
  unfold ChatPage.send_begin.
  destruct (Str.blank (ChatPage.input s) || ChatPage.loading s); [reflexivity|].
  split; [reflexivity|]. eexists. split; reflexivity.
Qed.

Lemma send_settle_world (w : World ChatPage.State)
    (res : AxiosResult Api.ChatReply) (now : Z) :
  let w' := exec (ChatPage.send_settle res now) w in
  ChatPage.loading (ui w') = false /\ log w' = log w.
Proof. destruct res; split; reflexivity. Qed.

Lemma chat_inv_pending (s : ChatSystem.Sys) :
  chat_inv s ->
  ChatSystem.pending s <= 1 /\
  (ChatPage.loading (ui (ChatSystem.world s)) = true <-> ChatSystem.pending s = 1).
Proof.
  unfold chat_inv, ChatSystem.pending, in_flight.
  intros [[Hl Hn]|[Hl Hn]]; rewrite Hl, Hn.
  - split; [lia|]. split; [lia|reflexivity].
  - split; [lia|]. split; [discriminate|lia].
Qed.

Lemma chat_send_begin_inv (s : ChatSystem.Sys) (now : Z) :
  chat_inv s ->
  chat_inv {| ChatSystem.world :=
                exec (ChatPage.send_begin (ui (ChatSystem.world s)) now)
                     (ChatSystem.world s);
              ChatSystem.settled := ChatSystem.settled s |}.
Proof.
  intros Hinv. pose proof (send_begin_world (ChatSystem.world s) now) as Hw.
  cbv zeta in Hw. unfold chat_inv in *. cbn [ChatSystem.world ChatSystem.settled].
  destruct (Str.blank (ChatPage.input (ui (ChatSystem.world s)))) eqn:Hb;
    destruct (ChatPage.loading (ui (ChatSystem.world s))) eqn:Hl;
    cbn [orb] in Hw.
  1-3: rewrite Hw, Hl; exact Hinv.
  destruct Hw as [Hl' [r [Hlog _]]].
  destruct Hinv as [[Ht _]|[_ Hn]]; [discriminate|].
  left. split; [exact Hl'|]. rewrite Hlog, requests_app, length_app, Hn.
  cbn. lia.
Qed.

Lemma chat_step_inv (s s' : ChatSystem.Sys) (e : ChatSystem.event) :
  chat_inv s -> ChatSystem.step s e = Some s' -> chat_inv s'.
Proof.
  intros Hinv Hstep. destruct e as [v|now|key ctrl now| |res now]; cbn in Hstep.
  - injection Hstep as <-. exact Hinv.
  - injection Hstep as <-. apply chat_send_begin_inv, Hinv.
  - injection Hstep as <-. unfold ChatPage.handleKeyDown.
    destruct (String.eqb key "Enter" && ctrl
              && negb (ChatPage.loading (ui (ChatSystem.world s)))).
    + apply chat_send_begin_inv, Hinv.
    + destruct s; exact Hinv.
  - injection Hstep as <-. exact Hinv.
  - destruct (in_flight (ChatSystem.world s) (ChatSystem.settled s) =? 0)%nat eqn:Hp;
      [discriminate|].
    injection Hstep as <-. apply Nat.eqb_neq in Hp.
    pose proof (send_settle_world (ChatSystem.world s) res now) as [Hl Hlog].
    unfold chat_inv in *. cbn [ChatSystem.world ChatSystem.settled].
    right. split; [exact Hl|]. rewrite Hlog.
    unfold in_flight in Hp. destruct Hinv as [[_ Hn]|[_ Hn]]; lia.
Qed.

Lemma chat_run_inv (events : list ChatSystem.event) (s s' : ChatSystem.Sys) :
  chat_inv s -> ChatSystem.run s events = Some s' -> chat_inv s'.
Proof.
  revert s. induction events as [|e events IH]; intros s Hinv Hrun; cbn in Hrun.
  - injection Hrun as <-. exact Hinv.
  - destruct (ChatSystem.step s e) as [s1|] eqn:Hstep; [|discriminate].
    cbn in Hrun. eapply IH; [|exact Hrun]. eapply chat_step_inv; eassumption.
Qed.

Lemma chat_start_inv (storage : gmap string string) :
  chat_inv (ChatSystem.start storage).
Proof. right. split; reflexivity. Qed.

Lemma click_analyze_world (w : World Home.State) :
  let w' := exec (Home.click_analyze (ui w)) w in
  if Home.loading (ui w) || Str.blank (Home.input (ui w))
  then w' = w
  else Home.loading (ui w') = true /\ analyze_count w' = S (analyze_count w).
Proof.
  destruct w as [s hw storage l]. cbv zeta. cbn [ui].
  unfold Home.click_analyze, Home.render, SearchBar.SearchBar.
  cbn [Home.search SearchBar.analyze_disabled].
  destruct (Home.loading s || Str.blank (Home.input s)); [reflexivity|].
  split; [reflexivity|]. unfold analyze_count.
  change (log (exec _ _)) with
    (l ++ [Sent (Build_Request POST Axios "/api/v1/analyze"
                   (Api.interceptor hw (storage !! "access_token")) (Some true)
                   (Some (Home.analyze_body (Home.input s))))])%list.
  cbn [log]. rewrite requests_app, filter_app, length_app.
  cbn [requests]. rewrite filter_cons_True by reflexivity. cbn. lia.
Qed.

Lemma handleAnalyze_settle_world (w : World Home.State)
    (res : AxiosResult Home.Analysis) (stats_res : AxiosResult Stats) :
  let w' := exec (Home.handleAnalyze_settle res stats_res) w in
  Home.loading (ui w') = false /\ analyze_count w' = analyze_count w.
Proof.
  destruct w as [s hw storage l]. cbv zeta. unfold analyze_count.
  destruct res as [data|r].
  - split; [destruct stats_res; reflexivity|].
    destruct stats_res.
    all: change (log (exec _ _)) with
      (l ++ [Sent (Build_Request GET Axios "/api/v1/stats"
                     (Api.interceptor hw (storage !! "access_token")) (Some true)
                     None)])%list.
    all: cbn [log]; rewrite requests_app, filter_app, length_app.
    all: cbn [requests]; rewrite filter_cons_False by discriminate; cbn; lia.
  - split; [reflexivity|].
    change (log (exec _ _)) with (l ++ [ConsoleError (AxiosError r)])%list.
    cbn [log]. rewrite requests_app, filter_app, length_app. cbn. lia.
Qed.

Lemma home_step_inv (s s' : HomeSystem.Sys) (e : HomeSystem.event) :
  home_inv s -> HomeSystem.step s e = Some s' -> home_inv s'.
Proof.
  intros Hinv Hstep. destruct e as [v| |res stats_res]; cbn in Hstep.
  - injection Hstep as <-. exact Hinv.
  - injection Hstep as <-.
    pose proof (click_analyze_world (HomeSystem.world s)) as Hw. cbv zeta in Hw.
    unfold home_inv in *. cbn [HomeSystem.world HomeSystem.settled].
    destruct (Home.loading (ui (HomeSystem.world s))) eqn:Hl;
      destruct (Str.blank (Home.input (ui (HomeSystem.world s)))) eqn:Hb;
      cbn [orb] in Hw.
    1-3: rewrite Hw, Hl; exact Hinv.
    destruct Hw as [Hl' Hn']. destruct Hinv as [[Ht _]|[_ Hn]]; [discriminate|].
    left. split; [exact Hl'|]. rewrite Hn', Hn. reflexivity.
  - destruct (HomeSystem.pending s =? 0)%nat eqn:Hp; [discriminate|].
    injection Hstep as <-. apply Nat.eqb_neq in Hp.
    pose proof (handleAnalyze_settle_world (HomeSystem.world s) res stats_res)
      as [Hl Hn'].
    unfold home_inv in *. cbn [HomeSystem.world HomeSystem.settled].
    right. split; [exact Hl|]. rewrite Hn'.
    unfold HomeSystem.pending in Hp. fold (analyze_count (HomeSystem.world s)) in Hp.
    destruct Hinv as [[_ Hn]|[_ Hn]]; lia.
Qed.

Lemma home_run_inv (events : list HomeSystem.event) (s s' : HomeSystem.Sys) :
  home_inv s -> HomeSystem.run s events = Some s' -> home_inv s'.
Proof.
  revert s. induction events as [|e events IH]; intros s Hinv Hrun; cbn in Hrun.
  - injection Hrun as <-. exact Hinv.
  - destruct (HomeSystem.step s e) as [s1|] eqn:Hstep; [|discriminate].
    cbn in Hrun. eapply IH; [|exact Hrun]. eapply home_step_inv; eassumption.
Qed.

(** Clicks that nothing restrains: each one puts one more request in
    flight. *)
Lemma review_clicks_in_flight (n : nat) (id : string) (correct : bool)
    (w : World Dashboard.State) :
  length (requests (log (review_clicks n id correct w)))
  = n + length (requests (log w)).
Proof.
  induction n as [|n IH]; [reflexivity|].
  unfold review_clicks in *. rewrite Nat.iter_succ.
  set (w1 := Nat.iter n _ w) in *.
  change (log (exec (Dashboard.handleReview_begin id correct) w1))
    with (log w1 ++
          [Sent (Build_Request POST Axios "/api/v1/history/review"
                   (Api.interceptor (has_window w1) (localStorage w1 !! "access_token"))
                   (Some true)
                   (Some (VObj [("history_id", VStr id);
                                ("correct", VBool correct)])))])%list.
  rewrite requests_app, length_app, IH. cbn. lia.
Qed.

Lemma bulk_clicks_in_flight (n : nat) (w : World BulkAnalyze.State) :
  length (requests (log (bulk_clicks n w))) = n + length (requests (log w)).
Proof.
  induction n as [|n IH]; [reflexivity|].
  unfold bulk_clicks in *. rewrite Nat.iter_succ.
  set (w1 := Nat.iter n _ w) in *.
  change (log (exec (BulkAnalyze.analyze_begin (ui w1)) w1))
    with (log w1 ++
          [Sent (Build_Request POST Fetch "/api/v1/analyze/batch"
                   [("Content-Type", "application/json")] None
                   (Some (VObj [("texts", VArr (VStr <$> BulkAnalyze.texts (ui w1)))])))])%list.
  rewrite requests_app, length_app, IH. cbn. lia.
Qed.

(** C2 (as stated) fails: once a message has been sent from the chat page,
    the page holds back every further send until the request settles.  One
    request is in flight, [loading] is set, the textarea and the buttons are
    disabled, and [send], whatever text it finds in the input, returns
    without sending.  So a send with a text to send does not always send,
    and no run of the page has two requests in flight. *)
Lemma second_send_held_back_while_loading :
  let events :=
    [ChatSystem.Typed "Is this article real?";
     ChatSystem.SendClicked 1700000000000] in
  (exists s, ChatSystem.run (ChatSystem.start ∅) events = Some s /\
     ChatSystem.pending s = 1 /\
     endpoint_of <$> requests (log (ChatSystem.world s)) = [("/api/v1/chat", POST)] /\
     ChatPage.render (ui (ChatSystem.world s)) =
       {| ChatPage.textarea_disabled := true; ChatPage.clear_disabled := true;
          ChatPage.send_disabled := true; ChatPage.send_text := "Thinking..." |} /\
     forall text now,
       sends (ChatPage.send_begin
                (ChatPage.setInput text (ui (ChatSystem.world s))) now)
             (ChatSystem.world s) = []) /\
  ~ (forall s now, Str.blank (ChatPage.input s) = false ->
       sends (ChatPage.send_begin s now) (fresh s ∅) <> []) /\
  ~ (exists events s,
       ChatSystem.run (ChatSystem.start ∅) events = Some s /\ ChatSystem.pending s = 2).
Proof.
  cbv zeta. split; [|split].
  - eexists. split; [reflexivity|]. split; [reflexivity|]. split; [reflexivity|].
    split; [reflexivity|]. intros text now.
    unfold ChatPage.send_begin.
    change (ChatPage.loading (ChatPage.setInput text _)) with true.
    rewrite orb_true_r. reflexivity.
  - intros Hall.
    apply (Hall (ChatPage.setLoading true
                   (ChatPage.setInput "And this one?" ChatPage.initial)) 0%Z);
      reflexivity.
  - intros (events & s & Hrun & Hp).
    pose proof (chat_run_inv events _ s (chat_start_inv ∅) Hrun) as Hinv.
    apply chat_inv_pending in Hinv as [Hle _]. lia.
Qed.

(** C2 (amended).  The client code has no queue and reorders nothing, but
    its [loading] flags limit the requests in flight.  In every run of the
    chat page at most one request is in flight, [loading] is set exactly
    then, and then the textarea and the Send button are disabled and a call
    of [send] changes nothing; in every run of the home
    page at most one analyze request is in flight, [loading] is set exactly
    then, and the Analyze button is then disabled.  Nothing limits the
    dashboard's review buttons and the bulk page's Analyze All button: [n]
    clicks put [n] requests in flight. *)
Theorem in_flight_limited_by_loading_flags (storage : gmap string string) :
  (forall events s,
     ChatSystem.run (ChatSystem.start storage) events = Some s ->
     ChatSystem.pending s <= 1 /\
     (ChatPage.loading (ui (ChatSystem.world s)) = true <-> ChatSystem.pending s = 1) /\
     (ChatSystem.pending s = 1 ->
        ChatPage.send_disabled (ChatPage.render (ui (ChatSystem.world s))) = true /\
        ChatPage.textarea_disabled (ChatPage.render (ui (ChatSystem.world s))) = true /\
        forall now s',
          ChatSystem.step s (ChatSystem.SendClicked now) = Some s' -> s' = s)) /\
  (forall events s,
     HomeSystem.run (HomeSystem.start storage) events = Some s ->
     HomeSystem.pending s <= 1 /\
     (Home.loading (ui (HomeSystem.world s)) = true <-> HomeSystem.pending s = 1) /\
     (HomeSystem.pending s = 1 ->
        SearchBar.analyze_disabled (Home.search (Home.render (ui (HomeSystem.world s))))
        = true /\
        forall s', HomeSystem.step s HomeSystem.AnalyzeClicked = Some s' -> s' = s)) /\
  (forall n id correct s,
     in_flight (review_clicks n id correct (fresh s storage)) 0 = n) /\
  (forall n s, in_flight (bulk_clicks n (fresh s storage)) 0 = n).
Proof.
  split; [|split; [|split]].
  - intros events s Hrun.
    pose proof (chat_run_inv events _ s (chat_start_inv storage) Hrun) as Hinv.
    destruct (chat_inv_pending s Hinv) as [Hle Hiff].
    split; [exact Hle|]. split; [exact Hiff|].
    intros Hp. apply Hiff in Hp. unfold ChatPage.render.
    cbn [ChatPage.send_disabled ChatPage.textarea_disabled]. rewrite Hp, orb_true_r.
    split; [reflexivity|]. split; [reflexivity|].
    intros now s' Hstep. cbn in Hstep. injection Hstep as <-.
    pose proof (send_begin_world (ChatSystem.world s) now) as Hw. cbv zeta in Hw.
    rewrite Hp, orb_true_r in Hw. rewrite Hw. destruct s; reflexivity.
  - intros events s Hrun.
    assert (Hinv : home_inv s).
    { eapply home_run_inv; [|exact Hrun]. right. split; reflexivity. }
    assert (Hiff : Home.loading (ui (HomeSystem.world s)) = true
                   <-> HomeSystem.pending s = 1).
    { unfold home_inv, HomeSystem.pending in *.
      fold (analyze_count (HomeSystem.world s)).
      destruct Hinv as [[Hl Hn]|[Hl Hn]]; rewrite Hl, Hn.
      - split; [lia|reflexivity].
      - split; [discriminate|lia]. }
    split; [|split; [exact Hiff|]].
    + unfold home_inv, HomeSystem.pending in *.
      fold (analyze_count (HomeSystem.world s)).
      destruct Hinv as [[_ Hn]|[_ Hn]]; lia.
    + intros Hp. apply Hiff in Hp. split.
      * unfold Home.render, SearchBar.SearchBar.
        cbn [Home.search SearchBar.analyze_disabled]. rewrite Hp. reflexivity.
      * intros s' Hstep. cbn in Hstep. injection Hstep as <-.
        pose proof (click_analyze_world (HomeSystem.world s)) as Hw. cbv zeta in Hw.
        rewrite Hp in Hw. cbn [orb] in Hw. rewrite Hw. destruct s; reflexivity.
  - intros n id correct s. unfold in_flight.
    rewrite review_clicks_in_flight. cbn. lia.
  - intros n s. unfold in_flight. rewrite bulk_clicks_in_flight. cbn. lia.
Qed.

Lemma in_flight_limited_by_loading_flags_witness :
  exists s,
    ChatSystem.run (ChatSystem.start ∅)
      [ChatSystem.Typed "Is this article real?";
       ChatSystem.SendClicked 1700000000000;
       ChatSystem.Settled (Fulfilled {| Api.reply := "It looks fabricated." |})
                          1700000000900;
       ChatSystem.Typed "And this one?";
       ChatSystem.SendClicked 1700000002000] = Some s /\
    ChatSystem.pending s <= 1.
Proof.
  destruct (in_flight_limited_by_loading_flags ∅) as (Hchat & _).
  eexists. split; [reflexivity|].
  refine (proj1 (Hchat
    [ChatSystem.Typed "Is this article real?";
     ChatSystem.SendClicked 1700000000000;
     ChatSystem.Settled (Fulfilled {| Api.reply := "It looks fabricated." |})
                        1700000000900;
     ChatSystem.Typed "And this one?";
     ChatSystem.SendClicked 1700000002000] _ _)).
  reflexivity.
Defined.

(** * Further properties of the client code *)

(** ** Sessions: login, logout and the bearer token *)

(** What a successful login leaves in localStorage. *)
Lemma login_fulfilled_storage (w : World LoginPage.State) (tokens : Auth.Tokens) :
  has_window w = true ->
  localStorage (exec (LoginPage.submit (ui w) (Fulfilled tokens)) w) =
  <["refresh_token" := Auth.refresh_token tokens]>
    (<["access_token" := Auth.access_token tokens]> (localStorage w)).
Proof.
  destruct w as [s hw storage l]. cbn [has_window]. intros ->. reflexivity.
Qed.

(** X1.  A login or a signup that the server rejects, whatever the error,
    sends its one request and nothing else: nothing is written to
    localStorage and the page does not navigate. *)
Theorem rejected_login_and_signup_store_nothing
    (storage : gmap string string) (r : option jsval) :
  (forall s : LoginPage.State,
     let m := LoginPage.submit s (Rejected r) in
     localStorage (exec m (fresh s storage)) = storage /\
     effects m (fresh s storage) =
       [Sent (api_request POST "/api/v1/auth/login"
                (Some (VObj [("email", VStr (LoginPage.email s));
                             ("password", VStr (LoginPage.pw s))])) storage)]) /\
  (forall s : SignupPage.State,
     let m := SignupPage.submit s (Rejected r) in
     localStorage (exec m (fresh s storage)) = storage /\
     effects m (fresh s storage) = [Sent (signup_request s storage)]).
Proof.
  split; intros s; cbv zeta.
  - change (exec (LoginPage.submit s (Rejected r)) (fresh s storage))
      with (exec (LoginPage.failed (AxiosError r))
              (mkWorld s true storage
                 [Sent (api_request POST "/api/v1/auth/login"
                          (Some (VObj [("email", VStr (LoginPage.email s));
                                       ("password", VStr (LoginPage.pw s))]))
                          storage)])).
    unfold effects.
    change (exec (LoginPage.submit s (Rejected r))
              (mkWorld (ui (fresh s storage)) (has_window (fresh s storage))
                 (localStorage (fresh s storage)) []))
      with (exec (LoginPage.failed (AxiosError r))
              (mkWorld s true storage
                 [Sent (api_request POST "/api/v1/auth/login"
                          (Some (VObj [("email", VStr (LoginPage.email s));
                                       ("password", VStr (LoginPage.pw s))]))
                          storage)])).
    destruct (login_failed_world (AxiosError r)
                (mkWorld s true storage
                   [Sent (api_request POST "/api/v1/auth/login"
                            (Some (VObj [("email", VStr (LoginPage.email s));
                                         ("password", VStr (LoginPage.pw s))]))
                            storage)])) as [Hlog Hst].
    split; [exact Hst | exact Hlog].
  - change (exec (SignupPage.submit s (Rejected r)) (fresh s storage))
      with (exec (SignupPage.failed (AxiosError r))
              (mkWorld s true storage [Sent (signup_request s storage)])).
    unfold effects.
    change (exec (SignupPage.submit s (Rejected r))
              (mkWorld (ui (fresh s storage)) (has_window (fresh s storage))
                 (localStorage (fresh s storage)) []))
      with (exec (SignupPage.failed (AxiosError r))
              (mkWorld s true storage [Sent (signup_request s storage)])).
    destruct (signup_failed_world (AxiosError r)
                (mkWorld s true storage [Sent (signup_request s storage)]))
      as [Hlog Hst].
    split; [exact Hst | exact Hlog].
Qed.

(** X2.  Logout, in a browser window, removes the two tokens and nothing
    else: every other key of localStorage keeps its value.  Outside a window
    it does nothing. *)
Theorem logout_removes_the_tokens_only (S : Type) (w : World S) :
  (has_window w = true ->
   let w' := exec Auth.logout w in
   localStorage w' !! "access_token" = None /\
   localStorage w' !! "refresh_token" = None /\
   (forall k, k <> "access_token" -> k <> "refresh_token" ->
      localStorage w' !! k = localStorage w !! k) /\
   ui w' = ui w) /\
  (has_window w = false -> exec Auth.logout w = w).
Proof.
  destruct w as [s hw storage l]. cbn [has_window]. split; intros ->; cbv zeta.
  - change (localStorage (exec Auth.logout (mkWorld s true storage l)))
      with (delete "refresh_token" (delete "access_token" storage)).
    split; [|split; [|split; [|reflexivity]]].
    + rewrite lookup_delete_ne by discriminate. apply lookup_delete_eq.
    + apply lookup_delete_eq.
    + intros k Ha Hr. rewrite lookup_delete_ne by congruence.
      apply lookup_delete_ne. congruence.
  - reflexivity.
Qed.

Lemma logout_removes_the_tokens_only_witness :
  has_window (fresh tt (<["cookieConsent" := "true"]> (<["access_token" := "A1"]> ∅)))
    = true /\
  localStorage
    (exec Auth.logout
       (fresh tt (<["cookieConsent" := "true"]> (<["access_token" := "A1"]> ∅))))
    !! "cookieConsent" = Some "true".
Proof.
  split; [reflexivity|].
  destruct (logout_removes_the_tokens_only unit
              (fresh tt (<["cookieConsent" := "true"]> (<["access_token" := "A1"]> ∅))))
    as [Hin _].
  destruct (Hin eq_refl) as (_ & _ & Hother & _).
  rewrite Hother by discriminate. reflexivity.
Defined.

(** X3.  The token of a successful login is what authenticates the requests
    that follow: after it, a request of the [api] instance carries the
    header "Authorization: Bearer <access_token>" and no other header, when
    the token is not empty; after a logout the requests carry no header. *)
Theorem requests_carry_the_login_token
    (w : World LoginPage.State) (tokens : Auth.Tokens)
    (m : Method) (path : string) (data : option jsval) :
  has_window w = true ->
  Auth.access_token tokens <> "" ->
  let logged_in := exec (LoginPage.submit (ui w) (Fulfilled tokens)) w in
  let logged_out := exec Navbar.logout_click logged_in in
  sends (Api.send m path data) logged_in =
    [ {| method := m; via := Axios; url := path;
         headers := [("Authorization", "Bearer " +:+ Auth.access_token tokens)];
         withCredentials := Some true; body := data |} ] /\
  sends (Api.send m path data) logged_out =
    [ {| method := m; via := Axios; url := path; headers := [];
         withCredentials := Some true; body := data |} ].
Proof.
  intros Hwin Hne. cbv zeta.
  pose proof (login_fulfilled_storage w tokens Hwin) as Hst.
  destruct w as [s hw storage l]. cbn [has_window ui localStorage] in *. subst hw.
  split.
  - unfold sends, effects.
    change (has_window (exec (LoginPage.submit s (Fulfilled tokens))
                             (mkWorld s true storage l))) with true.
    rewrite Hst.
    change (requests (log (exec (Api.send m path data) ?W))) with
      [ {| method := m; via := Axios; url := path;
           headers := Api.interceptor true
             (<["refresh_token" := Auth.refresh_token tokens]>
                (<["access_token" := Auth.access_token tokens]> storage)
              !! "access_token");
           withCredentials := Some true; body := data |} ].
    rewrite lookup_insert_ne by discriminate. rewrite lookup_insert_eq.
    unfold Api.interceptor.
    destruct (String.eqb (Auth.access_token tokens) "") eqn:E; [|reflexivity].
    apply String.eqb_eq in E. contradiction.
  - unfold sends, effects.
    change (has_window (exec Navbar.logout_click
              (exec (LoginPage.submit s (Fulfilled tokens))
                    (mkWorld s true storage l)))) with true.
    change (localStorage (exec Navbar.logout_click
              (exec (LoginPage.submit s (Fulfilled tokens))
                    (mkWorld s true storage l))))
      with (delete "refresh_token" (delete "access_token"
              (localStorage (exec (LoginPage.submit s (Fulfilled tokens))
                                  (mkWorld s true storage l))))).
    change (requests (log (exec (Api.send m path data) ?W))) with
      [ {| method := m; via := Axios; url := path;
           headers := Api.interceptor true
             (delete "refresh_token" (delete "access_token"
                (localStorage (exec (LoginPage.submit s (Fulfilled tokens))
                                    (mkWorld s true storage l))))
              !! "access_token");
           withCredentials := Some true; body := data |} ].
    rewrite lookup_delete_ne by discriminate. rewrite lookup_delete_eq.
    reflexivity.
Qed.

Lemma requests_carry_the_login_token_witness :
  has_window (fresh LoginPage.initial ∅) = true /\
  Auth.access_token sample_tokens <> "" /\
  sends (Api.send GET "/api/v1/history" None)
        (exec (LoginPage.submit LoginPage.initial (Fulfilled sample_tokens))
              (fresh LoginPage.initial ∅))
  = [ {| method := GET; via := Axios; url := "/api/v1/history";
         headers := [("Authorization", "Bearer A1")];
         withCredentials := Some true; body := None |} ].
Proof.
  split; [reflexivity|]. split; [discriminate|].
  exact (proj1 (requests_carry_the_login_token (fresh LoginPage.initial ∅)
                  sample_tokens GET "/api/v1/history" None eq_refl
                  ltac:(discriminate))).
Defined.

(** ** The cookie banner *)

(** X4.  The cookie banner is shown on mount exactly when localStorage has
    no consent (no "cookieConsent" key, or an empty value).  Accepting hides
    it, records the consent without touching any other key, and from then on
    a mount of the component, in any state of the rest of the page, leaves
    the banner hidden. *)
Theorem cookie_banner_until_accepted
    (storage : gmap string string) :
  let mounted := exec CookieConsent.on_mount (fresh CookieConsent.initial storage) in
  let accepted := exec CookieConsent.accept mounted in
  let remounted :=
    exec CookieConsent.on_mount (fresh CookieConsent.initial (localStorage accepted)) in
  (CookieConsent.render (ui mounted) <> None
     <-> default "" (storage !! "cookieConsent") = "") /\
  CookieConsent.render (ui accepted) = None /\
  localStorage accepted !! "cookieConsent" = Some "true" /\
  (forall k, k <> "cookieConsent" -> localStorage accepted !! k = storage !! k) /\
  CookieConsent.render (ui remounted) = None /\
  effects CookieConsent.on_mount (fresh CookieConsent.initial storage) = [].
Proof.
  cbv zeta.
  assert (Hmount : forall st,
            CookieConsent.show
              (ui (exec CookieConsent.on_mount (fresh CookieConsent.initial st)))
            = String.eqb (default "" (st !! "cookieConsent")) "").
  { intros st. unfold CookieConsent.on_mount. run_monad.
    destruct (String.eqb (default "" (st !! "cookieConsent")) ""); reflexivity. }
  assert (Hstore : localStorage
            (exec CookieConsent.accept
               (exec CookieConsent.on_mount (fresh CookieConsent.initial storage)))
            = <["cookieConsent" := "true"]> storage).
  { unfold CookieConsent.on_mount, CookieConsent.accept. run_monad.
    destruct (String.eqb (default "" (storage !! "cookieConsent")) ""); reflexivity. }
  split; [|split; [|split; [|split; [|split]]]].
  - unfold CookieConsent.render. rewrite Hmount.
    destruct (String.eqb (default "" (storage !! "cookieConsent")) "") eqn:E.
    + apply String.eqb_eq in E. split; [intros _; exact E | discriminate].
    + apply String.eqb_neq in E. split; [congruence | contradiction].
  - unfold CookieConsent.on_mount, CookieConsent.accept. run_monad.
    destruct (String.eqb (default "" (storage !! "cookieConsent")) ""); reflexivity.
  - rewrite Hstore. apply lookup_insert_eq.
  - intros k Hk. rewrite Hstore. apply lookup_insert_ne. congruence.
  - unfold CookieConsent.render. rewrite Hmount, Hstore, lookup_insert_eq.
    reflexivity.
  - unfold CookieConsent.on_mount. run_monad.
    destruct (String.eqb (default "" (storage !! "cookieConsent")) ""); reflexivity.
Qed.

(** ** The navigation bar *)

(** X5.  The bar offers Login and Signup exactly when it does not offer
    Logout.  The [authed] flag it is rendered from is read from localStorage
    when the page mounts: set when an access token that is not empty is
    stored.  A click on Logout removes the tokens and navigates to "/" but
    leaves the flag of the page as it is; the Logout button goes away at the
    next mount. *)
Theorem navbar_follows_the_stored_token (w : World Home.State) :
  has_window w = true ->
  let mounted := exec Home.on_mount w in
  let clicked := exec Navbar.logout_click mounted in
  let remounted := exec Home.on_mount clicked in
  (forall authed,
     (("Login", "/login") ∈ Navbar.links (Navbar.Navbar authed)
        <-> Navbar.logout_button (Navbar.Navbar authed) = false) /\
     (("Signup", "/signup") ∈ Navbar.links (Navbar.Navbar authed)
        <-> Navbar.logout_button (Navbar.Navbar authed) = false)) /\
  (Home.authed (ui mounted) = true
     <-> exists token, localStorage w !! "access_token" = Some token /\ token <> "") /\
  effects Navbar.logout_click mounted =
    [Removed "access_token"; Removed "refresh_token"; Navigate "/"] /\
  ui clicked = ui mounted /\
  Home.authed (ui remounted) = false.
Proof.
  destruct w as [s hw storage l]. cbn [has_window]. intros ->. cbv zeta.
  split; [|split; [|split; [|split]]].
  - intros [|]; split; split; intros H.
    1,3: exfalso; revert H; apply (bool_decide_eq_false_1 _); vm_compute; reflexivity.
    1,2: discriminate H.
    1,3: reflexivity.
    1,2: apply (bool_decide_unpack _); vm_compute; exact I.
  - change (Home.authed (ui (exec Home.on_mount (mkWorld s true storage l))))
      with (negb (String.eqb (default "" (storage !! "access_token")) "")).
    cbn [localStorage]. destruct (storage !! "access_token") as [t|]; cbn [from_option id].
    + destruct (String.eqb t "") eqn:E; cbn [negb].
      * apply String.eqb_eq in E. split; [discriminate|].
        intros (t' & Ht & Hne). congruence.
      * apply String.eqb_neq in E. split; [|reflexivity].
        intros _. exists t. split; [reflexivity|exact E].
    + split; [discriminate|]. intros (t' & Ht & _). discriminate.
  - reflexivity.
  - reflexivity.
  - change (Home.authed (ui (exec Home.on_mount
              (exec Navbar.logout_click (exec Home.on_mount (mkWorld s true storage l))))))
      with (negb (String.eqb
              (default "" (delete "refresh_token" (delete "access_token" storage)
                           !! "access_token")) "")).
    rewrite lookup_delete_ne by discriminate. rewrite lookup_delete_eq. reflexivity.
Qed.

Lemma navbar_follows_the_stored_token_witness :
  has_window (fresh Home.initial (<["access_token" := "A1"]> ∅)) = true /\
  Home.authed (ui (exec Home.on_mount
                     (fresh Home.initial (<["access_token" := "A1"]> ∅)))) = true.
Proof.
  split; [reflexivity|].
  destruct (navbar_follows_the_stored_token
              (fresh Home.initial (<["access_token" := "A1"]> ∅)) eq_refl)
    as (_ & Hauthed & _).
  apply Hauthed. exists "A1". split; [reflexivity|discriminate].
Defined.

(** ** Source cards *)

(** X6.  [SourceCards] renders nothing exactly when there is no source.
    Otherwise it renders one card per source, in order; a card links to and
    shows the URL of its source, its label is never empty ("Source" stands
    in for a missing or empty one), and its heading is the title, or the URL
    when the title is empty. *)
Theorem source_cards_one_per_source (sources : list Home.Source) :
  (SourceCards.SourceCards sources = None <-> sources = []) /\
  forall cards, SourceCards.SourceCards sources = Some cards ->
    length cards = length sources /\
    forall i s, sources !! i = Some s ->
      exists c, cards !! i = Some c /\
        SourceCards.href c = Home.source_url s /\
        SourceCards.shown_url c = Home.source_url s /\
        SourceCards.label c <> "" /\
        (Home.title s <> "" -> SourceCards.heading c = Home.title s) /\
        (Home.title s = "" -> SourceCards.heading c = Home.source_url s).
Proof.
  unfold SourceCards.SourceCards. split.
  - destruct sources as [|s sources]; cbn; split; try reflexivity; discriminate.
  - intros cards Hcards.
    destruct (length sources =? 0)%nat; [discriminate|]. injection Hcards as <-.
    split; [apply length_fmap|].
    intros i s Hs. exists (SourceCards.card s).
    rewrite list_lookup_fmap, Hs. split; [reflexivity|].
    unfold SourceCards.card. cbn.
    split; [reflexivity|]. split; [reflexivity|]. split; [|split].
    + destruct (Home.source s) as [l|]; [|discriminate].
      destruct (String.eqb l "") eqn:E; [discriminate|].
      apply String.eqb_neq in E. exact E.
    + intros Ht. apply String.eqb_neq in Ht. rewrite Ht. reflexivity.
    + intros ->. reflexivity.
Qed.

Lemma source_cards_one_per_source_witness :
  SourceCards.SourceCards
    [ {| Home.title := ""; Home.source_url := "https://example.org/a";
         Home.source := None |} ]
  = Some [ {| SourceCards.href := "https://example.org/a";
              SourceCards.label := "Source";
              SourceCards.heading := "https://example.org/a";
              SourceCards.shown_url := "https://example.org/a" |} ] /\
  length [ {| SourceCards.href := "https://example.org/a";
              SourceCards.label := "Source";
              SourceCards.heading := "https://example.org/a";
              SourceCards.shown_url := "https://example.org/a" |} ] = 1.
Proof.
  split; [reflexivity|].
  destruct (source_cards_one_per_source
              [ {| Home.title := ""; Home.source_url := "https://example.org/a";
                   Home.source := None |} ]) as [_ Hcards].
  exact (proj1 (Hcards _ eq_refl)).
Defined.

(** ** The interactive background *)




(** ** History entries and their review *)

(** X8.  A history entry shows the two review buttons unless the record is
    marked reviewed, and each button reports the id of its own record, with
    true for Correct and false for Incorrect.  A reviewed record is shown
    as "Reviewed: Correct", in the good colour, exactly when its [correct]
    field is true; a reviewed record whose [correct] is false, null or
    missing is shown as "Reviewed: Incorrect", in the bad colour. *)
Theorem history_entry_review (item : HistoryItem.Item) :
  let v := HistoryItem.HistoryItem item in
  (HistoryItem.reviewed item <> Some true ->
     HistoryItem.review v =
       HistoryItem.Buttons (HistoryItem._id item, true) (HistoryItem._id item, false)) /\
  (HistoryItem.reviewed item = Some true ->
     (HistoryItem.correct item = Some (Some true) ->
        HistoryItem.review v = HistoryItem.Reviewed "var(--good)" "Reviewed: Correct") /\
     (HistoryItem.correct item <> Some (Some true) ->
        HistoryItem.review v = HistoryItem.Reviewed "var(--bad)" "Reviewed: Incorrect")).
Proof.
  cbv zeta. unfold HistoryItem.HistoryItem. cbn [HistoryItem.review]. split.
  - intros Hr. destruct (HistoryItem.reviewed item) as [[|]|]; try reflexivity.
    congruence.
  - intros ->. cbn. split.
    + intros ->. reflexivity.
    + intros Hc. destruct (HistoryItem.correct item) as [[[|]|]|]; try reflexivity.
      congruence.
Qed.

Lemma history_entry_review_witness :
  HistoryItem.review
    (HistoryItem.HistoryItem
       {| HistoryItem._id := "65f0c3"; HistoryItem.query := "Tea cures colds";
          HistoryItem.verdict := "Uncertain"; HistoryItem.confidence := None;
          HistoryItem.reviewed := Some true; HistoryItem.correct := Some None |})
  = HistoryItem.Reviewed "var(--bad)" "Reviewed: Incorrect".
Proof.
  destruct (history_entry_review
              {| HistoryItem._id := "65f0c3"; HistoryItem.query := "Tea cures colds";
                 HistoryItem.verdict := "Uncertain"; HistoryItem.confidence := None;
                 HistoryItem.reviewed := Some true; HistoryItem.correct := Some None |})
    as [_ Hreviewed].
  destruct (Hreviewed eq_refl) as [_ Hbad]. apply Hbad. discriminate.
Defined.

(** X9.  A review that the server accepts is followed by one reload of the
    dashboard: [handleReview] sends the POST of /api/v1/history/review with
    the id and the vote, then exactly the requests of [load], and leaves the
    page in the state [load] leaves.  It completes normally and logs nothing
    to the console whatever the reload does, also when the reload fails. *)
Theorem accepted_review_reloads_the_dashboard
    (s : Dashboard.State) (storage : gmap string string)
    (id : string) (correct : bool) (answer : jsval)
    (history_res : AxiosResult (option (list HistoryItem.Item)))
    (stats_res : AxiosResult Stats) :
  let m := Dashboard.handleReview id correct (Fulfilled answer) history_res stats_res in
  let reload := Dashboard.load history_res stats_res in
  fst (m (fresh s storage)) = Done tt /\
  effects m (fresh s storage) =
    Sent (api_request POST "/api/v1/history/review"
            (Some (VObj [("history_id", VStr id); ("correct", VBool correct)]))
            storage)
    :: effects reload (fresh s storage) /\
  ui (exec m (fresh s storage)) = ui (exec reload (fresh s storage)) /\
  localStorage (exec m (fresh s storage)) = storage /\
  (forall e, ConsoleError e ∉ effects m (fresh s storage)).
Proof.
  cbv zeta.
  destruct history_res as [records|r], stats_res as [st|r'];
    (split; [reflexivity|]); (split; [reflexivity|]); (split; [reflexivity|]);
    (split; [reflexivity|]); intros e He;
    repeat (apply elem_of_cons in He as [He|He]; [discriminate He|]);
    apply not_elem_of_nil in He; exact He.
Qed.

(** ** The home page: failures, the meter, the Analyze button *)

(** X10.  A failed analysis resets the result but not everything: the
    detected language, the statistics, the input and the [authed] flag stay
    as they were.  So after a failure the page still displays the language
    note of the previous analysis next to the "Error" verdict, it displays no
    source card, and it does not ask for the statistics. *)
Theorem failed_analysis_keeps_language_and_input
    (s : Home.State) (storage : gmap string string)
    (r : option jsval) (stats_res : AxiosResult Stats) :
  let m := Home.handleAnalyze (Home.input s) (Rejected r) stats_res in
  let s' := ui (exec m (fresh s storage)) in
  Home.language s' = Home.language s /\
  Home.stats s' = Home.stats s /\
  Home.input s' = Home.input s /\
  Home.authed s' = Home.authed s /\
  Home.language_note (Home.render s') = Home.language_note (Home.render s) /\
  (exists shown, Home.result (Home.render s') = Some shown /\
     Home.prose shown = Home.backend_error /\
     SourceCards.SourceCards (Home.cards shown) = None) /\
  endpoint_of <$> sends m (fresh s storage) = [("/api/v1/analyze", POST)].
Proof.
  cbv zeta. repeat split. eexists. repeat split.
Qed.



(** X12.  A click on Analyze while the input is blank or an analysis is
    running changes nothing and sends nothing.  Otherwise it sends one POST
    of /api/v1/analyze whose text is the input exactly as typed, white space
    at its ends included, sets [loading] and leaves the input in place. *)
Theorem analyze_click_sends_the_input_as_typed (w : World Home.State) :
  let s := ui w in
  let w' := exec (Home.click_analyze s) w in
  (Str.blank (Home.input s) = true \/ Home.loading s = true -> w' = w) /\
  (Str.blank (Home.input s) = false -> Home.loading s = false ->
   exists r,
     log w' = (log w ++ [Sent r])%list /\
     endpoint_of r = ("/api/v1/analyze", POST) /\
     body r = Some (VObj [("text", VStr (Home.input s))]) /\
     Home.loading (ui w') = true /\
     Home.input (ui w') = Home.input s).
Proof.
  destruct w as [s hw storage l]. cbv zeta. cbn [ui].
  unfold Home.click_analyze, Home.render, SearchBar.SearchBar.
  cbn [Home.search SearchBar.analyze_disabled]. split.
  - intros [Hb|Hl].
    + rewrite Hb, orb_true_r. reflexivity.
    + rewrite Hl. reflexivity.
  - intros Hb Hl. rewrite Hb, Hl. cbn [orb].
    eexists. split; [reflexivity|]. repeat split.
Qed.

Lemma analyze_click_sends_the_input_as_typed_witness :
  let w := fresh (Home.setInput "  Cats can fly " Home.initial) ∅ in
  Str.blank (Home.input (ui w)) = false /\ Home.loading (ui w) = false /\
  exists r,
    log (exec (Home.click_analyze (ui w)) w) = [Sent r] /\
    body r = Some (VObj [("text", VStr "  Cats can fly ")]).
Proof.
  cbv zeta. split; [reflexivity|]. split; [reflexivity|].
  destruct (analyze_click_sends_the_input_as_typed
              (fresh (Home.setInput "  Cats can fly " Home.initial) ∅)) as [_ Hsend].
  destruct (Hsend eq_refl eq_refl) as (r & Hlog & _ & Hbody & _).
  exists r. split; [exact Hlog | exact Hbody].
Defined.

(** ** The chat page: keys and exchanges *)

(** X13.  In the chat textarea only Ctrl+Enter sends, and only when no
    request is running and the input is not blank: every other key press
    changes nothing and sends nothing.  A Ctrl+Enter that sends posts the
    input exactly as typed to /api/v1/chat, appends it to the conversation
    as a message of the user, empties the input and sets [loading]. *)
Theorem chat_sends_on_ctrl_enter_only
    (w : World ChatPage.State) (key : string) (ctrlKey : bool) (now : Z) :
  let s := ui w in
  let w' := exec (ChatPage.handleKeyDown s key ctrlKey now) w in
  (key <> "Enter" \/ ctrlKey = false \/ ChatPage.loading s = true \/
   Str.blank (ChatPage.input s) = true -> w' = w) /\
  (key = "Enter" -> ctrlKey = true -> ChatPage.loading s = false ->
   Str.blank (ChatPage.input s) = false ->
   exists r,
     log w' = (log w ++ [Sent r])%list /\
     endpoint_of r = ("/api/v1/chat", POST) /\
     body r = Some (VObj [("message", VStr (ChatPage.input s))]) /\
     ChatPage.input (ui w') = "" /\
     ChatPage.loading (ui w') = true /\
     ChatPage.log (ui w') =
       (ChatPage.log s ++
        [ {| ChatPage.from := ChatPage.user; ChatPage.text := ChatPage.input s;
             ChatPage.id := ChatPage.stamp now |} ])%list).
Proof.
  destruct w as [s hw storage l]. cbv zeta. cbn [ui].
  unfold ChatPage.handleKeyDown, ChatPage.send_begin. split.
  - intros [Hk|[Hc|[Hl|Hb]]].
    + apply String.eqb_neq in Hk. rewrite Hk. reflexivity.
    + rewrite Hc, andb_false_r. reflexivity.
    + rewrite Hl. cbn [negb]. rewrite andb_false_r. reflexivity.
    + rewrite Hb. cbn [orb].
      destruct (String.eqb key "Enter" && ctrlKey && negb (ChatPage.loading s));
        reflexivity.
  - intros -> -> Hl Hb. rewrite Hl, Hb.
    change (String.eqb "Enter" "Enter") with true. cbn [negb andb orb].
    eexists. split; [reflexivity|]. repeat split.
Qed.

Lemma chat_sends_on_ctrl_enter_only_witness :
  let w := fresh (ChatPage.setInput "Is this article real?" ChatPage.initial) ∅ in
  "a" <> "Enter" /\
  exec (ChatPage.handleKeyDown (ui w) "a" true 1700000000000) w = w.
Proof.
  cbv zeta. split; [discriminate|].
  destruct (chat_sends_on_ctrl_enter_only
              (fresh (ChatPage.setInput "Is this article real?" ChatPage.initial) ∅)
              "a" true 1700000000000) as [Hnone _].
  apply Hnone. left. discriminate.
Defined.

(** X14.  A send that starts, whatever the answer, ends normally with
    exactly one request sent and the conversation longer by one exchange:
    the message of the user, then one message of the bot, which is the reply
    of the server when there is one and the fixed apology otherwise; the
    input is empty and [loading] is cleared.  A send with a blank input, or
    while another one is running, does nothing at all. *)
Theorem send_adds_one_exchange
    (s : ChatPage.State) (storage : gmap string string)
    (now : Z) (res : AxiosResult Api.ChatReply) (now' : Z) :
  let m := ChatPage.send s now res now' in
  let w' := exec m (fresh s storage) in
  (Str.blank (ChatPage.input s) || ChatPage.loading s = true ->
   m (fresh s storage) = (Done tt, fresh s storage)) /\
  (Str.blank (ChatPage.input s) || ChatPage.loading s = false ->
   fst (m (fresh s storage)) = Done tt /\
   effects m (fresh s storage) =
     [Sent (api_request POST "/api/v1/chat"
              (Some (VObj [("message", VStr (ChatPage.input s))])) storage)] /\
   ChatPage.log (ui w') =
     (ChatPage.log s ++
      [ {| ChatPage.from := ChatPage.user; ChatPage.text := ChatPage.input s;
           ChatPage.id := ChatPage.stamp now |};
        {| ChatPage.from := ChatPage.bot;
           ChatPage.text := match res with
                            | Fulfilled r => Api.reply r
                            | Rejected _ => ChatPage.apology
                            end;
           ChatPage.id := ChatPage.stamp (now' + 1) |} ])%list /\
   ChatPage.input (ui w') = "" /\
   ChatPage.loading (ui w') = false).
Proof.
  cbv zeta. unfold ChatPage.send. split; intros Hguard; rewrite Hguard.
  - reflexivity.
  - destruct res as [r|e].
    all: split; [reflexivity|]; split; [reflexivity|];
         split; [|split; reflexivity].
    all: run_monad;
         cbn [ChatPage.log ChatPage.setLog ChatPage.setInput ChatPage.setLoading];
         rewrite <- app_assoc; reflexivity.
Qed.

Lemma send_adds_one_exchange_witness :
  let s := ChatPage.setInput "Is this article real?" ChatPage.initial in
  Str.blank (ChatPage.input s) || ChatPage.loading s = false /\
  ChatPage.input
    (ui (exec (ChatPage.send s 1700000000000
                 (Fulfilled {| Api.reply := "It looks fabricated." |}) 1700000000900)
              (fresh s ∅))) = "".
Proof.
  cbv zeta. split; [reflexivity|].
  destruct (send_adds_one_exchange
              (ChatPage.setInput "Is this article real?" ChatPage.initial) ∅
              1700000000000 (Fulfilled {| Api.reply := "It looks fabricated." |})
              1700000000900) as [_ Hsend].
  destruct (Hsend eq_refl) as (_ & _ & _ & Hinput & _). exact Hinput.
Defined.

(** ** The bulk analysis page *)

(** X15.  Analyze All sends, whatever comes back, one POST of
    /api/v1/analyze/batch whose body lists the texts of all the textareas,
    in order.  When the answer is a JSON object, its "results" array becomes
    the results of the page, and a missing or null "results" gives no result.
    When there is no answer, or the answer is not JSON or is null, the
    handler throws and the page is left as it was, the results of an earlier
    analysis included. *)
Theorem bulk_analysis_outcomes
    (s : BulkAnalyze.State) (storage : gmap string string) (res : FetchResult) :
  let m := BulkAnalyze.analyze s res in
  let w' := exec m (fresh s storage) in
  sends m (fresh s storage) =
    [ {| method := POST; via := Fetch; url := "/api/v1/analyze/batch";
         headers := [("Content-Type", "application/json")];
         withCredentials := None;
         body := Some (VObj [("texts", VArr (VStr <$> BulkAnalyze.texts s))]) |} ] /\
  (forall fields items,
     res = Body (VObj fields) -> assoc "results" fields = VArr items ->
     fst (m (fresh s storage)) = Done tt /\
     BulkAnalyze.results (ui w') = items /\
     BulkAnalyze.texts (ui w') = BulkAnalyze.texts s) /\
  (forall fields,
     res = Body (VObj fields) ->
     assoc "results" fields = VUndefined \/ assoc "results" fields = VNull ->
     BulkAnalyze.results (ui w') = []) /\
  (res = NetworkDown \/ res = NotJson \/ res = Body VNull ->
   (exists e, fst (m (fresh s storage)) = Thrown e) /\ ui w' = s).
Proof.
  cbv zeta. split; [|split; [|split]].
  - destruct res as [[]| |]; reflexivity.
  - intros fields items -> Hitems. unfold BulkAnalyze.analyze, exec.
    run_monad. unfold fetch_post, fetch_json, prop. run_monad.
    cbn [field]. rewrite Hitems. destruct s; repeat split.
  - intros fields -> Hnone. unfold BulkAnalyze.analyze, exec.
    run_monad. unfold fetch_post, fetch_json, prop. run_monad.
    cbn [field]. destruct Hnone as [-> | ->]; reflexivity.
  - intros [-> | [-> | ->]]; (split; [eexists; reflexivity|]); destruct s; reflexivity.
Qed.

Lemma bulk_analysis_outcomes_witness :
  BulkAnalyze.results
    (ui (exec (BulkAnalyze.analyze BulkAnalyze.initial
                 (Body (VObj [("results", VArr [sample_verdict])])))
              (fresh BulkAnalyze.initial ∅)))
  = [sample_verdict].
Proof.
  destruct (bulk_analysis_outcomes BulkAnalyze.initial ∅
              (Body (VObj [("results", VArr [sample_verdict])])))
    as (_ & Hobject & _).
  exact (proj1 (proj2 (Hobject _ _ eq_refl eq_refl))).
Defined.

(** X16.  Editing the texts of the bulk page: Add Text appends one empty
    text and keeps the others; typing in the textarea at a position of the
    list replaces the text at that position and keeps the number of texts
    and every other text; so Add Text followed by typing [v] in the new
    textarea appends [v].  Neither sends anything nor touches the results. *)
Theorem bulk_texts_editing
    (w : World BulkAnalyze.State) (index : nat) (value : string) :
  let s := ui w in
  let added := exec (BulkAnalyze.addText s) w in
  let updated := exec (BulkAnalyze.updateText s index value) w in
  BulkAnalyze.texts (ui added) = (BulkAnalyze.texts s ++ [""])%list /\
  (index < length (BulkAnalyze.texts s) ->
   length (BulkAnalyze.texts (ui updated)) = length (BulkAnalyze.texts s) /\
   BulkAnalyze.texts (ui updated) !! index = Some value /\
   forall j, j <> index ->
     BulkAnalyze.texts (ui updated) !! j = BulkAnalyze.texts s !! j) /\
  BulkAnalyze.texts
    (ui (exec (BulkAnalyze.updateText (ui added)
                 (length (BulkAnalyze.texts s)) value) added))
    = (BulkAnalyze.texts s ++ [value])%list /\
  log added = log w /\ log updated = log w /\
  BulkAnalyze.results (ui added) = BulkAnalyze.results s /\
  BulkAnalyze.results (ui updated) = BulkAnalyze.results s.
Proof.
  destruct w as [s hw storage l]. cbv zeta. cbn [ui].
  split; [reflexivity|]. split; [|split; [|repeat split]].
  - intros Hi.
    change (BulkAnalyze.texts (ui (exec (BulkAnalyze.updateText s index value)
                                        (mkWorld s hw storage l))))
      with (<[index := value]> (BulkAnalyze.texts s)).
    split; [apply length_insert|]. split.
    + apply list_lookup_insert_eq. exact Hi.
    + intros j Hj. apply list_lookup_insert_ne. congruence.
  - change (BulkAnalyze.texts (ui (exec _ _)))
      with (<[length (BulkAnalyze.texts s) := value]> (BulkAnalyze.texts s ++ [""])%list).
    rewrite insert_app_r_alt by lia. rewrite Nat.sub_diag. reflexivity.
Qed.

Lemma bulk_texts_editing_witness :
  0 < length (BulkAnalyze.texts (ui (fresh BulkAnalyze.initial ∅))) /\
  BulkAnalyze.texts
    (ui (exec (BulkAnalyze.updateText BulkAnalyze.initial 0 "Cats can fly")
              (fresh BulkAnalyze.initial ∅))) !! 0 = Some "Cats can fly".
Proof.
  assert (H : 0 < length (BulkAnalyze.texts (ui (fresh BulkAnalyze.initial ∅))))
    by (cbn; lia).
  split; [exact H|].
  destruct (bulk_texts_editing (fresh BulkAnalyze.initial ∅) 0 "Cats can fly")
    as (_ & Hupdate & _).
  exact (proj1 (proj2 (Hupdate H))).
Defined.

(** ** The extension: what it does not do *)

(** X17.  The extension stays silent when things go wrong.  A click on
    another context-menu entry does nothing.  When the backend does not
    answer, or answers with something that is not JSON or with null, the
    request has been sent but nothing is presented, neither a notification
    nor a result in the popup, and no error either.  Without an active tab
    the popup's handler throws before sending; when the script injection
    fails or returns nothing, nothing is sent and nothing is presented. *)
Theorem extension_silent_on_failure (storage : gmap string string) :
  (forall info res w,
     Extension.menuItemId info <> "analyzeText" ->
     Extension.onClicked info res w = (Done tt, w)) /\
  (forall info res,
     Extension.menuItemId info = "analyzeText" ->
     res = NetworkDown \/ res = NotJson \/ res = Body VNull ->
     Extension.onClicked info res (fresh tt storage) =
       (Done tt,
        mkWorld tt true storage
          [Sent {| method := POST; via := Fetch; url := Extension.endpoint;
                   headers := [("Content-Type", "application/json")];
                   withCredentials := None;
                   body := Some (Extension.text_body (Extension.selectionText info)) |}])) /\
  (forall tab tabs text others res,
     res = NetworkDown \/ res = NotJson \/ res = Body VNull ->
     Extension.on_analyze_click (tab :: tabs)
       (Some ({| Extension.result := text |} :: others)) res (fresh tt storage) =
       (Done tt, mkWorld tt true storage [Sent (extension_request text)])) /\
  (forall injected res w,
     Extension.on_analyze_click [] injected res w = (Thrown TypeError, w)) /\
  (forall tab tabs injected res w,
     injected = None \/ injected = Some [] ->
     Extension.on_analyze_click (tab :: tabs) injected res w = (Done tt, w)).
Proof.
  split; [|split; [|split; [|split]]].
  - intros info res w Hid. unfold Extension.onClicked.
    apply String.eqb_neq in Hid. rewrite Hid. reflexivity.
  - intros info res Hid Hres. unfold Extension.onClicked. rewrite Hid.
    change (String.eqb "analyzeText" "analyzeText") with true. cbn iota.
    destruct Hres as [-> | [-> | ->]]; reflexivity.
  - intros tab tabs text others res [-> | [-> | ->]]; reflexivity.
  - intros injected res w. reflexivity.
  - intros tab tabs injected res w [-> | ->]; destruct w; reflexivity.
Qed.

Lemma extension_silent_on_failure_witness :
  "openOptions" <> "analyzeText" /\
  effects (Extension.onClicked
             {| Extension.menuItemId := "openOptions";
                Extension.selectionText := Some "Breaking: cats can fly" |}
             (Body sample_verdict)) (fresh tt ∅) = [].
Proof.
  split; [discriminate|].
  destruct (extension_silent_on_failure ∅) as (Hother & _).
  unfold effects, exec. cbn [ui has_window localStorage fresh].
  rewrite Hother by discriminate. reflexivity.
Defined.

(** X18.  Only the requests of the [api] instance carry the bearer token.
    Every request an operation of the client sends goes either through the
    instance, which is created with [withCredentials: true], and then it
    carries the bearer token of localStorage when there is one; or through
    [fetch], and then its only header is the JSON content type, whatever
    localStorage holds, and the call sets no credentials option.  The
    requests of the extension and of the bulk analysis page are of the
    second kind, and those of the extension all go to
    http://localhost:8000/api/v1/analyze. *)
Theorem only_api_requests_are_authenticated
    (op : Operation) (storage : gmap string string) (r : Request) :
  r ∈ requests_of op storage ->
  (via r = Axios /\ withCredentials r = Some true /\
   headers r = Api.interceptor true (storage !! "access_token")) \/
  (via r = Fetch /\ withCredentials r = None /\
   headers r = [("Content-Type", "application/json")] /\
   ((exists s res, op = BulkAnalysis s res) \/
    (url r = Extension.endpoint /\
     ((exists info res, op = ContextMenuClick info res) \/
      (exists tabs injected res, op = PopupClick tabs injected res))))).
Proof.
  intros H. destruct op.
  - destruct res, stats_res; cbv -[lookup Api.interceptor] in H; members H;
      left; repeat split.
  - destruct history_res, stats_res; cbv -[lookup Api.interceptor] in H;
      members H; left; repeat split.
  - destruct review_res, history_res, stats_res;
      cbv -[lookup Api.interceptor] in H; members H; left; repeat split.
  - unfold requests_of, sends, effects, ChatPage.send in H.
    cbn [ui fresh] in H.
    destruct (Str.blank (ChatPage.input s) || ChatPage.loading s);
      destruct res; cbv -[lookup Api.interceptor] in H; members H;
      left; repeat split.
  - rewrite signup_sends in H. members H. left. repeat split.
  - rewrite login_sends in H. members H. left. repeat split.
  - cbv in H. members H.
  - destruct res as [[]| |]; cbv -[lookup Api.interceptor] in H; members H;
      right; (split; [reflexivity|]); (split; [reflexivity|]);
      (split; [reflexivity|]); left; repeat eexists.
  - destruct info as [item selection].
    unfold requests_of, sends, effects, Extension.onClicked in H.
    cbn [Extension.menuItemId Extension.selectionText] in H.
    destruct (String.eqb item "analyzeText");
      destruct res as [[]| |]; cbv in H; members H;
      right; (split; [reflexivity|]); (split; [reflexivity|]);
      (split; [reflexivity|]); right; (split; [reflexivity|]);
      left; repeat eexists.
  - destruct tabs as [|tab tabs]; [cbv in H; members H|].
    destruct injected as [[|first others]|]; destruct res as [[]| |];
      cbv in H; members H;
      right; (split; [reflexivity|]); (split; [reflexivity|]);
      (split; [reflexivity|]); right; (split; [reflexivity|]);
      right; repeat eexists.
Qed.

Lemma only_api_requests_are_authenticated_witness :
  extension_request "Breaking: cats can fly"
    ∈ requests_of (ContextMenuClick sample_click NetworkDown)
                  (<["access_token" := "A1"]> ∅) /\
  headers (extension_request "Breaking: cats can fly")
    <> Api.interceptor true
         ((<["access_token" := "A1"]> ∅ : gmap string string) !! "access_token").
Proof.
  assert (Hin : extension_request "Breaking: cats can fly"
                  ∈ requests_of (ContextMenuClick sample_click NetworkDown)
                                (<["access_token" := "A1"]> ∅))
    by apply list_elem_of_here.
  split; [exact Hin|].
  destruct (only_api_requests_are_authenticated _ _ _ Hin)
    as [(Hvia & _)|(_ & _ & Hheaders & _)].
  - discriminate Hvia.
  - rewrite Hheaders. discriminate.
Defined.

(** ** The error texts of the signup and login pages *)

(** X19.  What the two forms make of a failure.  The [catch] block of the
    login page always completes and leaves an error text: the fixed "Login
    failed" when the error carries no truthy detail.  The [catch] block of
    the signup page leaves "Signup failed" in that case, and "message: "
    followed by the errors joined by ", " for a detail object with a truthy
    message and an array of errors; it throws, a TypeError, leaving the page
    as it was, exactly when the detail is an object whose message is truthy
    and whose errors are truthy but not an array; when it completes it
    leaves an error text. *)
Theorem error_texts_of_the_forms (e : exn) :
  (forall w : World LoginPage.State,
     let w' := exec (LoginPage.failed e) w in
     fst (LoginPage.failed e w) = Done tt /\
     LoginPage.err (ui w') <> [] /\
     (truthy (error_detail e) = false -> LoginPage.err (ui w') = [Lit "Login failed"])) /\
  (forall w : World SignupPage.State,
     let w' := exec (SignupPage.failed e) w in
     (truthy (error_detail e) = false ->
        fst (SignupPage.failed e w) = Done tt /\
        SignupPage.err (ui w') = [Lit "Signup failed"]) /\
     (forall fields errors,
        error_detail e = VObj fields ->
        truthy (assoc "message" fields) = true ->
        assoc "errors" fields = VArr errors ->
        fst (SignupPage.failed e w) = Done tt /\
        SignupPage.err (ui w') =
          [Interp (assoc "message" fields); Lit ": "; Joined errors ", "]) /\
     (fst (SignupPage.failed e w) = Done tt -> SignupPage.err (ui w') <> []) /\
     (SignupPage.failed e w = (Thrown TypeError, w) <->
        is_object (error_detail e) = true /\
        truthy (field "message" (error_detail e)) = true /\
        truthy (field "errors" (error_detail e)) = true /\
        forall errors, field "errors" (error_detail e) <> VArr errors) /\
     (fst (SignupPage.failed e w) = Done tt \/
      SignupPage.failed e w = (Thrown TypeError, w))).
Proof.
  split.
  - intros w. cbv zeta. unfold LoginPage.failed, exec.
    destruct (is_object (error_detail e)) eqn:Ho.
    + split; [reflexivity|]. split; [discriminate|].
      intros Hf. apply object_is_truthy in Ho. congruence.
    + split; [reflexivity|]. cbn. split.
      * destruct (truthy (error_detail e)); discriminate.
      * intros ->. reflexivity.
  - intros w. cbv zeta. unfold exec. rewrite signup_failed_cases. cbv zeta.
    split; [|split; [|split; [|split]]].
    + intros Hf. destruct (is_object (error_detail e)) eqn:Ho.
      * apply object_is_truthy in Ho. congruence.
      * rewrite Hf. split; reflexivity.
    + intros fields errors Hd Hm He. rewrite Hd. cbn [is_object field].
      rewrite Hm, He. cbn [truthy andb]. split; reflexivity.
    + destruct (is_object (error_detail e)).
      * destruct (truthy (field "message" (error_detail e))
                  && truthy (field "errors" (error_detail e))).
        -- destruct (field "errors" (error_detail e)); cbn; intros H;
             try discriminate H; discriminate.
        -- intros _. cbn. discriminate.
      * intros _. cbn. destruct (truthy (error_detail e)); discriminate.
    + destruct (is_object (error_detail e)).
      * destruct (truthy (field "message" (error_detail e))) eqn:Hm;
          destruct (truthy (field "errors" (error_detail e))) eqn:Ht; cbn [andb].
        -- destruct (field "errors" (error_detail e)) as [| |b|n|str|errs|fs] eqn:He.
           6:{ split; [intros H; discriminate H|].
               intros (_ & _ & _ & Hnot). exfalso. exact (Hnot errs eq_refl). }
           all: split; [intros _|reflexivity].
           all: split; [reflexivity|]; split; [reflexivity|];
                split; [reflexivity|]; intros errs; discriminate.
        -- split; [intros H; discriminate H|]. intros (_ & _ & H & _). discriminate H.
        -- split; [intros H; discriminate H|]. intros (_ & H & _). discriminate H.
        -- split; [intros H; discriminate H|]. intros (_ & H & _). discriminate H.
      * split; [intros H; discriminate H|]. intros (H & _). discriminate H.
    + destruct (is_object (error_detail e)).
      * destruct (truthy (field "message" (error_detail e))
                  && truthy (field "errors" (error_detail e))).
        -- destruct (field "errors" (error_detail e)); cbn;
             first [left; reflexivity | right; reflexivity].
        -- left. reflexivity.
      * left. reflexivity.
Qed.

Lemma error_texts_of_the_forms_witness :
  let e := AxiosError (Some (VObj [("detail",
             VObj [("message", VStr "Validation failed");
                   ("errors", VStr "Password too short")])])) in
  SignupPage.failed e (fresh sample_signup ∅) = (Thrown TypeError, fresh sample_signup ∅).
Proof.
  cbv zeta.
  destruct (error_texts_of_the_forms
              (AxiosError (Some (VObj [("detail",
                 VObj [("message", VStr "Validation failed");
                       ("errors", VStr "Password too short")])]))))
    as [_ Hsignup].
  destruct (Hsignup (fresh sample_signup ∅)) as (_ & _ & _ & Hthrows & _).
  apply Hthrows. repeat split. intros errors. discriminate.
Defined.

(** ** Blank inputs *)

Lemma chars_of_chars (l : list ascii) : Str.chars (Str.of_chars l) = l.
Proof. induction l as [|c l IH]; cbn; [reflexivity|]. rewrite IH. reflexivity. Qed.

Lemma length_of_chars (l : list ascii) : String.length (Str.of_chars l) = length l.
Proof. induction l as [|c l IH]; cbn; [reflexivity|]. rewrite IH. reflexivity. Qed.

Lemma length_chars (s : string) : length (Str.chars s) = String.length s.
Proof. induction s as [|c s IH]; cbn; [reflexivity|]. rewrite IH. reflexivity. Qed.

Lemma of_chars_empty (l : list ascii) : Str.of_chars l = "" -> l = [].
Proof. destruct l; [reflexivity|discriminate]. Qed.

Lemma after_spec (p s rest : list ascii) :
  Str.after p s = Some rest -> s = (p ++ rest)%list.
Proof.
  revert s. induction p as [|a p IH]; intros s; cbn.
  - intros [= ->]. reflexivity.
  - destruct s as [|b s]; [discriminate|].
    destruct (Ascii.eqb a b) eqn:E; [|discriminate].
    apply Ascii.eqb_eq in E. subst b. intros H. rewrite (IH s H). reflexivity.
Qed.

Lemma skip_one_spec (ws : list (list ascii)) (s rest : list ascii) :
  Str.skip_one ws s = Some rest -> exists w, w ∈ ws /\ s = (w ++ rest)%list.
Proof.
  induction ws as [|w ws IH]; cbn; [discriminate|].
  destruct (Str.after w s) as [r|] eqn:E.
  - intros [= ->]. exists w. split; [apply list_elem_of_here|]. exact (after_spec _ _ _ E).
  - intros H. destruct (IH H) as (w' & Hin & Hs). exists w'.
    split; [apply list_elem_of_further, Hin|exact Hs].
Qed.

(** What [skip] removes is made of characters among [ws]. *)
Lemma skip_prefix (ws : list (list ascii)) (fuel : nat) (s : list ascii) :
  exists pre, Str.made_of ws pre /\ s = (pre ++ Str.skip ws fuel s)%list.
Proof.
  revert s. induction fuel as [|fuel IH]; intros s; cbn.
  - exists []. split; [constructor|reflexivity].
  - destruct (Str.skip_one ws s) as [rest|] eqn:E.
    + destruct (skip_one_spec _ _ _ E) as (w & Hw & ->).
      destruct (IH rest) as (pre & Hpre & Hrest).
      exists (w ++ pre)%list. split; [constructor; assumption|].
      rewrite <- app_assoc. f_equal. exact Hrest.
    + exists []. split; [constructor|reflexivity].
Qed.

Lemma made_of_app (ws : list (list ascii)) (a b : list ascii) :
  Str.made_of ws a -> Str.made_of ws b -> Str.made_of ws (a ++ b).
Proof.
  intros Ha Hb. induction Ha as [|w s Hw _ IH]; [exact Hb|].
  rewrite <- app_assoc. constructor; assumption.
Qed.

Lemma made_of_reverse (ws : list (list ascii)) (s : list ascii) :
  Str.made_of (reverse <$> ws) s -> Str.made_of ws (reverse s).
Proof.
  intros H. induction H as [|rw s Hrw _ IH]; [constructor|].
  apply list_elem_of_fmap in Hrw as (w & -> & Hw).
  rewrite reverse_app, reverse_involutive.
  apply made_of_app; [exact IH|].
  rewrite <- (app_nil_r w). constructor; [exact Hw|constructor].
Qed.

(** A white-space character at the head of a string is skipped, whole. *)
Lemma skip_one_white_space (w s : list ascii) :
  w ∈ Str.white_space -> Str.skip_one Str.white_space (w ++ s) = Some s /\ w <> [].
Proof.
  intros H. unfold Str.white_space in H.
  repeat (apply elem_of_cons in H as [->|H]; [split; [reflexivity|discriminate]|]).
  apply not_elem_of_nil in H. contradiction.
Qed.

Lemma skip_white_space (s : list ascii) :
  Str.made_of Str.white_space s ->
  forall fuel, length s <= fuel -> Str.skip Str.white_space fuel s = [].
Proof.
  intros H. induction H as [|w s Hw _ IH]; intros fuel Hfuel.
  - destruct fuel; reflexivity.
  - destruct (skip_one_white_space w s Hw) as [Hskip Hne].
    rewrite length_app in Hfuel.
    destruct fuel as [|fuel].
    + destruct w; [congruence|cbn in Hfuel; lia].
    + cbn [Str.skip]. rewrite Hskip. apply IH.
      destruct w; [congruence|cbn in Hfuel; lia].
Qed.

(** A string is blank exactly when it is made of white space only. *)
Lemma blank_iff (s : string) : Str.blank s = true <-> Str.spaces s.
Proof.
  unfold Str.blank, Str.spaces, Str.trim. rewrite String.eqb_eq. split.
  - intros H. unfold Str.trim_end, Str.trim_start in H.
    apply of_chars_empty in H. rewrite chars_of_chars, length_of_chars in H.
    set (t := Str.skip Str.white_space (String.length s) (Str.chars s)) in H.
    destruct (skip_prefix Str.white_space (String.length s) (Str.chars s))
      as (pre & Hpre & Hs). fold t in Hs.
    destruct (skip_prefix (reverse <$> Str.white_space) (length t) (reverse t))
      as (pre' & Hpre' & Ht).
    assert (Hnil : Str.skip (reverse <$> Str.white_space) (length t) (reverse t) = []).
    { apply (f_equal reverse) in H. rewrite reverse_involutive in H. exact H. }
    rewrite Hnil, app_nil_r in Ht. rewrite <- Ht in Hpre'.
    apply made_of_reverse in Hpre'. rewrite reverse_involutive in Hpre'.
    rewrite Hs. apply made_of_app; assumption.
  - intros H. unfold Str.trim_start.
    rewrite (skip_white_space _ H) by (rewrite length_chars; lia).
    reflexivity.
Qed.

(** X20.  A text made of white space only is never sent, and every other
    text is: the chat page's [send] and a click on the home page's Analyze
    button do nothing for an input that is a sequence of the characters
    [trim] removes (the space, the tab, the line terminators, the no-break
    space, the other space characters of Unicode and the byte order mark), the
    empty input in particular; and an input that is not such a sequence is
    sent when nothing is running. *)
Theorem white_space_is_never_sent (text : string) :
  (Str.spaces text ->
   (forall (w : World ChatPage.State) now,
      ChatPage.input (ui w) = text ->
      exec (ChatPage.send_begin (ui w) now) w = w) /\
   (forall w : World Home.State,
      Home.input (ui w) = text ->
      exec (Home.click_analyze (ui w)) w = w /\
      SearchBar.analyze_disabled (Home.search (Home.render (ui w))) = true)) /\
  (~ Str.spaces text ->
   (forall (w : World ChatPage.State) now,
      ChatPage.input (ui w) = text -> ChatPage.loading (ui w) = false ->
      length (requests (log (exec (ChatPage.send_begin (ui w) now) w)))
      = S (length (requests (log w)))) /\
   (forall w : World Home.State,
      Home.input (ui w) = text -> Home.loading (ui w) = false ->
      analyze_count (exec (Home.click_analyze (ui w)) w) = S (analyze_count w))).
Proof.
  split.
  - intros Hall. apply blank_iff in Hall. split.
    + intros w now Hin.
      pose proof (send_begin_world w now) as Hw. cbv zeta in Hw.
      rewrite Hin, Hall in Hw. exact Hw.
    + intros w Hin.
      pose proof (click_analyze_world w) as Hw. cbv zeta in Hw.
      rewrite Hin, Hall, orb_true_r in Hw. split; [exact Hw|].
      unfold Home.render, SearchBar.SearchBar.
      cbn [Home.search SearchBar.analyze_disabled].
      rewrite Hin, Hall. apply orb_true_r.
  - intros Hex.
    assert (Hb : Str.blank text = false).
    { destruct (Str.blank text) eqn:E; [|reflexivity].
      apply blank_iff in E. contradiction. }
    split.
    + intros w now Hin Hl.
      pose proof (send_begin_world w now) as Hw. cbv zeta in Hw.
      rewrite Hin, Hb, Hl in Hw. cbn [orb] in Hw.
      destruct Hw as (_ & r & Hlog & _).
      rewrite Hlog, requests_app, length_app. cbn. lia.
    + intros w Hin Hl.
      pose proof (click_analyze_world w) as Hw. cbv zeta in Hw.
      rewrite Hin, Hb, Hl in Hw. cbn [orb] in Hw. exact (proj2 Hw).
Qed.

Lemma white_space_is_never_sent_witness :
  let w := fresh (ChatPage.setInput wide_blank ChatPage.initial) ∅ in
  Str.spaces wide_blank /\
  exec (ChatPage.send_begin (ui w) 1700000000000) w = w.
Proof.
  cbv zeta.
  assert (H : Str.spaces wide_blank).
  { unfold Str.spaces, wide_blank. rewrite chars_of_chars.
    constructor; [unfold Str.white_space; set_solver|].
    constructor; [unfold Str.white_space; set_solver|].
    rewrite <- (app_nil_r (Str.bytes [227; 128; 128])).
    constructor; [unfold Str.white_space; set_solver|constructor]. }
  split; [exact H|].
  destruct (white_space_is_never_sent wide_blank) as [Hblank _].
  destruct (Hblank H) as [Hchat _].
  exact (Hchat (fresh (ChatPage.setInput wide_blank ChatPage.initial) ∅)
               1700000000000%Z eq_refl).
Defined.

(** ** The accuracy of the dashboard, again *)

(** A finite double divided by itself is exactly 1. *)
Lemma div_self (s : bool) (m : positive) (e : Z) :
  Double.div (S754_finite s m e) (S754_finite s m e) = Double.of_number 1.
Proof.
  unfold Double.div, SFdiv, SFdiv_core_binary.
  replace (Zdigits2 (Z.pos m) + e - (Zdigits2 (Z.pos m) + e))%Z with 0%Z by lia.
  rewrite Z.sub_diag.
  change (Z.min (fexp Double.prec Double.emax 0) 0) with (-53)%Z.
  change (0 - -53)%Z with 53%Z. cbv iota beta.
  assert (Hdiv : Z.div_eucl (Z.shiftl (Z.pos m) 53) (Z.pos m) = (2 ^ 53, 0)%Z).
  { rewrite Z.shiftl_mul_pow2 by lia.
    pose proof (Z.div_mul (2 ^ 53) (Z.pos m) ltac:(lia)) as Hq.
    pose proof (Z.mod_mul (2 ^ 53) (Z.pos m) ltac:(lia)) as Hr.
    rewrite (Z.mul_comm (Z.pos m) (2 ^ 53)).
    unfold Z.div, Z.modulo in Hq, Hr.
    destruct (Z.div_eucl (2 ^ 53 * Z.pos m) (Z.pos m)) as [q r].
    cbn [fst snd] in Hq, Hr. subst q r. reflexivity. }
  rewrite Hdiv.
  assert (Hloc : new_location (Z.pos m) 0 = loc_Exact).
  { unfold new_location. destruct (Z.even (Z.pos m)); reflexivity. }
  rewrite Hloc. destruct s; vm_compute; reflexivity.
Qed.

Lemma div_zero_positive (s : bool) (t : Double.t) :
  Double.gt t Double.zero = true -> Double.div (S754_zero s) t = S754_zero s.
Proof.
  destruct t as [st|st| |st m e]; cbn; try discriminate; destruct st; cbn;
    try discriminate; intros _; destruct s; reflexivity.
Qed.

(** X21.  The two ends of the accuracy, for statistics with reviews
    ([total_reviews > 0]).  When no vote is correct the cell shows "0.0%".
    When the two counts are parsed to the same finite double, every review
    being correct, the quotient is exactly 1, its product by 100 exactly
    100, and the cell shows "100.0%".  When the two counts are so large that
    both are parsed to Infinity, the quotient is NaN and the cell shows
    that. *)
Theorem accuracy_of_unanimous_reviews (st : Stats) :
  let c := Double.of_number (correct_votes st) in
  let t := Double.of_number (total_reviews st) in
  Double.gt t Double.zero = true ->
  ((correct_votes st == 0)%Q ->
     fst (Dashboard.accuracy st) = Dashboard.Percent (Double.Decimal "0.0")) /\
  (c = t -> Double.is_finite t = true ->
     Double.div c t = Double.of_number 1 /\
     Double.mul (Double.div c t) Double.hundred = Double.hundred /\
     fst (Dashboard.accuracy st) = Dashboard.Percent (Double.Decimal "100.0")) /\
  (c = t -> Double.is_finite t = false ->
     fst (Dashboard.accuracy st) = Dashboard.Percent (Double.AsString S754_nan)).
Proof.
  intros c t G. unfold Dashboard.accuracy. fold t c. rewrite G. cbn [fst].
  split; [|split].
  - intros Hz. assert (Hc : c = S754_zero false).
    { subst c. unfold Double.of_number.
      unfold Qeq in Hz. cbn in Hz. rewrite Z.mul_1_r in Hz. rewrite Hz. reflexivity. }
    rewrite Hc, (div_zero_positive false t G). reflexivity.
  - intros Hct Hv. rewrite Hct.
    destruct (gt_zero_cases t G) as [Hs Hnz].
    destruct t as [s|s| |s m e]; try discriminate.
    rewrite div_self. split; [reflexivity|]. split; vm_compute; reflexivity.
  - intros Hct Hv. rewrite Hct.
    destruct (gt_zero_cases t G) as [Hs Hnz].
    destruct t as [s|s| |s m e]; try discriminate.
    destruct s; try discriminate. reflexivity.
Qed.

Lemma accuracy_of_unanimous_reviews_witness :
  Double.gt (Double.of_number (total_reviews unanimous_stats)) Double.zero = true /\
  fst (Dashboard.accuracy unanimous_stats) = Dashboard.Percent (Double.Decimal "100.0").
Proof.
  assert (G : Double.gt (Double.of_number (total_reviews unanimous_stats)) Double.zero
              = true) by (vm_compute; reflexivity).
  split; [exact G|].
  destruct (accuracy_of_unanimous_reviews unanimous_stats G) as (_ & Hall & _).
  exact (proj2 (proj2 (Hall eq_refl eq_refl))).
Defined.

(** ** The conversation of the chat page *)

Lemma messages_from_snoc (who : ChatPage.Sender) (l : list ChatPage.Msg)
    (m : ChatPage.Msg) :
  messages_from who (l ++ [m]) =
  messages_from who l + (if decide (ChatPage.from m = who) then 1 else 0).
Proof.
  unfold messages_from. rewrite filter_app, length_app. f_equal.
  rewrite filter_cons, filter_nil. destruct (decide (ChatPage.from m = who));
    reflexivity.
Qed.

(** What the two parts of [send] do to the conversation. *)
Lemma send_begin_conversation (w : World ChatPage.State) (now : Z) :
  let w' := exec (ChatPage.send_begin (ui w) now) w in
  if Str.blank (ChatPage.input (ui w)) || ChatPage.loading (ui w)
  then w' = w
  else (exists m, ChatPage.from m = ChatPage.user /\
          ChatPage.log (ui w') = (ChatPage.log (ui w) ++ [m])%list) /\
       exists r, log w' = (log w ++ [Sent r])%list.
Proof.
  destruct w as [s hw storage l]. cbv zeta. cbn [ui log].
  unfold ChatPage.send_begin.
  destruct (Str.blank (ChatPage.input s) || ChatPage.loading s); [reflexivity|].
  split; [|eexists; reflexivity].
  eexists. (split; [|reflexivity]). reflexivity.
Qed.

Lemma send_settle_conversation (w : World ChatPage.State)
    (res : AxiosResult Api.ChatReply) (now : Z) :
  let w' := exec (ChatPage.send_settle res now) w in
  (exists m, ChatPage.from m = ChatPage.bot /\
     ChatPage.log (ui w') = (ChatPage.log (ui w) ++ [m])%list) /\
  log w' = log w.
Proof.
  destruct res; (split; [|reflexivity]); eexists; (split; [|reflexivity]);
    reflexivity.
Qed.

Lemma exchange_send_begin (s : ChatSystem.Sys) (now : Z) :
  exchange_inv s ->
  exchange_inv {| ChatSystem.world :=
                    exec (ChatPage.send_begin (ui (ChatSystem.world s)) now)
                         (ChatSystem.world s);
                  ChatSystem.settled := ChatSystem.settled s |}.
Proof.
  intros [Hu Hb]. pose proof (send_begin_conversation (ChatSystem.world s) now) as Hw.
  cbv zeta in Hw. unfold exchange_inv. cbn [ChatSystem.world ChatSystem.settled].
  destruct (Str.blank (ChatPage.input (ui (ChatSystem.world s)))
            || ChatPage.loading (ui (ChatSystem.world s))).
  - rewrite Hw. split; assumption.
  - destruct Hw as [(m & Hm & Hconv) (r & Hlog)].
    rewrite Hconv, Hlog, requests_app, length_app, !messages_from_snoc, Hm.
    rewrite Hu, Hb. cbn [requests length].
    destruct (decide (ChatPage.user = ChatPage.user)); [|congruence].
    destruct (decide (ChatPage.user = ChatPage.bot)); [discriminate|].
    split; lia.
Qed.

Lemma exchange_step (s s' : ChatSystem.Sys) (e : ChatSystem.event) :
  is_clear e = false ->
  exchange_inv s -> ChatSystem.step s e = Some s' -> exchange_inv s'.
Proof.
  intros Hclear Hinv Hstep.
  destruct e as [v|now|key ctrl now| |res now]; cbn in Hstep; try discriminate Hclear.
  - injection Hstep as <-. exact Hinv.
  - injection Hstep as <-. apply exchange_send_begin, Hinv.
  - injection Hstep as <-. unfold ChatPage.handleKeyDown.
    destruct (String.eqb key "Enter" && ctrl
              && negb (ChatPage.loading (ui (ChatSystem.world s)))).
    + apply exchange_send_begin, Hinv.
    + destruct s; exact Hinv.
  - destruct (in_flight (ChatSystem.world s) (ChatSystem.settled s) =? 0)%nat;
      [discriminate|].
    injection Hstep as <-. destruct Hinv as [Hu Hb].
    pose proof (send_settle_conversation (ChatSystem.world s) res now)
      as [(m & Hm & Hconv) Hlog].
    unfold exchange_inv. cbn [ChatSystem.world ChatSystem.settled].
    rewrite Hconv, Hlog, !messages_from_snoc, Hm. rewrite Hu, Hb.
    destruct (decide (ChatPage.bot = ChatPage.user)); [discriminate|].
    destruct (decide (ChatPage.bot = ChatPage.bot)); [|congruence].
    split; lia.
Qed.

Lemma exchange_run (events : list ChatSystem.event) (s s' : ChatSystem.Sys) :
  forallb (fun e => negb (is_clear e)) events = true ->
  exchange_inv s -> ChatSystem.run s events = Some s' -> exchange_inv s'.
Proof.
  revert s. induction events as [|e events IH]; intros s Hclear Hinv Hrun;
    cbn in Hrun, Hclear.
  - injection Hrun as <-. exact Hinv.
  - apply andb_true_iff in Hclear as [He Hrest]. apply negb_true_iff in He.
    destruct (ChatSystem.step s e) as [s1|] eqn:Hstep; [|discriminate].
    cbn in Hrun. eapply IH; [exact Hrest| |exact Hrun].
    eapply exchange_step; eassumption.
Qed.

(** X22.  The conversation keeps the books of the requests.  In every run
    of the chat page in which Clear is not clicked, the conversation holds
    one message of the user for each request sent and one message of the bot
    for each request settled; so the bot never has more messages than the
    user, the user is at most one message ahead, and is ahead exactly while
    [loading] is set. *)
Theorem conversation_matches_requests
    (storage : gmap string string) (events : list ChatSystem.event)
    (s : ChatSystem.Sys) :
  forallb (fun e => negb (is_clear e)) events = true ->
  ChatSystem.run (ChatSystem.start storage) events = Some s ->
  let conversation := ChatPage.log (ui (ChatSystem.world s)) in
  let asked := messages_from ChatPage.user conversation in
  let answered := messages_from ChatPage.bot conversation in
  asked = length (requests (log (ChatSystem.world s))) /\
  answered = ChatSystem.settled s /\
  length conversation = asked + answered /\
  answered <= asked <= answered + 1 /\
  (ChatPage.loading (ui (ChatSystem.world s)) = true <-> asked = answered + 1).
Proof.
  intros Hclear Hrun. cbv zeta.
  assert (Hex : exchange_inv s).
  { eapply exchange_run; [exact Hclear| |exact Hrun]. split; reflexivity. }
  pose proof (chat_run_inv events _ s (chat_start_inv storage) Hrun) as Hinv.
  destruct Hex as [Hu Hb]. split; [exact Hu|]. split; [exact Hb|].
  split.
  - unfold messages_from.
    set (l := ChatPage.log (ui (ChatSystem.world s))). clearbody l.
    clear. induction l as [|m l IH]; [reflexivity|].
    rewrite !filter_cons. destruct m as [[|] t i]; cbn [ChatPage.from].
    + destruct (decide (ChatPage.user = ChatPage.user)); [|congruence].
      destruct (decide (ChatPage.user = ChatPage.bot)); [discriminate|].
      cbn [length]. rewrite IH. lia.
    + destruct (decide (ChatPage.bot = ChatPage.user)); [discriminate|].
      destruct (decide (ChatPage.bot = ChatPage.bot)); [|congruence].
      cbn [length]. rewrite IH. lia.
  - rewrite Hu, Hb. unfold chat_inv in Hinv.
    destruct Hinv as [[Hl Hn]|[Hl Hn]]; rewrite Hl, Hn.
    + split; [lia|]. split; [intros _; lia|reflexivity].
    + split; [lia|]. split; [discriminate|lia].
Qed.

Lemma conversation_matches_requests_witness :
  exists s,
    ChatSystem.run (ChatSystem.start ∅)
      [ChatSystem.Typed "Is this article real?";
       ChatSystem.SendClicked 1700000000000;
       ChatSystem.Settled (Rejected None) 1700000000900;
       ChatSystem.Typed "And this one?";
       ChatSystem.KeyPressed "Enter" true 1700000002000] = Some s /\
    messages_from ChatPage.user (ChatPage.log (ui (ChatSystem.world s)))
    = length (requests (log (ChatSystem.world s))).
Proof.
  eexists. split; [reflexivity|].
  refine (proj1 (conversation_matches_requests ∅
    [ChatSystem.Typed "Is this article real?";
     ChatSystem.SendClicked 1700000000000;
     ChatSystem.Settled (Rejected None) 1700000000900;
     ChatSystem.Typed "And this one?";
     ChatSystem.KeyPressed "Enter" true 1700000002000] _ eq_refl _)).
  reflexivity.
Defined.
